(** * Morpheus-Generator: the keybox validators

  A shallow embedding of the three keybox validators of the repository:

  - [Validator]  : src/pages/Validator.tsx (categorical status, with WEAK);
  - [Part000]    : unnamed/part_000 (categorical status, earlier variant);
  - [Part001]    : unnamed/part_001 (numeric score).

  The XML parser (fast-xml-parser), the X.509 decoder and hash (jsrsasign),
  the date helpers (date-fns, [Date]), the translation table [t] and the
  clock are collaborators outside the repository: each validator takes them
  as one record of functions.  The audit log of Validator.tsx and the [info]
  table of part_001 are display data that no computed field reads back; they
  are not part of the report records.  The audit log is modelled on its own
  in [ValidatorLog], and the browser store of src/utils/storage.ts in
  [Storage]. *)

From Stdlib Require Import ZArith List String Ascii Bool Lia DecimalString.
From Stdlib Require Import Permutation.
Import ListNotations.

Local Open Scope string_scope.

(** ** JavaScript values and string primitives *)

Module Js.

(** What [XMLParser.parse] builds: text, numbers and booleans for leaf tags
    (numeric text becomes a number), objects for nested tags, arrays for
    repeated tags; [VUndefined] is what reading a missing property gives.
    The validators only test a number for truthiness, so integers stand for
    all of them. *)
#[warnings="-register-all"]
Inductive value : Type :=
| VUndefined
| VString (s : string)
| VNumber (n : Z)
| VBool (b : bool)
| VArray (items : list value)
| VObject (fields : list (string * value)).

(** ToBoolean. *)
Definition truthy (v : value) : bool :=
  match v with
  | VUndefined => false
  | VString s => negb (String.eqb s "")
  | VNumber n => negb (Z.eqb n 0)
  | VBool b => b
  | VArray _ => true
  | VObject _ => true
  end.

Fixpoint lookup (name : string) (fields : list (string * value)) : value :=
  match fields with
  | [] => VUndefined
  | (k, v) :: rest => if String.eqb k name then v else lookup name rest
  end.

(** [v.name] for the tag names the validators read (none of them is a
    built-in property of strings, numbers or arrays).  Every plain [.] of
    the sources is applied to a value already tested truthy, and [?.] gives
    undefined on undefined, so the access never throws. *)
Definition get (v : value) (name : string) : value :=
  match v with
  | VObject fields => lookup name fields
  | _ => VUndefined
  end.

(** [a || b] *)
Definition or_else (a b : value) : value := if truthy a then a else b.

(** [v === 'lit'] *)
Definition strict_eq_string (v : value) (lit : string) : bool :=
  match v with
  | VString s => String.eqb s lit
  | _ => false
  end.

Definition isArray (v : value) : bool :=
  match v with VArray _ => true | _ => false end.

Definition lower_ascii (c : ascii) : ascii :=
  let n := nat_of_ascii c in
  if (Nat.leb 65 n && Nat.leb n 90)%bool then ascii_of_nat (n + 32) else c.

(** [s.toLowerCase()], on the ASCII letters. *)
Fixpoint toLowerCase (s : string) : string :=
  match s with
  | EmptyString => EmptyString
  | String c rest => String (lower_ascii c) (toLowerCase rest)
  end.

(** [hay.includes(needle)] *)
Fixpoint includes (hay needle : string) : bool :=
  if String.prefix needle hay then true
  else match hay with
       | EmptyString => false
       | String _ rest => includes rest needle
       end.

(** [s.substring(a, b)]: both ends are clamped to the length and swapped
    when out of order. *)
Definition substring (s : string) (a b : nat) : string :=
  let len := String.length s in
  let a' := Nat.min a len in
  let b' := Nat.min b len in
  String.substring (Nat.min a' b') (Nat.max a' b' - Nat.min a' b') s.

(** [s.split(',')[0]] *)
Fixpoint before_comma (s : string) : string :=
  match s with
  | EmptyString => EmptyString
  | String c rest =>
      if Ascii.eqb c ","%char then EmptyString else String c (before_comma rest)
  end.

Fixpoint drop (n : nat) (s : string) : string :=
  match n, s with
  | O, _ => s
  | S n', EmptyString => EmptyString
  | S n', String _ rest => drop n' rest
  end.

(** [s.replace(pat, '')] with a string pattern: the first occurrence only. *)
Fixpoint remove_first (pat s : string) : string :=
  if String.prefix pat s then drop (String.length pat) s
  else match s with
       | EmptyString => EmptyString
       | String c rest => String c (remove_first pat rest)
       end.

(** *** Strings as UTF-16

    A JavaScript string is a sequence of UTF-16 code units, and [length],
    [trim] and [split('')] see those units.  A [string] here holds the UTF-8
    encoding of the text, so the three decode it first.  Bytes that are not
    well-formed UTF-8 encode no JavaScript string: on them the decoding only
    has to be total, and reads each stray byte as one U+FFFD. *)

Definition byte (c : ascii) : N := N_of_ascii c.

(** A continuation byte, 10xxxxxx. *)
Definition continuation (c : ascii) : bool :=
  (N.leb 128 (byte c) && N.ltb (byte c) 192)%bool.

Definition payload (c : ascii) : N := N.land (byte c) 63.

Definition replacement : N := 65533.

(** The characters of a text: each code point with the bytes that encode
    it (one byte below U+0080, two below U+0800, three below U+10000, four
    above). *)
Fixpoint characters (s : string) : list (N * string) :=
  match s with
  | EmptyString => []
  | String a r1 =>
      let b := byte a in
      if N.ltb b 128 then (b, String a EmptyString) :: characters r1
      else
        match r1 with
        | EmptyString => [(replacement, String a EmptyString)]
        | String a2 r2 =>
            if (N.leb 192 b && N.ltb b 224 && continuation a2)%bool
            then ((N.land b 31 * 64 + payload a2)%N,
                  String a (String a2 EmptyString)) :: characters r2
            else
              match r2 with
              | EmptyString =>
                  (replacement, String a EmptyString) :: characters r1
              | String a3 r3 =>
                  if (N.leb 224 b && N.ltb b 240
                      && continuation a2 && continuation a3)%bool
                  then (((N.land b 15 * 64 + payload a2) * 64 + payload a3)%N,
                        String a (String a2 (String a3 EmptyString)))
                       :: characters r3
                  else
                    match r3 with
                    | EmptyString =>
                        (replacement, String a EmptyString) :: characters r1
                    | String a4 r4 =>
                        if (N.leb 240 b && N.ltb b 248 && continuation a2
                            && continuation a3 && continuation a4)%bool
                        then ((((N.land b 7 * 64 + payload a2) * 64
                                + payload a3) * 64 + payload a4)%N,
                              String a (String a2 (String a3 (String a4 EmptyString))))
                             :: characters r4
                        else (replacement, String a EmptyString) :: characters r1
                    end
              end
        end
  end.

(** The UTF-16 code units of a code point: itself in the basic plane, a
    surrogate pair above it. *)
Definition units (cp : N) : list N :=
  if N.ltb cp 65536 then [cp]
  else [(55296 + N.shiftr (cp - 65536) 10)%N;
        (56320 + N.land (cp - 65536) 1023)%N].

Definition codeUnits (s : string) : list N :=
  flat_map (fun ch => units (fst ch)) (characters s).

(** [s.length]: the number of UTF-16 code units. *)
Definition length (s : string) : nat := List.length (codeUnits s).

(** WhiteSpace and LineTerminator of ECMAScript, what [trim] strips: TAB,
    LF, VT, FF, CR, SP, NBSP, U+1680, U+2000 to U+200A, LS, PS, U+202F,
    U+205F, U+3000 and U+FEFF. *)
Definition is_space (cp : N) : bool :=
  (existsb (N.eqb cp)
     [9; 10; 11; 12; 13; 32; 160; 5760; 8232; 8233; 8239; 8287; 12288; 65279]%N
   || (N.leb 8192 cp && N.leb cp 8202))%bool.

Fixpoint trim_start (l : list (N * string)) : list (N * string) :=
  match l with
  | [] => []
  | ch :: rest => if is_space (fst ch) then trim_start rest else l
  end.

Definition trim_end (l : list (N * string)) : list (N * string) :=
  rev (trim_start (rev l)).

(** [s.trim()] *)
Definition trim (s : string) : string :=
  String.concat "" (map snd (trim_end (trim_start (characters s)))).

Fixpoint distinct (l : list N) : list N :=
  match l with
  | [] => []
  | c :: rest =>
      if existsb (N.eqb c) rest then distinct rest else c :: distinct rest
  end.

(** [new Set(s.split('')).size]: [split('')] cuts between code units. *)
Definition distinct_chars (s : string) : nat :=
  List.length (distinct (codeUnits s)).

(** Template-literal rendering of a non-negative integer. *)
Definition decimal (n : nat) : string := NilZero.string_of_uint (Nat.to_uint n).

(** What a [throw] carries: the [message] of the error object. *)
Inductive res (A : Type) : Type :=
| Ok (a : A)
| Throw (message : string).
Arguments Ok {A} a.
Arguments Throw {A} message.

Definition bind {A B : Type} (m : res A) (k : A -> res B) : res B :=
  match m with
  | Ok a => k a
  | Throw msg => Throw msg
  end.

(** A [Date]: milliseconds since the epoch, [None] for an Invalid Date. *)
Definition Date : Type := option Z.

(** [now > d] on dates: false on an Invalid Date (NaN compares false). *)
Definition after (now : Z) (d : Date) : bool :=
  match d with
  | Some ms => Z.ltb ms now
  | None => false
  end.

End Js.

Notation "x <- m ;; k" := (Js.bind m (fun x => k))
(at level 61, m at next level, right associativity).

(** ** The decoder's validity dates (identical text in Validator.tsx and
     part_000) *)

Module CertDate.

Definition year (str : string) : string :=
  if Nat.eqb (String.length str) 13 then "20" ++ Js.substring str 0 2
  else Js.substring str 0 4.

Definition month (str : string) : string :=
  if Nat.eqb (String.length str) 13 then Js.substring str 2 4
  else Js.substring str 4 6.

Definition day (str : string) : string :=
  if Nat.eqb (String.length str) 13 then Js.substring str 4 6
  else Js.substring str 6 8.

(** [parseDate]: the text handed to [new Date(...)]. *)
Definition parseDate (newDate : string -> Js.Date) (str : string) : Js.Date :=
  newDate (year str ++ "-" ++ month str ++ "-" ++ day str).



End CertDate.

(** ** What jsrsasign reads from one certificate *)

Module X509.

(** The getters used after [readCertPEM]. *)
Record cert : Type := {
  getNotAfter : string;
  getNotBefore : string;
  getSerialNumberHex : string;
  getIssuerString : string;
  getSubjectString : string;
  hex : string;
  getSignatureAlgorithmField : string
}.

End X509.

(** ** src/pages/Validator.tsx *)

Module Validator.

Import Js.

Definition LEAK_DB : list string :=
  [ "2b0a09a69c59b482ddb8a21786fdd439";
    "f92009e853b6b045";
    "deadbeef";
    "0c8684c66d5c3f63c2d2494b72b82d50";
    "1e016753308a01c036070b9916296a27" ].

Inductive CertType : Type := ROOT | INTERMEDIATE | END_ENTITY.

Definition CertType_eqb (a b : CertType) : bool :=
  match a, b with
  | ROOT, ROOT | INTERMEDIATE, INTERMEDIATE | END_ENTITY, END_ENTITY => true
  | _, _ => false
  end.

Record CertDetail : Type := {
  index : Z;
  type : CertType;
  serial : string;
  subject : string;
  issuer : string;
  sigAlgo : string;
  notBefore : Date;
  notAfter : Date;
  isExpired : bool;
  isValid : bool;
  isRevoked : bool;
  isGoogleRoot : bool;
  fingerprint : string;
  rawSubject : string;
  rawIssuer : string
}.

Inductive Status : Type := VALID | REVOKED | EXPIRED | INVALID | WEAK.

Definition Status_eqb (a b : Status) : bool :=
  match a, b with
  | VALID, VALID | REVOKED, REVOKED | EXPIRED, EXPIRED
  | INVALID, INVALID | WEAK, WEAK => true
  | _, _ => false
  end.

Record ValidationReport : Type := {
  fileName : string;
  algorithm : value;
  deviceID : value;
  certificates : list CertDetail;
  isValidStructure : bool;
  hasGoogleRoot : bool;
  isStrongIntegrityReady : bool;
  isLeaked : bool;
  seenCount : Z;
  overallStatus : Status;
  expiresOn : string;
  daysRemaining : Z
}.

(** The collaborators of the page. *)
Record Env : Type := {
  (** [new XMLParser().parse(content)]: the tree, or the thrown message *)
  parse : string -> res value;
  (** the translation table of the language context *)
  t : string -> string;
  (** [readCertPEM] and the getters; [None] when any of them throws *)
  readCertPEM : value -> option X509.cert;
  (** [KJUR.crypto.Util.hashHex(hex, 'sha256')] *)
  hashHex : string -> string;
  (** [new Date(text)] *)
  newDate : string -> Date;
  (** [new Date()] while the certificate at an index is decoded *)
  now : Z -> Z;
  (** [new Date()] when the report is built *)
  nowReport : Z;
  (** date-fns [format(d, 'MMM dd, yyyy')] of a valid date *)
  format : Z -> string;
  (** date-fns [differenceInDays] of two valid dates *)
  differenceInDays : Z -> Z -> Z;
  (** the message of the engine's TypeError for calling a non-function *)
  notAFunction : string -> string
}.

Section WithEnv.

Variable E : Env.

Definition calculateFingerprint (hex : string) : string :=
  Js.substring (hashHex E hex) 0 32.

(** The [type] computed inside [parseCertificate]. *)
Definition certType (isGoogleRoot : bool) (issuer subject : string)
    (index total : Z) : CertType :=
  if (isGoogleRoot && String.eqb issuer subject)%bool then ROOT
  else if Z.eqb index 0 then END_ENTITY
  else if Z.eqb index (total - 1) then ROOT
  else INTERMEDIATE.

Definition parseCertificate (pem : value) (index total : Z) : option CertDetail :=
  match readCertPEM E pem with
  | None => None
  | Some cert =>
      let notAfterStr := X509.getNotAfter cert in
      let notBeforeStr := X509.getNotBefore cert in
      let notAfter := CertDate.parseDate (newDate E) notAfterStr in
      let notBefore := CertDate.parseDate (newDate E) notBeforeStr in
      let isExpired := after (now E index) notAfter in
      let serial := X509.getSerialNumberHex cert in
      let issuer := X509.getIssuerString cert in
      let subject := X509.getSubjectString cert in
      let fingerprint := calculateFingerprint (X509.hex cert) in
      let isRevoked :=
        existsb (fun bad => Js.includes (toLowerCase serial) bad) LEAK_DB in
      let isGoogleRoot := Js.includes (toLowerCase issuer) "google" in
      Some {|
        index := index + 1;
        type := certType isGoogleRoot issuer subject index total;
        serial := serial;
        subject := remove_first "OU=" (remove_first "CN=" (before_comma subject));
        rawSubject := subject;
        issuer := remove_first "OU=" (remove_first "CN=" (before_comma issuer));
        rawIssuer := issuer;
        sigAlgo := X509.getSignatureAlgorithmField cert;
        notBefore := notBefore;
        notAfter := notAfter;
        isExpired := isExpired;
        isValid := true;
        isRevoked := isRevoked;
        isGoogleRoot := isGoogleRoot;
        fingerprint := fingerprint
      |}
  end.

(** [kb.CertificateChain?.Certificate ? (Array.isArray(..) ? .. : [..]) : []] *)
Definition certsRawOf (kb : value) : list value :=
  let c := get (get kb "CertificateChain") "Certificate" in
  if truthy c then match c with VArray items => items | _ => [c] end else [].

(** The [forEach] over [certsRaw]: decoded certificates are pushed in the
    order supplied, the others are skipped. *)
Fixpoint parseEach (total : Z) (i : Z) (raw : list value) : list CertDetail :=
  match raw with
  | [] => []
  | c :: rest =>
      match parseCertificate c i total with
      | Some parsed => parsed :: parseEach total (i + 1) rest
      | None => parseEach total (i + 1) rest
      end
  end.

Definition typeOrder (ty : CertType) : Z :=
  match ty with ROOT => 0 | INTERMEDIATE => 1 | END_ENTITY => 2 end.

(** [Array.prototype.sort] with the comparator
    [typeOrder[a.type] - typeOrder[b.type]]: a stable sort. *)
Fixpoint insertByType (c : CertDetail) (sorted : list CertDetail) : list CertDetail :=
  match sorted with
  | [] => [c]
  | d :: rest =>
      if Z.leb (typeOrder (type c)) (typeOrder (type d)) then c :: sorted
      else d :: insertByType c rest
  end.

Definition sortByType (certs : list CertDetail) : list CertDetail :=
  fold_right insertByType [] certs.

(** [a.find(p) || fallback] *)
Definition find_or (p : CertDetail -> bool) (certs : list CertDetail)
    (fallback : option CertDetail) : option CertDetail :=
  match find p certs with
  | Some c => Some c
  | None => fallback
  end.

(** [deviceID.includes(s)]: the string method, the array method, or a
    TypeError on a number, a boolean or an object. *)
Definition deviceIncludes (deviceID : value) (s : string) : res bool :=
  match deviceID with
  | VString d => Ok (Js.includes d s)
  | VArray items => Ok (existsb (fun v => strict_eq_string v s) items)
  | _ => Throw (notAFunction E "deviceID.includes")
  end.

(** [a.some(f)] for a callback that may throw. *)
Fixpoint some_res {A : Type} (f : A -> res bool) (l : list A) : res bool :=
  match l with
  | [] => Ok false
  | x :: rest => b <- f x ;; if (b : bool) then Ok true else some_res f rest
  end.

(** Lines 244-247. *)
Definition statusOf (isLeaked hasExpiredCerts : bool) (algo : value)
    (hasGoogleRoot : bool) : Status :=
  if isLeaked then REVOKED
  else if hasExpiredCerts then EXPIRED
  else if (negb (strict_eq_string algo "ECDSA") || negb hasGoogleRoot)%bool then WEAK
  else VALID.

(** The body of the [try] block of [validateXML]. *)
Definition tryBlock (content fileName : string) : res ValidationReport :=
  jsonObj <- parse E content ;;
  if negb (truthy (get (get jsonObj "AndroidAttestation") "Keybox"))
  then Throw (t E "errors.missing_keybox")
  else
    let kb := get (get jsonObj "AndroidAttestation") "Keybox" in
    let algo := or_else (get kb "KeyAlgorithm") (VString "Unknown") in
    let deviceID := or_else (get kb "DeviceID") (VString "Unknown") in
    let certsRaw := certsRawOf kb in
    let certs := parseEach (Z.of_nat (List.length certsRaw)) 0 certsRaw in
    let sortedCerts := sortByType certs in
    let leafCert :=
      find_or (fun c => CertType_eqb (type c) END_ENTITY) certs (nth_error certs 0) in
    let rootCert :=
      find_or (fun c => CertType_eqb (type c) ROOT) certs
              (nth_error certs (List.length certs - 1)) in
    let hasRevokedCerts := existsb isRevoked certs in
    let hasExpiredCerts := existsb isExpired certs in
    isLeaked <- (if hasRevokedCerts then Ok true
                 else some_res (deviceIncludes deviceID) LEAK_DB) ;;
    let hasGoogleRoot :=
      match rootCert with Some c => isGoogleRoot c | None => false end in
    let status := statusOf isLeaked hasExpiredCerts algo hasGoogleRoot in
    expiry <- match leafCert with
              | None => Ok ("Unknown", 0%Z)
              | Some leaf =>
                  match notAfter leaf with
                  | Some ms => Ok (format E ms, differenceInDays E ms (nowReport E))
                  | None => Throw "Invalid time value"
                  end
              end ;;
    Ok {|
      fileName := fileName;
      algorithm := algo;
      deviceID := deviceID;
      certificates := sortedCerts;
      isValidStructure := true;
      hasGoogleRoot := hasGoogleRoot;
      isStrongIntegrityReady := Status_eqb status VALID;
      isLeaked := isLeaked;
      seenCount := if (isLeaked : bool) then 999%Z else 0%Z;
      overallStatus := status;
      expiresOn := fst expiry;
      daysRemaining := snd expiry
    |}.

(** What the caller sees: the report handed to [setReport], or the text of
    the [alert] (the report shown before stays as it was). *)
Inductive outcome : Type :=
| SetReport (report : ValidationReport)
| Alert (text : string).

Definition validateXML (content fileName : string) : outcome :=
  match tryBlock content fileName with
  | Ok report => SetReport report
  | Throw message => Alert ("Validation Failed: " ++ message)
  end.

End WithEnv.

End Validator.

(** ** unnamed/part_000: the earlier categorical validator *)

Module Part000.

Import Js.

Definition LEAK_DB : list string :=
  [ "2b0a09a69c59b482ddb8a21786fdd439";
    "f92009e853b6b045";
    "deadbeef" ].

Inductive CertType : Type := ROOT | INTERMEDIATE | END_ENTITY.

Definition CertType_eqb (a b : CertType) : bool :=
  match a, b with
  | ROOT, ROOT | INTERMEDIATE, INTERMEDIATE | END_ENTITY, END_ENTITY => true
  | _, _ => false
  end.

Record CertDetail : Type := {
  index : Z;
  type : CertType;
  serial : string;
  subject : string;
  issuer : string;
  sigAlgo : string;
  notBefore : Date;
  notAfter : Date;
  isExpired : bool;
  isValid : bool;
  isRevoked : bool;
  isGoogleRoot : bool;
  fingerprint : string
}.

(** The declared union; ['INVALID'] is never assigned. *)
Inductive Status : Type := VALID | REVOKED | EXPIRED | INVALID.

Record ValidationReport : Type := {
  fileName : string;
  algorithm : value;
  deviceID : value;
  certificates : list CertDetail;
  isValidStructure : bool;
  hasGoogleRoot : bool;
  isStrongIntegrityReady : bool;
  isLeaked : bool;
  seenCount : Z;
  overallStatus : Status;
  errors : list string;
  expiresOn : string;
  daysRemaining : Z
}.

Record Env : Type := {
  parse : string -> res value;
  t : string -> string;
  readCertPEM : value -> option X509.cert;
  hashHex : string -> string;
  newDate : string -> Date;
  now : Z -> Z;
  nowReport : Z;
  format : Z -> string;
  differenceInDays : Z -> Z -> Z;
  notAFunction : string -> string;
  (** [Math.floor(Math.random() * 500)] *)
  random500 : Z
}.

Section WithEnv.

Variable E : Env.

Definition calculateFingerprint (hex : string) : string :=
  Js.substring (hashHex E hex) 0 32.

(** The [type] computed inside [parseCertificate]: by position first, then
    the override for a Google issuer past the first position. *)
Definition certType (isGoogleRoot : bool) (index total : Z) : CertType :=
  let type :=
    if Z.eqb index (total - 1) then ROOT
    else if Z.eqb index 0 then END_ENTITY
    else INTERMEDIATE in
  if (isGoogleRoot && Z.ltb 0 index)%bool then ROOT else type.

Definition parseCertificate (pem : value) (index total : Z) : option CertDetail :=
  match readCertPEM E pem with
  | None => None
  | Some cert =>
      let notAfter := CertDate.parseDate (newDate E) (X509.getNotAfter cert) in
      let notBefore := CertDate.parseDate (newDate E) (X509.getNotBefore cert) in
      let isExpired := after (now E index) notAfter in
      let serial := X509.getSerialNumberHex cert in
      let issuer := X509.getIssuerString cert in
      let subject := X509.getSubjectString cert in
      let fingerprint := calculateFingerprint (X509.hex cert) in
      let isRevoked :=
        existsb (fun bad => Js.includes (toLowerCase serial) bad) LEAK_DB in
      let isGoogleRoot := Js.includes (toLowerCase issuer) "google" in
      Some {|
        index := index + 1;
        type := certType isGoogleRoot index total;
        serial := serial;
        subject := subject;
        issuer := issuer;
        sigAlgo := X509.getSignatureAlgorithmField cert;
        notBefore := notBefore;
        notAfter := notAfter;
        isExpired := isExpired;
        isValid := true;
        isRevoked := isRevoked;
        isGoogleRoot := isGoogleRoot;
        fingerprint := fingerprint
      |}
  end.

Definition certsRawOf (kb : value) : list value :=
  let c := get (get kb "CertificateChain") "Certificate" in
  if truthy c then match c with VArray items => items | _ => [c] end else [].

Fixpoint parseEach (total : Z) (i : Z) (raw : list value) : list CertDetail :=
  match raw with
  | [] => []
  | c :: rest =>
      match parseCertificate c i total with
      | Some parsed => parsed :: parseEach total (i + 1) rest
      | None => parseEach total (i + 1) rest
      end
  end.

Definition typeOrder (ty : CertType) : Z :=
  match ty with ROOT => 0 | INTERMEDIATE => 1 | END_ENTITY => 2 end.

Fixpoint insertByType (c : CertDetail) (sorted : list CertDetail) : list CertDetail :=
  match sorted with
  | [] => [c]
  | d :: rest =>
      if Z.leb (typeOrder (type c)) (typeOrder (type d)) then c :: sorted
      else d :: insertByType c rest
  end.

(** [certs.sort(...)]: the array itself is reordered, so every later read of
    [certs] sees the sorted order. *)
Definition sortByType (certs : list CertDetail) : list CertDetail :=
  fold_right insertByType [] certs.

(** [(kb.DeviceID || '').toLowerCase().includes(s)]: a TypeError when the
    device id is a truthy value that is not a string. *)
Definition deviceIncludes (kb : value) (s : string) : res bool :=
  match or_else (get kb "DeviceID") (VString "") with
  | VString d => Ok (Js.includes (toLowerCase d) s)
  | _ => Throw (notAFunction E "(kb.DeviceID || ).toLowerCase")
  end.

Fixpoint some_res {A : Type} (f : A -> res bool) (l : list A) : res bool :=
  match l with
  | [] => Ok false
  | x :: rest => b <- f x ;; if (b : bool) then Ok true else some_res f rest
  end.

Definition tryBlock (content fileName : string) : res ValidationReport :=
  jsonObj <- parse E content ;;
  if negb (truthy (get (get jsonObj "AndroidAttestation") "Keybox"))
  then Throw (t E "errors.missing_keybox")
  else
    let kb := get (get jsonObj "AndroidAttestation") "Keybox" in
    let certsRaw := certsRawOf kb in
    let certs := sortByType (parseEach (Z.of_nat (List.length certsRaw)) 0 certsRaw) in
    let leafCert :=
      match find (fun c => CertType_eqb (type c) END_ENTITY) certs with
      | Some c => Some c
      | None => nth_error certs 0
      end in
    let rootCert := find (fun c => CertType_eqb (type c) ROOT) certs in
    let hasRevokedCerts := existsb isRevoked certs in
    let hasExpiredCerts := existsb isExpired certs in
    isLeaked <- (if hasRevokedCerts then Ok true
                 else some_res (deviceIncludes kb) ["android"; "test"]) ;;
    let rootIsGoogle :=
      match rootCert with Some c => isGoogleRoot c | None => false end in
    expiry <- match leafCert with
              | None => Ok ("Unknown", 0%Z)
              | Some leaf =>
                  match notAfter leaf with
                  | Some ms => Ok (format E ms, differenceInDays E ms (nowReport E))
                  | None => Throw "Invalid time value"
                  end
              end ;;
    Ok {|
      fileName := fileName;
      algorithm := or_else (get kb "KeyAlgorithm") (VString "Unknown");
      deviceID := or_else (get kb "DeviceID") (VString "Unknown");
      certificates := certs;
      isValidStructure := true;
      hasGoogleRoot := rootIsGoogle;
      isStrongIntegrityReady :=
        (rootIsGoogle && Nat.leb 3 (List.length certs) && negb hasRevokedCerts
         && negb hasExpiredCerts && strict_eq_string (get kb "KeyAlgorithm") "ECDSA")%bool;
      isLeaked := isLeaked;
      seenCount := if (isLeaked : bool) then (1450 + random500 E)%Z else 0%Z;
      overallStatus :=
        if (isLeaked : bool) then REVOKED
        else if hasExpiredCerts then EXPIRED else VALID;
      errors := [];
      expiresOn := fst expiry;
      daysRemaining := snd expiry
    |}.

Inductive outcome : Type :=
| SetReport (report : ValidationReport)
| Alert (text : string).

Definition validateXML (content fileName : string) : outcome :=
  match tryBlock content fileName with
  | Ok report => SetReport report
  | Throw message => Alert ("Validation Failed: " ++ message)
  end.

End WithEnv.

End Part000.

(** ** unnamed/part_001: the numeric-score validator *)

Module Part001.

Import Js.

Inductive Risk : Type := LOW | MEDIUM | HIGH.

Inductive Expiry : Type := VALID | EXPIRED | NEAR_EXPIRY.

Record ValidationResult : Type := {
  valid : bool;
  score : Z;
  errors : list string;
  warnings : list string;
  revocationRisk : Risk;
  expiryStatus : Expiry;
  usageEstimate : string;
  strongIntegrityReady : bool
}.

(** What [parseCertificate] returns for a certificate that decodes. *)
Record Parsed : Type := {
  subject : string;
  issuer : string;
  notBefore : string;
  notAfter : string;
  serial : string
}.

Record Env : Type := {
  parse : string -> res value;
  t : string -> string;
  (** the [try] block of [parseCertificate]; [None] when it throws *)
  readCert : value -> option Parsed;
  notAFunction : string -> string
}.

(** The [let] and [const] locals of [validateXML] that the checks update. *)
Record locals : Type := {
  l_errors : list string;
  l_warnings : list string;
  l_score : Z;
  l_strong : bool
}.

Definition initial : locals :=
  {| l_errors := []; l_warnings := []; l_score := 100; l_strong := true |}.

Definition pushError (msg : string) (st : locals) : locals :=
  {| l_errors := l_errors st ++ [msg]; l_warnings := l_warnings st;
     l_score := l_score st; l_strong := l_strong st |}.

Definition pushWarning (msg : string) (st : locals) : locals :=
  {| l_errors := l_errors st; l_warnings := l_warnings st ++ [msg];
     l_score := l_score st; l_strong := l_strong st |}.

Definition penalty (n : Z) (st : locals) : locals :=
  {| l_errors := l_errors st; l_warnings := l_warnings st;
     l_score := l_score st - n; l_strong := l_strong st |}.

Definition notStrong (st : locals) : locals :=
  {| l_errors := l_errors st; l_warnings := l_warnings st;
     l_score := l_score st; l_strong := false |}.

(** The device ids that [validateXML] calls generic placeholders. *)
Definition placeholders : list string :=
  ["123456"; "deadbeef"; "pixel5"; "android"].

Section WithEnv.

Variable E : Env.

Definition parseCertificate (pem : value) : option Parsed := readCert E pem.

(** Lines 67-77: the algorithm field. *)
Definition checkAlgorithm (kb : value) (st : locals) : locals :=
  let algo := get kb "KeyAlgorithm" in
  if negb (truthy algo)
  then penalty 10 (pushError (t E "errors.missing_algo") st)
  else if (negb (strict_eq_string algo "ECDSA") && negb (strict_eq_string algo "RSA"))%bool
  then notStrong (penalty 5 (pushWarning
         "Algorithm is non-standard. Play Integrity may reject it." st))
  else st.

(** Lines 79-93: the device id.  A truthy device id that is not text (a
    number, for numeric content) has no [toLowerCase]: the call throws, and
    whatever the length test did before is dropped with the locals. *)
Definition checkDeviceID (kb : value) (st : locals) : res locals :=
  let dev := get kb "DeviceID" in
  if negb (truthy dev)
  then Ok (penalty 20 (pushError (t E "errors.missing_device_id") st))
  else
    match dev with
    | VString d =>
        let st1 :=
          if Nat.ltb (Js.length d) 8
          then penalty 5 (pushWarning
                 "Device ID is unusually short. Potential generic ID." st)
          else st in
        Ok (if existsb (String.eqb (toLowerCase d)) placeholders
            then notStrong (penalty 30 (pushError
                   "Device ID is a known generic placeholder. High ban risk." st1))
            else st1)
    | _ => Throw (notAFunction E "kb.DeviceID.toLowerCase")
    end.

(** Lines 95-106: the private key; [trim] throws on a truthy value that is
    not text. *)
Definition checkPrivateKey (kb : value) (st : locals) : res locals :=
  let key := get kb "PrivateKey" in
  if negb (truthy key)
  then Ok (notStrong (penalty 20 (pushError (t E "errors.missing_priv_key") st)))
  else
    match key with
    | VString k =>
        let pk := trim k in
        Ok (if Nat.ltb (Js.length pk) 100
            then notStrong (penalty 10 (pushError (t E "errors.key_length") st))
            else st)
    | _ => Throw (notAFunction E "kb.PrivateKey.trim")
    end.

(** The [forEach] over the chain: each certificate that does not decode
    costs five points and a warning. *)
Fixpoint checkEach (i : nat) (certs : list value) (st : locals) : locals :=
  match certs with
  | [] => st
  | c :: rest =>
      match parseCertificate c with
      | Some _ => checkEach (S i) rest st
      | None =>
          checkEach (S i) rest
            (penalty 5 (pushWarning
               ("Certificate " ++ decimal (i + 1)
                ++ " could not be parsed. Format may be invalid.") st))
      end
  end.

(** Lines 110-139: the certificate chain. *)
Definition checkChain (kb : value) (st : locals) : locals :=
  let chain := get kb "CertificateChain" in
  if (negb (truthy chain) || negb (truthy (get chain "Certificate")))%bool
  then notStrong (penalty 20 (pushError (t E "errors.cert_chain_empty") st))
  else
    let c := get chain "Certificate" in
    let certs := match c with VArray items => items | _ => [c] end in
    let st1 :=
      if Nat.ltb (List.length certs) 3
      then notStrong (penalty 10 (pushWarning
             "Certificate chain is too short (Recommend 3+ for Strong Integrity)." st))
      else st in
    checkEach 0 certs st1.

(** Lines 141-143, on the score before it is clamped. *)
Definition riskOf (score : Z) : Risk :=
  if Z.ltb score 60 then HIGH else if Z.ltb score 85 then MEDIUM else LOW.

(** Lines 145-148.  The device id is text or falsy here: anything else has
    thrown above. *)
Definition usageOf (kb : value) (risk : Risk) : string :=
  let entropy :=
    match get kb "DeviceID" with
    | VString d => if truthy (VString d) then distinct_chars d else 0%nat
    | _ => 0%nat
    end in
  if Nat.ltb entropy 4 then "High Global Usage (Generic ID)"
  else match risk with
       | HIGH => "Flagged / Leaked"
       | _ => "Unique (Estimated)"
       end.

(** The checks on a keybox, up to the [setResult] call. *)
Definition checkKeybox (kb : value) : res ValidationResult :=
  let st0 := checkAlgorithm kb initial in
  st1 <- checkDeviceID kb st0 ;;
  st2 <- checkPrivateKey kb st1 ;;
  let st3 := checkChain kb st2 in
  let revocationRisk := riskOf (l_score st3) in
  Ok {|
    valid := match l_errors st3 with [] => true | _ => false end;
    score := Z.max 0 (l_score st3);
    errors := l_errors st3;
    warnings := l_warnings st3;
    revocationRisk := revocationRisk;
    expiryStatus := VALID;
    usageEstimate := usageOf kb revocationRisk;
    strongIntegrityReady := l_strong st3
  |}.

(** The result set by the [catch] block. *)
Definition syntaxError (message : string) : ValidationResult :=
  {| valid := false;
     score := 0;
     errors := ["XML Syntax Error: " ++ message];
     warnings := [];
     revocationRisk := HIGH;
     expiryStatus := VALID;
     usageEstimate := "Unknown";
     strongIntegrityReady := false |}.

(** What the caller sees: the result handed to [setResult], or no call at
    all.  When a container is missing, the error and the fifty-point penalty
    stay in the locals, which are dropped. *)
Inductive outcome : Type :=
| SetResult (result : ValidationResult)
| NoUpdate.

Definition validateXML (content : string) : outcome :=
  match parse E content with
  | Throw message => SetResult (syntaxError message)
  | Ok jsonObj =>
      if negb (truthy (get jsonObj "AndroidAttestation")) then NoUpdate
      else
        let root := get jsonObj "AndroidAttestation" in
        if negb (truthy (get root "Keybox")) then NoUpdate
        else
          match checkKeybox (get root "Keybox") with
          | Ok result => SetResult result
          | Throw message => SetResult (syntaxError message)
          end
  end.

End WithEnv.

End Part001.

(** ** Sample documents and collaborators, for the worked examples *)

Module Sample.

Import Js.

Definition leafCert : X509.cert :=
  {| X509.getNotAfter := "20300101000000Z";
     X509.getNotBefore := "20200101000000Z";
     X509.getSerialNumberHex := "0a1b2c3d4e5f";
     X509.getIssuerString := "/CN=Keymaster Intermediate";
     X509.getSubjectString := "/CN=Device Key";
     X509.hex := "3082aa";
     X509.getSignatureAlgorithmField := "SHA256withECDSA" |}.

Definition midCert : X509.cert :=
  {| X509.getNotAfter := "310101000000Z";
     X509.getNotBefore := "200101000000Z";
     X509.getSerialNumberHex := "1122334455";
     X509.getIssuerString := "/CN=Vendor Root";
     X509.getSubjectString := "/CN=Keymaster Intermediate";
     X509.hex := "3082bb";
     X509.getSignatureAlgorithmField := "SHA256withECDSA" |}.

Definition rootCert : X509.cert :=
  {| X509.getNotAfter := "20320101000000Z";
     X509.getNotBefore := "20200101000000Z";
     X509.getSerialNumberHex := "00e8fa196314d2fa18";
     X509.getIssuerString := "/O=Google Hardware Attestation Root";
     X509.getSubjectString := "/O=Google Hardware Attestation Root";
     X509.hex := "3082cc";
     X509.getSignatureAlgorithmField := "SHA256withRSA" |}.

(** The decoder on the sample PEM texts; anything else does not decode. *)
Definition readCertPEM (pem : value) : option X509.cert :=
  match pem with
  | VString s =>
      if String.eqb s "LEAF" then Some leafCert
      else if String.eqb s "MID" then Some midCert
      else if String.eqb s "ROOT" then Some rootCert
      else None
  | _ => None
  end.

(** [new Date] on the dates of the sample certificates. *)
Definition newDate (text : string) : Date :=
  if String.eqb text "2020-01-01" then Some 1577836800000%Z
  else if String.eqb text "2030-01-01" then Some 1893456000000%Z
  else if String.eqb text "2031-01-01" then Some 1924992000000%Z
  else if String.eqb text "2032-01-01" then Some 1956528000000%Z
  else None.

(** The clock: 2026-11-01. *)
Definition clock : Z := 1793491200000%Z.

Definition format (ms : Z) : string :=
  if Z.eqb ms 1893456000000 then "Jan 01, 2030"
  else if Z.eqb ms 1924992000000 then "Jan 01, 2031"
  else if Z.eqb ms 1956528000000 then "Jan 01, 2032"
  else "Jan 01, 2020".

Definition differenceInDays (left right : Z) : Z := Z.quot (left - right) 86400000.

Definition t (key : string) : string := key.

Definition notAFunction (callee : string) : string := callee ++ " is not a function".

Definition validatorEnv (parsed : res value) : Validator.Env :=
  {| Validator.parse := fun _ => parsed;
     Validator.t := t;
     Validator.readCertPEM := readCertPEM;
     Validator.hashHex := fun hex => hex;
     Validator.newDate := newDate;
     Validator.now := fun _ => clock;
     Validator.nowReport := clock;
     Validator.format := format;
     Validator.differenceInDays := differenceInDays;
     Validator.notAFunction := notAFunction |}.

Definition part000Env (parsed : res value) : Part000.Env :=
  {| Part000.parse := fun _ => parsed;
     Part000.t := t;
     Part000.readCertPEM := readCertPEM;
     Part000.hashHex := fun hex => hex;
     Part000.newDate := newDate;
     Part000.now := fun _ => clock;
     Part000.nowReport := clock;
     Part000.format := format;
     Part000.differenceInDays := differenceInDays;
     Part000.notAFunction := notAFunction;
     Part000.random500 := 7 |}.

Definition part001Env (parsed : res value) : Part001.Env :=
  {| Part001.parse := fun _ => parsed;
     Part001.t := t;
     Part001.readCert := fun pem =>
       match readCertPEM pem with
       | Some c =>
           Some {| Part001.subject := X509.getSubjectString c;
                   Part001.issuer := X509.getIssuerString c;
                   Part001.notBefore := X509.getNotBefore c;
                   Part001.notAfter := X509.getNotAfter c;
                   Part001.serial := X509.getSerialNumberHex c |}
       | None => None
       end;
     Part001.notAFunction := notAFunction |}.

Fixpoint repeatChar (c : ascii) (n : nat) : string :=
  match n with
  | O => EmptyString
  | S n' => String c (repeatChar c n')
  end.

(** A private key of 120 characters. *)
Definition privateKey : string := repeatChar "k"%char 120.

(** A keybox document: [chain] is the value under [CertificateChain], if
    the tag is there. *)
Definition document (algorithm deviceID : string) (chain : option value) : value :=
  VObject
    [ ("AndroidAttestation",
       VObject
         [ ("NumberOfKeyboxes", VNumber 1);
           ("Keybox",
            VObject
              ([ ("DeviceID", VString deviceID);
                 ("KeyAlgorithm", VString algorithm);
                 ("PrivateKey", VString privateKey) ]
               ++ match chain with
                  | Some c => [ ("CertificateChain", c) ]
                  | None => []
                  end)) ]) ].

Definition chainOf (pems : list string) : value :=
  VObject [ ("NumberOfCertificates", VNumber (Z.of_nat (List.length pems)));
            ("Certificate", VArray (map VString pems)) ].

(** Leaf, intermediate, self-signed Google root. *)
Definition fullChain : value := chainOf ["LEAF"; "MID"; "ROOT"].

End Sample.

(** ** Shapes of a parsed keybox, for the statements below *)

Module Shape.

Import Js.


(** The certificate chain field is absent (no [CertificateChain] tag) or
    empty: the tag has no content, or no [Certificate] inside, or an empty
    one, or an empty list of them. *)
Definition chainAbsentOrEmpty (kb : value) : Prop :=
  get kb "CertificateChain" = VUndefined
  \/ get kb "CertificateChain" = VString ""
  \/ get (get kb "CertificateChain") "Certificate" = VUndefined
  \/ get (get kb "CertificateChain") "Certificate" = VString ""
  \/ get (get kb "CertificateChain") "Certificate" = VArray [].

End Shape.

(** ** More sample certificates: a leaked serial, a lapsed date *)

Module SampleMore.

Import Js.

Definition leakedCert : X509.cert :=
  {| X509.getNotAfter := "20300101000000Z";
     X509.getNotBefore := "20200101000000Z";
     X509.getSerialNumberHex := "01DEADBEEF99";
     X509.getIssuerString := "/CN=Keymaster Intermediate";
     X509.getSubjectString := "/CN=Device Key";
     X509.hex := "3082dd";
     X509.getSignatureAlgorithmField := "SHA256withECDSA" |}.

Definition lapsedCert : X509.cert :=
  {| X509.getNotAfter := "200101000000Z";
     X509.getNotBefore := "200101000000Z";
     X509.getSerialNumberHex := "0badc0de";
     X509.getIssuerString := "/CN=Keymaster Intermediate";
     X509.getSubjectString := "/CN=Device Key";
     X509.hex := "3082ee";
     X509.getSignatureAlgorithmField := "SHA256withECDSA" |}.

Definition readCertPEM (pem : value) : option X509.cert :=
  match pem with
  | VString s =>
      if String.eqb s "LEAKED" then Some leakedCert
      else if String.eqb s "LAPSED" then Some lapsedCert
      else Sample.readCertPEM pem
  | _ => None
  end.

Definition validatorEnv (parsed : res value) : Validator.Env :=
  {| Validator.parse := fun _ => parsed;
     Validator.t := Sample.t;
     Validator.readCertPEM := readCertPEM;
     Validator.hashHex := fun hex => hex;
     Validator.newDate := Sample.newDate;
     Validator.now := fun _ => Sample.clock;
     Validator.nowReport := Sample.clock;
     Validator.format := Sample.format;
     Validator.differenceInDays := Sample.differenceInDays;
     Validator.notAFunction := Sample.notAFunction |}.

Definition part000Env (parsed : res value) : Part000.Env :=
  {| Part000.parse := fun _ => parsed;
     Part000.t := Sample.t;
     Part000.readCertPEM := readCertPEM;
     Part000.hashHex := fun hex => hex;
     Part000.newDate := Sample.newDate;
     Part000.now := fun _ => Sample.clock;
     Part000.nowReport := Sample.clock;
     Part000.format := Sample.format;
     Part000.differenceInDays := Sample.differenceInDays;
     Part000.notAFunction := Sample.notAFunction;
     Part000.random500 := 7 |}.

(** A keybox whose device id is the value [deviceID], whatever its kind. *)
Definition documentWith (deviceID : value) (chain : option value) : value :=
  VObject
    [ ("AndroidAttestation",
       VObject
         [ ("Keybox",
            VObject
              ([ ("DeviceID", deviceID);
                 ("KeyAlgorithm", VString "ECDSA");
                 ("PrivateKey", VString Sample.privateKey) ]
               ++ match chain with
                  | Some c => [ ("CertificateChain", c) ]
                  | None => []
                  end)) ]) ].

End SampleMore.

(** ** The checks of part_001, one field at a time

    What each field of the keybox costs and whether it blocks strong
    integrity or validity, written field by field; the theorems below relate
    these to what [Part001.validateXML] computes in one pass.  Lengths are
    those of JavaScript ([Js.length], in UTF-16 code units), and [trim]
    strips all of its white space. *)

Module Checks.

Import Js.

Definition certificatesOf (kb : value) : value :=
  get (get kb "CertificateChain") "Certificate".

Definition chainList (kb : value) : list value :=
  let c := certificatesOf kb in
  match c with
  | VArray items => items
  | _ => [c]
  end.

(** The certificates of the chain that do not decode. *)
Definition undecodable (E : Part001.Env) (kb : value) : list value :=
  filter (fun c => match Part001.readCert E c with Some _ => false | None => true end)
         (chainList kb).

Definition algorithmPenalty (kb : value) : Z :=
  let algo := get kb "KeyAlgorithm" in
  if negb (truthy algo) then 10
  else if (strict_eq_string algo "ECDSA" || strict_eq_string algo "RSA")%bool then 0
  else 5.

Definition devicePenalty (kb : value) : Z :=
  match get kb "DeviceID" with
  | VString d =>
      if negb (truthy (VString d)) then 20
      else (if Nat.ltb (Js.length d) 8 then 5 else 0)
           + (if existsb (String.eqb (toLowerCase d)) Part001.placeholders
              then 30 else 0)
  | _ => 20
  end.

Definition keyPenalty (kb : value) : Z :=
  match get kb "PrivateKey" with
  | VString k =>
      if negb (truthy (VString k)) then 20
      else if Nat.ltb (Js.length (trim k)) 100 then 10 else 0
  | _ => 20
  end.

Definition chainPenalty (E : Part001.Env) (kb : value) : Z :=
  if negb (truthy (certificatesOf kb)) then 20
  else (if Nat.ltb (List.length (chainList kb)) 3 then 10 else 0)
       + 5 * Z.of_nat (List.length (undecodable E kb)).

(** The device id and the private key are text or falsy: the method calls
    on them do not throw. *)
Definition textFields (kb : value) : bool :=
  (match get kb "DeviceID" with
   | VString _ => true
   | v => negb (truthy v)
   end
   && match get kb "PrivateKey" with
      | VString _ => true
      | v => negb (truthy v)
      end)%bool.

Definition algorithmAccepted (kb : value) : bool :=
  let algo := get kb "KeyAlgorithm" in
  (negb (truthy algo) || strict_eq_string algo "ECDSA"
   || strict_eq_string algo "RSA")%bool.

Definition deviceAccepted (kb : value) : bool :=
  match get kb "DeviceID" with
  | VString d =>
      (negb (truthy (VString d))
       || negb (existsb (String.eqb (toLowerCase d)) Part001.placeholders))%bool
  | v => negb (truthy v)
  end.

Definition keyAccepted (kb : value) : bool :=
  match get kb "PrivateKey" with
  | VString k => (truthy (VString k) && Nat.leb 100 (Js.length (trim k)))%bool
  | _ => false
  end.

Definition chainAccepted (kb : value) : bool :=
  (truthy (certificatesOf kb) && Nat.leb 3 (List.length (chainList kb)))%bool.

(** No check pushes an error. *)
Definition errorFree (kb : value) : bool :=
  (truthy (get kb "KeyAlgorithm")
   && match get kb "DeviceID" with
      | VString d =>
          truthy (VString d)
          && negb (existsb (String.eqb (toLowerCase d)) Part001.placeholders)
      | _ => false
      end
   && keyAccepted kb
   && truthy (certificatesOf kb))%bool.

(** No error has been pushed so far. *)
Definition clean (st : Part001.locals) : bool :=
  match Part001.l_errors st with [] => true | _ => false end.

End Checks.

(** ** src/pages/Validator.tsx: the audit log

    [addLog] and the calls of it in [validateXML], in the order the source
    makes them.  The text of a value inside a template literal and the clock
    text of an entry come from outside. *)

Module ValidatorLog.

Import Js.

Inductive LogType : Type := success | error | warning | info.

Definition LogType_eqb (a b : LogType) : bool :=
  match a, b with
  | success, success | error, error | warning, warning | info, info => true
  | _, _ => false
  end.

Record LogEntry : Type := {
  type : LogType;
  message : string;
  timestamp : string
}.

Record Display : Type := {
  (** the text of a value that is not a string, in a template literal *)
  render : value -> string;
  (** [new Date().toLocaleTimeString('en-GB', ...)] at the n-th call of
      [addLog] of the run, counted from 0 *)
  timeOf : nat -> string
}.

Section WithDisplay.

Variable E : Validator.Env.
Variable D : Display.

(** [`${v}`] *)
Definition text (v : value) : string :=
  match v with
  | VString s => s
  | _ => render D v
  end.

(** [logs.push({ type, message, timestamp })]: [logs] only grows through
    this function, so its length is the number of calls made so far. *)
Definition addLog (logs : list LogEntry) (ty : LogType) (msg : string) : list LogEntry :=
  (logs ++ [ {| type := ty; message := msg;
                timestamp := timeOf D (List.length logs) |} ])%list.

(** [`${i+1}`] for a position of the chain. *)
Definition ordinal (i : Z) : string := decimal (Z.to_nat (i + 1)).

(** The log lines of the [forEach] over the chain (lines 217-225). *)
Fixpoint logEach (total : Z) (i : Z) (raw : list value) (logs : list LogEntry)
    : list LogEntry :=
  match raw with
  | [] => logs
  | c :: rest =>
      match Validator.parseCertificate E c i total with
      | Some parsed =>
          let logs1 :=
            addLog logs info
              ("Cert #" ++ ordinal i ++ ": Serial "
               ++ Js.substring (Validator.serial parsed) 0 8 ++ "...") in
          let logs2 :=
            if Validator.isExpired parsed
            then addLog logs1 error ("Cert #" ++ ordinal i ++ " is EXPIRED.")
            else logs1 in
          let logs3 :=
            if Validator.isRevoked parsed
            then addLog logs2 error
                   ("Cert #" ++ ordinal i ++ " is REVOKED (Known Leak).")
            else logs2 in
          logEach total (i + 1) rest logs3
      | None => logEach total (i + 1) rest logs
      end
  end.

(** The [logs] array when the [try] block of [validateXML] reaches the
    report, or the error it throws: the same steps as [Validator.tryBlock],
    with the [addLog] calls in between. *)
Definition tryBlockLogs (content fileName : string) : res (list LogEntry) :=
  let logs0 := addLog [] info ("Initialized analysis for: " ++ fileName) in
  jsonObj <- Validator.parse E content ;;
  if negb (truthy (get (get jsonObj "AndroidAttestation") "Keybox"))
  then Throw (Validator.t E "errors.missing_keybox")
  else
    let kb := get (get jsonObj "AndroidAttestation") "Keybox" in
    let algo := or_else (get kb "KeyAlgorithm") (VString "Unknown") in
    let deviceID := or_else (get kb "DeviceID") (VString "Unknown") in
    let logs1 := addLog logs0 info ("Device ID: " ++ text deviceID) in
    let logs2 :=
      if strict_eq_string algo "ECDSA"
      then addLog logs1 success "Found ECDSA Key Algorithm."
      else addLog logs1 warning
             ("Algorithm is " ++ text algo
              ++ ". ECDSA is recommended for Strong Integrity.") in
    let certsRaw := Validator.certsRawOf kb in
    let logs3 :=
      addLog logs2 info
        ("Parsing " ++ decimal (List.length certsRaw) ++ " certificates in chain...") in
    let total := Z.of_nat (List.length certsRaw) in
    let logs4 := logEach total 0 certsRaw logs3 in
    let certs := Validator.parseEach E total 0 certsRaw in
    let leafCert :=
      Validator.find_or
        (fun c => Validator.CertType_eqb (Validator.type c) Validator.END_ENTITY)
        certs (nth_error certs 0) in
    let rootCert :=
      Validator.find_or
        (fun c => Validator.CertType_eqb (Validator.type c) Validator.ROOT)
        certs (nth_error certs (List.length certs - 1)) in
    let hasRevokedCerts := existsb Validator.isRevoked certs in
    let hasExpiredCerts := existsb Validator.isExpired certs in
    isLeaked <- (if hasRevokedCerts then Ok true
                 else Validator.some_res (Validator.deviceIncludes E deviceID)
                        Validator.LEAK_DB) ;;
    let hasGoogleRoot :=
      match rootCert with Some c => Validator.isGoogleRoot c | None => false end in
    let logs5 :=
      if hasGoogleRoot
      then addLog logs4 success "Google Hardware Attestation Root verified."
      else addLog logs4 warning
             "No Google Root detected. May fail hardware attestation." in
    let status := Validator.statusOf isLeaked hasExpiredCerts algo hasGoogleRoot in
    let logs6 :=
      match status with
      | Validator.VALID =>
          addLog logs5 success "Chain valid. Strong Integrity criteria met."
      | Validator.REVOKED =>
          addLog logs5 error "CRITICAL: Keybox is LEAKED/REVOKED."
      | Validator.WEAK =>
          addLog logs5 warning "Chain valid but weak (RSA or Non-Google Root)."
      | _ => logs5
      end in
    expiry <- match leafCert with
              | None => Ok ("Unknown", 0%Z)
              | Some leaf =>
                  match Validator.notAfter leaf with
                  | Some ms =>
                      Ok (Validator.format E ms,
                          Validator.differenceInDays E ms (Validator.nowReport E))
                  | None => Throw "Invalid time value"
                  end
              end ;;
    Ok logs6.

End WithDisplay.

(** How many entries of a log have a given severity. *)
Definition countType (ty : LogType) (logs : list LogEntry) : nat :=
  List.length (filter (fun e => LogType_eqb (type e) ty) logs).

(** The entries carry the clock texts of successive [addLog] calls. *)
Definition inOrder (D : Display) (logs : list LogEntry) : Prop :=
  map timestamp logs = map (timeOf D) (seq 0 (List.length logs)).

End ValidatorLog.

(** ** src/utils/storage.ts: the keyboxes kept in the browser

    The item stored under 'morpheus_local_keyboxes' is [None] when absent.
    It is text, and [JSON.parse] gives whatever value the text denotes: the
    result type [KeyboxData[]] of [getLocalKeyboxes] is a cast that checks
    nothing.  So the stored value is a [Js.value], and the array methods and
    the property reads on it throw where JavaScript throws.  A JSON null is
    written [VUndefined]: like undefined it is falsy and reading a property
    of it throws.  A write that the browser refuses is not modelled. *)

Module Storage.

Import Js.

(** [Omit<KeyboxData, 'source'>]: what the callers hand to
    [saveLocalKeybox]. *)
Record KeyboxData : Type := {
  id : string;
  title : string;
  content : string;
  created_at : string
}.

Record Env : Type := {
  (** [JSON.parse]; [Throw] is its SyntaxError *)
  JSON_parse : string -> res value;
  JSON_stringify : value -> string;
  (** the message of the TypeError of calling what is not a function *)
  notAFunction : string -> string;
  (** the message of the TypeError of reading a property of null *)
  cannotRead : string -> string
}.

(** [{ ...keybox, source: 'local' }] *)
Definition asLocal (keybox : KeyboxData) : value :=
  VObject [ ("id", VString (id keybox));
            ("title", VString (title keybox));
            ("content", VString (content keybox));
            ("created_at", VString (created_at keybox));
            ("source", VString "local") ].

(** [k.id === id'] on a value that has properties. *)
Definition hasId (id' : string) (k : value) : bool :=
  strict_eq_string (get k "id") id'.

(** No entry of the array is null. *)
Definition noNull (l : list value) : bool :=
  forallb (fun k => match k with VUndefined => false | _ => true end) l.

(** [a.findIndex(p)], [None] for -1; the callback may throw. *)
Fixpoint findIndex (p : value -> res bool) (l : list value) : res (option nat) :=
  match l with
  | [] => Ok None
  | k :: rest =>
      found <- p k ;;
      if found : bool then Ok (Some 0)
      else i <- findIndex p rest ;; Ok (option_map S i)
  end.

(** The position [findIndex] gives when its callback does not throw. *)
Fixpoint indexOf (p : value -> bool) (l : list value) : option nat :=
  match l with
  | [] => None
  | k :: rest => if p k then Some 0 else option_map S (indexOf p rest)
  end.

(** [a.filter(p)]; the callback may throw. *)
Fixpoint filterArray (p : value -> res bool) (l : list value) : res (list value) :=
  match l with
  | [] => Ok []
  | k :: rest =>
      keep <- p k ;;
      kept <- filterArray p rest ;;
      Ok (if keep : bool then k :: kept else kept)
  end.

(** [a[i] = x] on a copy, for an index inside the array. *)
Fixpoint setAt (i : nat) (x : value) (l : list value) : list value :=
  match l, i with
  | [], _ => []
  | _ :: rest, O => x :: rest
  | k :: rest, S i' => k :: setAt i' x rest
  end.

Section WithEnv.

Variable E : Env.

(** [k => k.id === id'], the callback of [findIndex]. *)
Definition idIs (id' : string) (k : value) : res bool :=
  match k with
  | VUndefined => Throw (cannotRead E "id")
  | _ => Ok (hasId id' k)
  end.

(** [k => k.id !== id'], the callback of [filter]. *)
Definition idIsNot (id' : string) (k : value) : res bool :=
  found <- idIs id' k ;; Ok (negb found).

(** Lines 14-21.  Only [getItem] and [JSON.parse] are inside the [try]. *)
Definition getLocalKeyboxes (item : option string) : value :=
  match item with
  | Some data =>
      if truthy (VString data)
      then match JSON_parse E data with
           | Ok parsed => parsed
           | Throw _ => VArray []
           end
      else VArray []
  | None => VArray []
  end.

(** Lines 23-37: the array returned and the item written, or the TypeError
    thrown before anything is written. *)
Definition saveLocalKeybox (item : option string) (keybox : KeyboxData)
    : res (list value * option string) :=
  match getLocalKeyboxes item with
  | VArray current =>
      existingIndex <- findIndex (idIs (id keybox)) current ;;
      let updated :=
        match existingIndex with
        | Some i => setAt i (asLocal keybox) current
        | None => asLocal keybox :: current
        end in
      Ok (updated, Some (JSON_stringify E (VArray updated)))
  | VUndefined => Throw (cannotRead E "findIndex")
  | _ => Throw (notAFunction E "current.findIndex")
  end.

(** Lines 39-44. *)
Definition deleteLocalKeybox (item : option string) (id' : string)
    : res (list value * option string) :=
  match getLocalKeyboxes item with
  | VArray current =>
      updated <- filterArray (idIsNot id') current ;;
      Ok (updated, Some (JSON_stringify E (VArray updated)))
  | VUndefined => Throw (cannotRead E "filter")
  | _ => Throw (notAFunction E "current.filter")
  end.

End WithEnv.

End Storage.

(** ** A sample store *)

Module SampleStore.

Import Js.

Definition first : value :=
  Storage.asLocal
    {| Storage.id := "a1"; Storage.title := "Pixel 5";
       Storage.content := "<AndroidAttestation/>";
       Storage.created_at := "2026-10-01T00:00:00.000Z" |}.

Definition secondData : Storage.KeyboxData :=
  {| Storage.id := "b2"; Storage.title := "Pixel 8a";
     Storage.content := "<AndroidAttestation/>";
     Storage.created_at := "2026-10-02T00:00:00.000Z" |}.

Definition second : value := Storage.asLocal secondData.

Definition secondEdited : Storage.KeyboxData :=
  {| Storage.id := "b2"; Storage.title := "Pixel 8a (edited)";
     Storage.content := "<AndroidAttestation></AndroidAttestation>";
     Storage.created_at := "2026-11-01T00:00:00.000Z" |}.

(** A codec that knows six texts. *)
Definition env : Storage.Env :=
  {| Storage.JSON_stringify := fun v =>
       match v with
       | VArray [] => "[]"
       | VArray [_] => "[a1]"
       | VArray (k :: _) =>
           if strict_eq_string (get k "title") "Pixel 8a"
           then "[b2,a1]" else "[b2',a1]"
       | VObject _ => "{}"
       | _ => "null"
       end;
     Storage.JSON_parse := fun data =>
       if String.eqb data "[]" then Ok (VArray [])
       else if String.eqb data "[a1]" then Ok (VArray [first])
       else if String.eqb data "[b2,a1]" then Ok (VArray [second; first])
       else if String.eqb data "[b2',a1]"
            then Ok (VArray [Storage.asLocal secondEdited; first])
       else if String.eqb data "[null,a1]" then Ok (VArray [VUndefined; first])
       else if String.eqb data "null" then Ok VUndefined
       else if String.eqb data "{}" then Ok (VObject [])
       else Throw "Unexpected token";
     Storage.notAFunction := fun callee => callee ++ " is not a function";
     Storage.cannotRead := fun name =>
       "Cannot read properties of null (reading '" ++ name ++ "')" |}.

Definition display : ValidatorLog.Display :=
  {| ValidatorLog.render := fun _ => "[object Object]";
     ValidatorLog.timeOf := fun n => Js.decimal n |}.

End SampleStore.

(** ** Sample texts outside ASCII *)

Module SampleText.

Import Js.

(** Seven characters, eleven bytes of UTF-8. *)
Definition shortId : string := "ключ-07".

(** U+00A0, the no-break space. *)
Definition nbsp : string :=
  String (ascii_of_nat 194) (String (ascii_of_nat 160) EmptyString).

(** 99 letters and a no-break space: 99 characters once trimmed. *)
Definition paddedKey : string := Sample.repeatChar "k"%char 99 ++ nbsp.

(** A keybox with the given device id and private key. *)
Definition document (deviceID privateKey : string) (chain : option value) : value :=
  VObject
    [ ("AndroidAttestation",
       VObject
         [ ("Keybox",
            VObject
              ([ ("DeviceID", VString deviceID);
                 ("KeyAlgorithm", VString "ECDSA");
                 ("PrivateKey", VString privateKey) ]
               ++ match chain with
                  | Some c => [ ("CertificateChain", c) ]
                  | None => []
                  end)) ]) ].

End SampleText.

(** ** Selecting the certificates of one role *)

Module Role.

Definition has (ty : Validator.CertType) (c : Validator.CertDetail) : bool :=
  Validator.CertType_eqb (Validator.type c) ty.

Definition has0 (ty : Part000.CertType) (c : Part000.CertDetail) : bool :=
  Part000.CertType_eqb (Part000.type c) ty.

End Role.

(** * Properties *)

Import Js.

(** ** Helper lemmas *)

Lemma get_undefined (name : string) : get VUndefined name = VUndefined.
Proof. reflexivity. Qed.

Lemma existsb_insertByType (p : Validator.CertDetail -> bool) c l :
  existsb p (Validator.insertByType c l) = (p c || existsb p l)%bool.
Proof.
  induction l as [|d rest IH]; simpl.
  - reflexivity.
  - destruct (Z.leb _ _); simpl.
    + reflexivity.
    + rewrite IH. destruct (p c), (p d); reflexivity.
Qed.

Lemma existsb_sortByType (p : Validator.CertDetail -> bool) l :
  existsb p (Validator.sortByType l) = existsb p l.
Proof.
  induction l as [|c rest IH]; simpl.
  - reflexivity.
  - rewrite existsb_insertByType, IH. reflexivity.
Qed.

Lemma length_insertByType c l :
  List.length (Validator.insertByType c l) = S (List.length l).
Proof.
  induction l as [|d rest IH]; simpl.
  - reflexivity.
  - destruct (Z.leb _ _); simpl; [reflexivity | now rewrite IH].
Qed.

Lemma length_sortByType l :
  List.length (Validator.sortByType l) = List.length l.
Proof.
  induction l as [|c rest IH]; simpl.
  - reflexivity.
  - now rewrite length_insertByType, IH.
Qed.

(** Inversion of a successful run of Validator.tsx: the values the report
    was built from. *)
Lemma Validator_report_inv (E : Validator.Env) content fileName r :
  Validator.validateXML E content fileName = Validator.SetReport r ->
  exists jsonObj kb certs leaked,
    Validator.parse E content = Ok jsonObj /\
    kb = get (get jsonObj "AndroidAttestation") "Keybox" /\
    truthy kb = true /\
    certs = Validator.parseEach E
              (Z.of_nat (List.length (Validator.certsRawOf kb))) 0
              (Validator.certsRawOf kb) /\
    (if existsb Validator.isRevoked certs then Ok true
     else Validator.some_res (Validator.deviceIncludes E
            (or_else (get kb "DeviceID") (VString "Unknown")))
            Validator.LEAK_DB) = Ok leaked /\
    Validator.tryBlock E content fileName = Ok r /\
    Validator.certificates r = Validator.sortByType certs /\
    Validator.isLeaked r = leaked /\
    Validator.algorithm r = or_else (get kb "KeyAlgorithm") (VString "Unknown") /\
    Validator.deviceID r = or_else (get kb "DeviceID") (VString "Unknown") /\
    Validator.hasGoogleRoot r =
      match Validator.find_or
              (fun c => Validator.CertType_eqb (Validator.type c) Validator.ROOT)
              certs (nth_error certs (List.length certs - 1)) with
      | Some c => Validator.isGoogleRoot c
      | None => false
      end /\
    Validator.overallStatus r =
      Validator.statusOf leaked (existsb Validator.isExpired certs)
        (Validator.algorithm r) (Validator.hasGoogleRoot r) /\
    Validator.isStrongIntegrityReady r =
      Validator.Status_eqb (Validator.overallStatus r) Validator.VALID /\
    match Validator.find_or
            (fun c => Validator.CertType_eqb (Validator.type c) Validator.END_ENTITY)
            certs (nth_error certs 0) with
    | Some leaf =>
        exists ms, Validator.notAfter leaf = Some ms
                   /\ Validator.expiresOn r = Validator.format E ms
                   /\ Validator.daysRemaining r
                      = Validator.differenceInDays E ms (Validator.nowReport E)
    | None => Validator.expiresOn r = "Unknown" /\ Validator.daysRemaining r = 0%Z
    end.
Proof.
  unfold Validator.validateXML.
  destruct (Validator.tryBlock E content fileName) as [r'|msg] eqn:Htry;
    [|discriminate].
  intros H; injection H as ->.
  revert Htry. unfold Validator.tryBlock.
  destruct (Validator.parse E content) as [jsonObj|msg];
    cbn [bind]; [|discriminate].
  destruct (truthy (get (get jsonObj "AndroidAttestation") "Keybox")) eqn:Hkb;
    cbn [negb]; [|discriminate].
  set (kb := get (get jsonObj "AndroidAttestation") "Keybox") in *.
  set (certs := Validator.parseEach E _ 0 _).
  destruct (if existsb Validator.isRevoked certs then _ else _)
    as [leaked|msg] eqn:Hleak; cbn [bind]; [|discriminate].
  destruct (Validator.find_or _ certs (nth_error certs 0)) as [leaf|] eqn:Hleaf;
    [destruct (Validator.notAfter leaf) as [ms|] eqn:Hms|];
    cbn [bind]; try discriminate;
    intros H; injection H as <-;
    exists jsonObj, kb, certs, leaked; cbn [fst snd
      Validator.certificates Validator.isLeaked Validator.algorithm
      Validator.deviceID Validator.hasGoogleRoot Validator.overallStatus
      Validator.isStrongIntegrityReady Validator.expiresOn
      Validator.daysRemaining];
    repeat split; try reflexivity; try assumption; rewrite Hleaf.
  - exists ms. repeat split. assumption.
  - split; reflexivity.
Qed.

(** ** Validity dates *)








Example parseDate_utc_time :
  CertDate.parseDate Sample.newDate "310101000000Z" = Some 1924992000000%Z.
Proof. reflexivity. Qed.

Example parseDate_generalized_time :
  CertDate.parseDate Sample.newDate "20300101000000Z" = Some 1893456000000%Z.
Proof. reflexivity. Qed.

(** ** Status precedence *)



(** Inversion of a successful run of part_000. *)
Lemma Part000_report_inv (E : Part000.Env) content fileName r :
  Part000.validateXML E content fileName = Part000.SetReport r ->
  exists jsonObj kb certs leaked,
    Part000.parse E content = Ok jsonObj /\
    kb = get (get jsonObj "AndroidAttestation") "Keybox" /\
    truthy kb = true /\
    certs = Part000.sortByType
              (Part000.parseEach E
                 (Z.of_nat (List.length (Part000.certsRawOf kb))) 0
                 (Part000.certsRawOf kb)) /\
    (if existsb Part000.isRevoked certs then Ok true
     else Part000.some_res (Part000.deviceIncludes E kb) ["android"; "test"])
      = Ok leaked /\
    Part000.certificates r = certs /\
    Part000.isLeaked r = leaked /\
    Part000.algorithm r = or_else (get kb "KeyAlgorithm") (VString "Unknown") /\
    Part000.hasGoogleRoot r =
      match find (fun c => Part000.CertType_eqb (Part000.type c) Part000.ROOT)
                 certs with
      | Some c => Part000.isGoogleRoot c
      | None => false
      end /\
    Part000.overallStatus r =
      (if leaked then Part000.REVOKED
       else if existsb Part000.isExpired certs then Part000.EXPIRED
       else Part000.VALID) /\
    Part000.isStrongIntegrityReady r =
      (Part000.hasGoogleRoot r && Nat.leb 3 (List.length certs)
       && negb (existsb Part000.isRevoked certs)
       && negb (existsb Part000.isExpired certs)
       && strict_eq_string (get kb "KeyAlgorithm") "ECDSA")%bool /\
    Part000.deviceID r = or_else (get kb "DeviceID") (VString "Unknown") /\
    match match find (fun c => Part000.CertType_eqb (Part000.type c)
                                 Part000.END_ENTITY) certs with
          | Some c => Some c
          | None => nth_error certs 0
          end with
    | Some leaf =>
        exists ms, Part000.notAfter leaf = Some ms
                   /\ Part000.expiresOn r = Part000.format E ms
                   /\ Part000.daysRemaining r
                      = Part000.differenceInDays E ms (Part000.nowReport E)
    | None => Part000.expiresOn r = "Unknown" /\ Part000.daysRemaining r = 0%Z
    end.
Proof.
  unfold Part000.validateXML.
  destruct (Part000.tryBlock E content fileName) as [r'|msg] eqn:Htry;
    [|discriminate].
  intros H; injection H as ->.
  revert Htry. unfold Part000.tryBlock.
  destruct (Part000.parse E content) as [jsonObj|msg];
    cbn [bind]; [|discriminate].
  destruct (truthy (get (get jsonObj "AndroidAttestation") "Keybox")) eqn:Hkb;
    cbn [negb]; [|discriminate].
  set (kb := get (get jsonObj "AndroidAttestation") "Keybox") in *.
  set (certs := Part000.sortByType _).
  destruct (if existsb Part000.isRevoked certs then _ else _)
    as [leaked|msg] eqn:Hleak; cbn [bind]; [|discriminate].
  destruct (match find _ certs with Some _ => _ | None => _ end)
    as [leaf|] eqn:Hleaf;
    [destruct (Part000.notAfter leaf) as [ms|] eqn:Hms|];
    cbn [bind]; try discriminate;
    intros H; injection H as <-;
    exists jsonObj, kb, certs, leaked; cbn [fst snd
      Part000.certificates Part000.isLeaked Part000.algorithm
      Part000.deviceID Part000.hasGoogleRoot Part000.overallStatus
      Part000.isStrongIntegrityReady Part000.expiresOn
      Part000.daysRemaining];
    repeat split; try reflexivity; try assumption; rewrite Hleaf.
  - exists ms. repeat split. assumption.
  - split; reflexivity.
Qed.

(** C1, as amended. In Validator.tsx every report has its status by
    first-match precedence: leaked gives REVOKED; else an expired certificate
    gives EXPIRED; else an algorithm other than "ECDSA" or no trusted root
    gives WEAK; else VALID; so "RSA" with a trusted root, nothing expired and
    nothing leaked gives WEAK.  In part_000 there is no WEAK status: leaked
    gives REVOKED, else an expired certificate gives EXPIRED, else VALID. *)
Theorem status_precedence :
  (forall (E : Validator.Env) content fileName r,
     Validator.validateXML E content fileName = Validator.SetReport r ->
     let expired := existsb Validator.isExpired (Validator.certificates r) in
     (Validator.isLeaked r = true -> Validator.overallStatus r = Validator.REVOKED)
     /\ (Validator.isLeaked r = false -> expired = true ->
         Validator.overallStatus r = Validator.EXPIRED)
     /\ (Validator.isLeaked r = false -> expired = false ->
         Validator.algorithm r <> VString "ECDSA"
         \/ Validator.hasGoogleRoot r = false ->
         Validator.overallStatus r = Validator.WEAK)
     /\ (Validator.isLeaked r = false -> expired = false ->
         Validator.algorithm r = VString "ECDSA" ->
         Validator.hasGoogleRoot r = true ->
         Validator.overallStatus r = Validator.VALID)
     /\ (Validator.algorithm r = VString "RSA" ->
         Validator.hasGoogleRoot r = true ->
         Validator.isLeaked r = false -> expired = false ->
         Validator.overallStatus r = Validator.WEAK))
  /\ (forall (E0 : Part000.Env) content fileName r0,
        Part000.validateXML E0 content fileName = Part000.SetReport r0 ->
        Part000.overallStatus r0
        = (if Part000.isLeaked r0 then Part000.REVOKED
           else if existsb Part000.isExpired (Part000.certificates r0)
                then Part000.EXPIRED
                else Part000.VALID)).
Proof.
  split.
  - intros E content fileName r H expired.
    apply Validator_report_inv in H.
    destruct H as (jsonObj & kb & certs & leaked & _ & _ & _ & _ & _ & _
                   & Hcerts & Hleak & _ & _ & _ & Hstatus & _).
    assert (Hexp : expired = existsb Validator.isExpired certs).
    { unfold expired. rewrite Hcerts. apply existsb_sortByType. }
    rewrite Hstatus, <- Hexp, <- Hleak. unfold Validator.statusOf.
    repeat split.
    + intros ->. reflexivity.
    + intros -> ->. reflexivity.
    + intros -> -> [Halgo | ->].
      * destruct (strict_eq_string (Validator.algorithm r) "ECDSA") eqn:Heq;
          [|reflexivity].
        exfalso. apply Halgo.
        destruct (Validator.algorithm r); try discriminate.
        simpl in Heq. apply String.eqb_eq in Heq. now subst.
      * now rewrite orb_true_r.
    + intros -> -> -> ->. reflexivity.
    + intros -> -> -> ->. reflexivity.
  - intros E0 content fileName r0 H0.
    apply Part000_report_inv in H0.
    destruct H0 as (jsonObj & kb & certs & leaked & _ & _ & _ & _ & _
                    & Hcerts & Hleak & _ & _ & Hstatus & _).
    rewrite Hstatus, Hcerts, Hleak. reflexivity.
Qed.

(** The sample keybox of the specification's example: a three-certificate
    chain ending in the self-signed Google root, declared "RSA". *)
Lemma status_precedence_witness :
  exists r r0,
    Validator.validateXML
      (Sample.validatorEnv
         (Ok (Sample.document "RSA" "pixel-8a-unit-0042" (Some Sample.fullChain))))
      "" "keybox.xml" = Validator.SetReport r
    /\ Part000.validateXML
         (Sample.part000Env
            (Ok (Sample.document "RSA" "pixel-8a-unit-0042" (Some Sample.fullChain))))
         "" "keybox.xml" = Part000.SetReport r0
    /\ Validator.overallStatus r = Validator.WEAK
    /\ Part000.overallStatus r0 = Part000.VALID.
Proof.
  eexists. eexists.
  split; [reflexivity|]. split; [reflexivity|].
  split.
  - destruct (proj1 status_precedence
                (Sample.validatorEnv
                   (Ok (Sample.document "RSA" "pixel-8a-unit-0042"
                          (Some Sample.fullChain))))
                "" "keybox.xml" _ eq_refl)
      as (_ & _ & _ & _ & Hrsa).
    apply Hrsa; reflexivity.
  - rewrite (proj2 status_precedence
               (Sample.part000Env
                  (Ok (Sample.document "RSA" "pixel-8a-unit-0042"
                         (Some Sample.fullChain))))
               "" "keybox.xml" _ eq_refl).
    reflexivity.
Defined.

(** C1, the claim as stated fails on part_000: "RSA", a trusted Google root,
    nothing expired, revoked or leaked, and the status is VALID. *)
Lemma part000_rsa_is_VALID :
  exists r0,
    Part000.validateXML
      (Sample.part000Env
         (Ok (Sample.document "RSA" "pixel-8a-unit-0042" (Some Sample.fullChain))))
      "" "keybox.xml" = Part000.SetReport r0
    /\ Part000.algorithm r0 = VString "RSA"
    /\ Part000.hasGoogleRoot r0 = true
    /\ Part000.isLeaked r0 = false
    /\ existsb Part000.isExpired (Part000.certificates r0) = false
    /\ existsb Part000.isRevoked (Part000.certificates r0) = false
    /\ Part000.overallStatus r0 = Part000.VALID.
Proof.
  eexists. split; [reflexivity|]. repeat split.
Qed.

(** ** Chain roles *)

(** C2, as amended. In Validator.tsx the role follows the rule list in
    order: a self-signed certificate with a Google issuer is ROOT at any
    position; else position 0 is END_ENTITY; else position total-1 is ROOT;
    else INTERMEDIATE.  A chain of length 1 therefore gives END_ENTITY unless
    the certificate is a self-signed Google root, which is ROOT.  In part_000
    the order is another one: a Google issuer past position 0 is ROOT; else
    position total-1 is ROOT; else position 0 is END_ENTITY; else
    INTERMEDIATE; a chain of length 1 gives ROOT. *)
Theorem chain_role_rules :
  (forall (E : Validator.Env) pem (index total : Z) c,
     Validator.parseCertificate E pem index total = Some c ->
     let trustedSelfSigned :=
       Validator.rawIssuer c = Validator.rawSubject c
       /\ includes (toLowerCase (Validator.rawIssuer c)) "google" = true in
     (trustedSelfSigned -> Validator.type c = Validator.ROOT)
     /\ (~ trustedSelfSigned -> index = 0%Z ->
         Validator.type c = Validator.END_ENTITY)
     /\ (~ trustedSelfSigned -> index <> 0%Z -> index = (total - 1)%Z ->
         Validator.type c = Validator.ROOT)
     /\ (~ trustedSelfSigned -> index <> 0%Z -> index <> (total - 1)%Z ->
         Validator.type c = Validator.INTERMEDIATE)
     /\ (total = 1%Z -> index = 0%Z ->
         (trustedSelfSigned -> Validator.type c = Validator.ROOT)
         /\ (~ trustedSelfSigned -> Validator.type c = Validator.END_ENTITY)))
  /\ (forall (E0 : Part000.Env) pem (index total : Z) c0,
        Part000.parseCertificate E0 pem index total = Some c0 ->
        let googlePastFirst :=
          includes (toLowerCase (Part000.issuer c0)) "google" = true
          /\ (0 < index)%Z in
        (googlePastFirst -> Part000.type c0 = Part000.ROOT)
        /\ (~ googlePastFirst -> index = (total - 1)%Z ->
            Part000.type c0 = Part000.ROOT)
        /\ (~ googlePastFirst -> index <> (total - 1)%Z -> index = 0%Z ->
            Part000.type c0 = Part000.END_ENTITY)
        /\ (~ googlePastFirst -> index <> (total - 1)%Z -> index <> 0%Z ->
            Part000.type c0 = Part000.INTERMEDIATE)
        /\ (total = 1%Z -> index = 0%Z -> Part000.type c0 = Part000.ROOT)).
Proof.
  split.
  - intros E pem index total c.
    unfold Validator.parseCertificate.
    destruct (Validator.readCertPEM E pem) as [cert|]; [|discriminate].
    intros H. injection H as <-.
    cbn [Validator.type Validator.rawIssuer Validator.rawSubject].
    set (google := includes (toLowerCase (X509.getIssuerString cert)) "google").
    unfold Validator.certType.
    destruct (String.eqb_spec (X509.getIssuerString cert)
                              (X509.getSubjectString cert)) as [Hself|Hself];
      destruct google;
      destruct (Z.eqb_spec index 0); destruct (Z.eqb_spec index (total - 1));
      cbn [andb]; repeat split; intros;
      try reflexivity; try lia; try tauto;
      match goal with
      | Hn : ~ _ |- _ => exfalso; apply Hn; split; (assumption || reflexivity)
      | Ht : _ /\ _ |- _ => destruct Ht; (contradiction || discriminate)
      end.
  - intros E0 pem index total c0.
    unfold Part000.parseCertificate.
    destruct (Part000.readCertPEM E0 pem) as [cert0|]; [|discriminate].
    intros H0. injection H0 as <-.
    cbn [Part000.type Part000.issuer].
    set (google0 := includes (toLowerCase (X509.getIssuerString cert0)) "google").
    unfold Part000.certType.
    destruct google0;
      destruct (Z.ltb_spec 0 index);
      destruct (Z.eqb_spec index 0); destruct (Z.eqb_spec index (total - 1));
      cbn [andb]; repeat split; intros;
      try reflexivity; try lia; try tauto;
      match goal with
      | Hn : ~ _ |- _ => exfalso; apply Hn; split; (assumption || reflexivity)
      | Ht : _ /\ _ |- _ => destruct Ht; (lia || discriminate)
      end.
Qed.

Lemma chain_role_rules_witness :
  exists c c0,
    Validator.parseCertificate (Sample.validatorEnv (Ok VUndefined))
      (VString "LEAF") 0 1 = Some c
    /\ Part000.parseCertificate (Sample.part000Env (Ok VUndefined))
         (VString "LEAF") 0 1 = Some c0
    /\ Validator.type c = Validator.END_ENTITY
    /\ Part000.type c0 = Part000.ROOT.
Proof.
  eexists. eexists.
  split; [reflexivity|]. split; [reflexivity|].
  split.
  - destruct (proj1 chain_role_rules
                (Sample.validatorEnv (Ok VUndefined))
                (VString "LEAF") 0%Z 1%Z _ eq_refl)
      as (_ & _ & _ & _ & Hone).
    apply (Hone eq_refl eq_refl). intros [Hself _]. discriminate Hself.
  - destruct (proj2 chain_role_rules
                (Sample.part000Env (Ok VUndefined))
                (VString "LEAF") 0%Z 1%Z _ eq_refl)
      as (_ & _ & _ & _ & Hone0).
    apply (Hone0 eq_refl eq_refl).
Defined.

(** C2, the claim as stated fails: a chain of length 1 is not always
    END_ENTITY.  In Validator.tsx the lone self-signed Google root is ROOT
    (rule 1); in part_000 any lone certificate is ROOT. *)
Lemma single_certificate_chain_is_ROOT :
  (exists r,
     Validator.validateXML
       (Sample.validatorEnv
          (Ok (Sample.document "ECDSA" "pixel-8a-unit-0042"
                 (Some (Sample.chainOf ["ROOT"])))))
       "" "keybox.xml" = Validator.SetReport r
     /\ map Validator.type (Validator.certificates r) = [Validator.ROOT])
  /\ (exists r0,
        Part000.validateXML
          (Sample.part000Env
             (Ok (Sample.document "ECDSA" "pixel-8a-unit-0042"
                    (Some (Sample.chainOf ["LEAF"])))))
          "" "keybox.xml" = Part000.SetReport r0
        /\ map Part000.type (Part000.certificates r0) = [Part000.ROOT]).
Proof.
  split; eexists; (split; [reflexivity|]); reflexivity.
Qed.

(** ** Strong integrity *)

Lemma strict_eq_or_else_Unknown (v : value) :
  strict_eq_string (or_else v (VString "Unknown")) "ECDSA"
  = strict_eq_string v "ECDSA".
Proof.
  unfold or_else.
  destruct v as [|s|n|b|items|fields]; try reflexivity.
  - cbn [truthy]. destruct (String.eqb_spec s ""); [subst|]; reflexivity.
  - cbn [truthy]. destruct (Z.eqb n 0); reflexivity.
  - destruct b; reflexivity.
Qed.

Lemma Status_eqb_VALID (s : Validator.Status) :
  Validator.Status_eqb s Validator.VALID = true <-> s = Validator.VALID.
Proof. destruct s; simpl; split; (reflexivity || discriminate). Qed.

(** C3, as amended. In Validator.tsx, isStrongIntegrityReady is true exactly
    when overallStatus is VALID.  In part_000 the flag is computed on its own
    (Google root, at least three certificates, none revoked, none expired,
    algorithm "ECDSA"): when it is true and the keybox is not leaked the
    status is VALID, and neither direction of the equivalence holds in
    general. *)
Theorem strong_integrity_ready :
  (forall (E : Validator.Env) content fileName r,
     Validator.validateXML E content fileName = Validator.SetReport r ->
     (Validator.isStrongIntegrityReady r = true
      <-> Validator.overallStatus r = Validator.VALID))
  /\ (forall (E0 : Part000.Env) content fileName r0,
        Part000.validateXML E0 content fileName = Part000.SetReport r0 ->
        Part000.isStrongIntegrityReady r0
        = (Part000.hasGoogleRoot r0
           && Nat.leb 3 (List.length (Part000.certificates r0))
           && negb (existsb Part000.isRevoked (Part000.certificates r0))
           && negb (existsb Part000.isExpired (Part000.certificates r0))
           && strict_eq_string (Part000.algorithm r0) "ECDSA")%bool
        /\ (Part000.isStrongIntegrityReady r0 = true ->
            Part000.isLeaked r0 = false ->
            Part000.overallStatus r0 = Part000.VALID)).
Proof.
  split.
  - intros E content fileName r H.
    apply Validator_report_inv in H.
    destruct H as (jsonObj & kb & certs & leaked & _ & _ & _ & _ & _ & _
                   & _ & _ & _ & _ & _ & _ & Hstrong & _).
    rewrite Hstrong. apply Status_eqb_VALID.
  - intros E0 content fileName r0 H0.
    apply Part000_report_inv in H0.
    destruct H0 as (jsonObj0 & kb0 & certs0 & leaked0 & _ & _ & _ & _ & _
                    & Hcerts & Hleak & Halgo & _ & Hstatus & Hstrong0 & _).
    split.
    + rewrite Hstrong0, Hcerts, Halgo, strict_eq_or_else_Unknown. reflexivity.
    + rewrite Hstrong0, Hstatus, Hleak. intros Hs ->.
      destruct (existsb Part000.isExpired certs0); [|reflexivity].
      rewrite andb_false_r in Hs. discriminate Hs.
Qed.

Lemma strong_integrity_ready_witness :
  exists r r0,
    Validator.validateXML
      (Sample.validatorEnv
         (Ok (Sample.document "ECDSA" "pixel-8a-unit-0042" (Some Sample.fullChain))))
      "" "keybox.xml" = Validator.SetReport r
    /\ Part000.validateXML
         (Sample.part000Env
            (Ok (Sample.document "ECDSA" "pixel-8a-unit-0042" (Some Sample.fullChain))))
         "" "keybox.xml" = Part000.SetReport r0
    /\ Validator.isStrongIntegrityReady r = true
    /\ Validator.overallStatus r = Validator.VALID
    /\ Part000.overallStatus r0 = Part000.VALID.
Proof.
  eexists. eexists.
  split; [reflexivity|]. split; [reflexivity|].
  split; [reflexivity|]. split.
  - apply (proj1 strong_integrity_ready
             (Sample.validatorEnv
                (Ok (Sample.document "ECDSA" "pixel-8a-unit-0042"
                       (Some Sample.fullChain))))
             "" "keybox.xml" _ eq_refl).
    reflexivity.
  - apply (proj2 strong_integrity_ready
             (Sample.part000Env
                (Ok (Sample.document "ECDSA" "pixel-8a-unit-0042"
                       (Some Sample.fullChain))))
             "" "keybox.xml" _ eq_refl); reflexivity.
Defined.

(** C3, the claim as stated fails on part_000 in both directions: the
    device id "android" with a sound ECDSA chain is strong-integrity-ready
    and REVOKED; "RSA" with the same chain is VALID and not ready. *)
Lemma part000_ready_is_not_VALID :
  (exists r0,
     Part000.validateXML
       (Sample.part000Env
          (Ok (Sample.document "ECDSA" "android" (Some Sample.fullChain))))
       "" "keybox.xml" = Part000.SetReport r0
     /\ Part000.isStrongIntegrityReady r0 = true
     /\ Part000.overallStatus r0 = Part000.REVOKED)
  /\ (exists r0,
        Part000.validateXML
          (Sample.part000Env
             (Ok (Sample.document "RSA" "pixel-8a-unit-0042"
                    (Some Sample.fullChain))))
          "" "keybox.xml" = Part000.SetReport r0
        /\ Part000.isStrongIntegrityReady r0 = false
        /\ Part000.overallStatus r0 = Part000.VALID).
Proof.
  split; eexists; (split; [reflexivity|]); split; reflexivity.
Qed.

(** ** Input that does not parse *)

(** C4, as amended. When the parser throws on the raw text, the two
    categorical validators produce no report: the caller gets one alert,
    "Validation Failed: " followed by the parser's message.  The numeric
    validator does hand a result to the caller: not valid, score 0, the one
    error "XML Syntax Error: " followed by the parser's message, HIGH risk,
    not strong-integrity-ready. *)
Theorem unparsable_input :
  (forall (E : Validator.Env) content fileName message,
     Validator.parse E content = Throw message ->
     Validator.validateXML E content fileName
     = Validator.Alert ("Validation Failed: " ++ message))
  /\ (forall (E0 : Part000.Env) content fileName message,
        Part000.parse E0 content = Throw message ->
        Part000.validateXML E0 content fileName
        = Part000.Alert ("Validation Failed: " ++ message))
  /\ (forall (E1 : Part001.Env) content message,
        Part001.parse E1 content = Throw message ->
        Part001.validateXML E1 content
        = Part001.SetResult
            {| Part001.valid := false;
               Part001.score := 0;
               Part001.errors := ["XML Syntax Error: " ++ message];
               Part001.warnings := [];
               Part001.revocationRisk := Part001.HIGH;
               Part001.expiryStatus := Part001.VALID;
               Part001.usageEstimate := "Unknown";
               Part001.strongIntegrityReady := false |}).
Proof.
  split; [|split].
  - intros E content fileName message H.
    unfold Validator.validateXML, Validator.tryBlock.
    rewrite H. reflexivity.
  - intros E0 content fileName message H0.
    unfold Part000.validateXML, Part000.tryBlock.
    rewrite H0. reflexivity.
  - intros E1 content message H1.
    unfold Part001.validateXML. rewrite H1. reflexivity.
Qed.

Lemma unparsable_input_witness :
  Validator.validateXML (Sample.validatorEnv (Throw "Unclosed tag"))
    "<AndroidAttestation>" "keybox.xml"
  = Validator.Alert "Validation Failed: Unclosed tag".
Proof.
  exact (proj1 unparsable_input
           (Sample.validatorEnv (Throw "Unclosed tag"))
           "<AndroidAttestation>" "keybox.xml" "Unclosed tag" eq_refl).
Defined.

(** C4, the claim as stated fails on part_001: the text does not parse and
    the caller still receives a result. *)
Lemma part001_unparsable_sets_result :
  exists result,
    Part001.validateXML (Sample.part001Env (Throw "Unclosed tag"))
      "<AndroidAttestation>" = Part001.SetResult result
    /\ Part001.score result = 0%Z
    /\ Part001.errors result = ["XML Syntax Error: Unclosed tag"].
Proof.
  eexists. split; [reflexivity|]. split; reflexivity.
Qed.

(** ** Missing containers *)

Lemma Validator_never_INVALID (E : Validator.Env) content fileName r :
  Validator.validateXML E content fileName = Validator.SetReport r ->
  Validator.overallStatus r <> Validator.INVALID.
Proof.
  intros H. apply Validator_report_inv in H.
  destruct H as (jsonObj & kb & certs & leaked & _ & _ & _ & _ & _ & _
                 & _ & _ & _ & _ & _ & Hstatus & _).
  rewrite Hstatus. unfold Validator.statusOf.
  destruct leaked; [discriminate|].
  destruct (existsb _ certs); [discriminate|].
  destruct (_ || _)%bool; discriminate.
Qed.

Lemma Part000_never_INVALID (E : Part000.Env) content fileName r :
  Part000.validateXML E content fileName = Part000.SetReport r ->
  Part000.overallStatus r <> Part000.INVALID.
Proof.
  intros H. apply Part000_report_inv in H.
  destruct H as (jsonObj & kb & certs & leaked & _ & _ & _ & _ & _
                 & _ & _ & _ & _ & Hstatus & _).
  rewrite Hstatus.
  destruct leaked; [discriminate|].
  destruct (existsb _ certs); discriminate.
Qed.

(** C5, as amended. When the attestation container or the keybox container
    is absent from the parsed tree, the categorical validators produce no
    report: they throw the missing-keybox error, and the caller gets the
    alert "Validation Failed: " followed by that message.  The status
    INVALID is declared and never assigned: no report carries it. *)
Theorem missing_container_alerts :
  (forall (E : Validator.Env) content fileName jsonObj,
     Validator.parse E content = Ok jsonObj ->
     get jsonObj "AndroidAttestation" = VUndefined
     \/ get (get jsonObj "AndroidAttestation") "Keybox" = VUndefined ->
     Validator.validateXML E content fileName
     = Validator.Alert
         ("Validation Failed: " ++ Validator.t E "errors.missing_keybox"))
  /\ (forall (E0 : Part000.Env) content fileName jsonObj,
        Part000.parse E0 content = Ok jsonObj ->
        get jsonObj "AndroidAttestation" = VUndefined
        \/ get (get jsonObj "AndroidAttestation") "Keybox" = VUndefined ->
        Part000.validateXML E0 content fileName
        = Part000.Alert
            ("Validation Failed: " ++ Part000.t E0 "errors.missing_keybox"))
  /\ (forall (E : Validator.Env) content fileName r,
        Validator.validateXML E content fileName = Validator.SetReport r ->
        Validator.overallStatus r <> Validator.INVALID)
  /\ (forall (E0 : Part000.Env) content fileName r0,
        Part000.validateXML E0 content fileName = Part000.SetReport r0 ->
        Part000.overallStatus r0 <> Part000.INVALID).
Proof.
  assert (Hkb : forall jsonObj,
             get jsonObj "AndroidAttestation" = VUndefined
             \/ get (get jsonObj "AndroidAttestation") "Keybox" = VUndefined ->
             get (get jsonObj "AndroidAttestation") "Keybox" = VUndefined).
  { intros jsonObj [-> | ->]; reflexivity. }
  split; [|split; [|split]].
  - intros E content fileName jsonObj H Habsent.
    unfold Validator.validateXML, Validator.tryBlock.
    rewrite H. cbn [bind]. rewrite (Hkb _ Habsent). reflexivity.
  - intros E0 content fileName jsonObj H0 Habsent.
    unfold Part000.validateXML, Part000.tryBlock.
    rewrite H0. cbn [bind]. rewrite (Hkb _ Habsent). reflexivity.
  - exact Validator_never_INVALID.
  - exact Part000_never_INVALID.
Qed.

Lemma missing_container_alerts_witness :
  Validator.validateXML
    (Sample.validatorEnv (Ok (VObject [("AndroidAttestation", VString "")])))
    "<AndroidAttestation></AndroidAttestation>" "keybox.xml"
  = Validator.Alert "Validation Failed: errors.missing_keybox".
Proof.
  exact (proj1 missing_container_alerts
           (Sample.validatorEnv
              (Ok (VObject [("AndroidAttestation", VString "")])))
           "<AndroidAttestation></AndroidAttestation>" "keybox.xml"
           (VObject [("AndroidAttestation", VString "")])
           eq_refl (or_intror eq_refl)).
Defined.

(** C5, the claim as stated fails: a tree without the attestation container
    yields an alert and no report, in Validator.tsx and in part_000. *)
Lemma missing_container_gives_no_report :
  (forall r,
     Validator.validateXML (Sample.validatorEnv (Ok (VObject [])))
       "<Other/>" "keybox.xml" <> Validator.SetReport r)
  /\ (forall r0,
        Part000.validateXML (Sample.part000Env (Ok (VObject [])))
          "<Other/>" "keybox.xml" <> Part000.SetReport r0).
Proof.
  split; intros r H; discriminate H.
Qed.

(** ** The numeric score without a certificate chain *)

Lemma checkAlgorithm_score (E : Part001.Env) kb st :
  (Part001.l_score (Part001.checkAlgorithm E kb st) <= Part001.l_score st)%Z.
Proof.
  unfold Part001.checkAlgorithm.
  destruct (negb (truthy _)); [simpl; lia|].
  destruct (_ && _)%bool; simpl; lia.
Qed.

Lemma checkDeviceID_score (E : Part001.Env) kb st st' :
  Part001.checkDeviceID E kb st = Ok st' ->
  (Part001.l_score st' <= Part001.l_score st)%Z.
Proof.
  unfold Part001.checkDeviceID.
  destruct (negb (truthy _)).
  - intros H; injection H as <-. simpl. lia.
  - destruct (get kb "DeviceID") as [|d| | | |]; try discriminate.
    intros H; injection H as <-.
    repeat match goal with
           | |- context [if ?b then _ else _] => destruct b
           end; simpl; lia.
Qed.

Lemma checkPrivateKey_score (E : Part001.Env) kb st st' :
  Part001.checkPrivateKey E kb st = Ok st' ->
  (Part001.l_score st' <= Part001.l_score st)%Z.
Proof.
  unfold Part001.checkPrivateKey.
  destruct (negb (truthy _)).
  - intros H; injection H as <-. simpl. lia.
  - destruct (get kb "PrivateKey") as [|k| | | |]; try discriminate.
    intros H; injection H as <-.
    destruct (Nat.ltb _ 100); simpl; lia.
Qed.

Lemma checkChain_missing (E : Part001.Env) kb st :
  get kb "CertificateChain" = VUndefined ->
  Part001.checkChain E kb st
  = Part001.notStrong
      (Part001.penalty 20
         (Part001.pushError (Part001.t E "errors.cert_chain_empty") st)).
Proof.
  intros H. unfold Part001.checkChain. rewrite H. reflexivity.
Qed.

Lemma truthy_keybox_root (jsonObj : value) :
  truthy (get (get jsonObj "AndroidAttestation") "Keybox") = true ->
  truthy (get jsonObj "AndroidAttestation") = true.
Proof.
  destruct (get jsonObj "AndroidAttestation"); simpl; try discriminate.
  reflexivity.
Qed.

(** C6, as amended. In part_001, for every parsed document whose keybox has
    no certificate chain field, a result is produced with a score of at most
    80 and strongIntegrityReady false; when the algorithm, the device id and
    the private key are present and well-formed, the score is exactly 80. *)
Theorem missing_chain_score (E : Part001.Env) content jsonObj :
  Part001.parse E content = Ok jsonObj ->
  let kb := get (get jsonObj "AndroidAttestation") "Keybox" in
  truthy kb = true ->
  get kb "CertificateChain" = VUndefined ->
  exists result,
    Part001.validateXML E content = Part001.SetResult result
    /\ (Part001.score result <= 80)%Z
    /\ Part001.strongIntegrityReady result = false
    /\ (forall d k,
          (strict_eq_string (get kb "KeyAlgorithm") "ECDSA"
           || strict_eq_string (get kb "KeyAlgorithm") "RSA")%bool = true ->
          get kb "DeviceID" = VString d ->
          8 <= Js.length d ->
          existsb (String.eqb (toLowerCase d)) Part001.placeholders = false ->
          get kb "PrivateKey" = VString k ->
          100 <= Js.length (trim k) ->
          Part001.score result = 80%Z).
Proof.
  intros Hparse kb Hkb Hchain.
  unfold Part001.validateXML. rewrite Hparse.
  rewrite (truthy_keybox_root _ Hkb). fold kb. rewrite Hkb. cbn [negb].
  unfold Part001.checkKeybox.
  pose proof (checkAlgorithm_score E kb Part001.initial) as Halgo.
  destruct (Part001.checkDeviceID E kb (Part001.checkAlgorithm E kb Part001.initial))
    as [st1|msg] eqn:Hdev; cbn [bind].
  2:{ eexists. split; [reflexivity|]. cbn. repeat split; try lia.
      intros d k _ Hd _ _ _ _. exfalso. revert Hdev.
      unfold Part001.checkDeviceID. rewrite Hd.
      destruct (negb (truthy (VString d))); discriminate. }
  pose proof (checkDeviceID_score _ _ _ _ Hdev) as Hdev_le.
  destruct (Part001.checkPrivateKey E kb st1) as [st2|msg] eqn:Hkey; cbn [bind].
  2:{ eexists. split; [reflexivity|]. cbn. repeat split; try lia.
      intros d k _ _ _ _ Hk _. exfalso. revert Hkey.
      unfold Part001.checkPrivateKey. rewrite Hk.
      destruct (negb (truthy (VString k))); discriminate. }
  pose proof (checkPrivateKey_score _ _ _ _ Hkey) as Hkey_le.
  rewrite (checkChain_missing E kb st2 Hchain).
  eexists. split; [reflexivity|].
  cbn [Part001.score Part001.strongIntegrityReady Part001.notStrong
       Part001.penalty Part001.pushError Part001.l_score Part001.l_strong].
  cbn [Part001.initial Part001.l_score] in Halgo.
  repeat split; try lia.
  intros d k Ha Hd Hlen Hgeneric Hk Hklen.
  assert (Hst0 : Part001.checkAlgorithm E kb Part001.initial = Part001.initial).
  { unfold Part001.checkAlgorithm.
    destruct (get kb "KeyAlgorithm") as [|a| | | |]; try discriminate Ha.
    cbn [strict_eq_string] in *.
    destruct (String.eqb_spec a "ECDSA") as [Heq|_]; [rewrite Heq; reflexivity|].
    destruct (String.eqb_spec a "RSA") as [Heq|_]; [rewrite Heq; reflexivity|].
    discriminate Ha. }
  assert (Hst1 : st1 = Part001.initial).
  { revert Hdev. rewrite Hst0. unfold Part001.checkDeviceID. rewrite Hd.
    assert (Htr : truthy (VString d) = true).
    { destruct d; [change (Js.length "") with 0 in Hlen; lia | reflexivity]. }
    rewrite Htr. cbn [negb].
    apply Nat.ltb_ge in Hlen. rewrite Hlen.
    rewrite Hgeneric.
    intros H; now injection H. }
  assert (Hst2 : st2 = Part001.initial).
  { revert Hkey. rewrite Hst1. unfold Part001.checkPrivateKey. rewrite Hk.
    assert (Htr : truthy (VString k) = true).
    { destruct k; [change (Js.length (trim "")) with 0 in Hklen; lia
                  | reflexivity]. }
    rewrite Htr. cbn [negb].
    apply Nat.ltb_ge in Hklen. rewrite Hklen.
    intros H; now injection H. }
  rewrite Hst2. reflexivity.
Qed.

Lemma missing_chain_score_witness :
  exists result,
    Part001.validateXML
      (Sample.part001Env
         (Ok (Sample.document "ECDSA" "pixel-8a-unit-0042" None))) ""
    = Part001.SetResult result
    /\ (Part001.score result <= 80)%Z
    /\ Part001.strongIntegrityReady result = false
    /\ Part001.score result = 80%Z.
Proof.
  destruct (missing_chain_score
              (Sample.part001Env
                 (Ok (Sample.document "ECDSA" "pixel-8a-unit-0042" None)))
              "" (Sample.document "ECDSA" "pixel-8a-unit-0042" None)
              eq_refl eq_refl eq_refl)
    as (result & Hrun & Hscore & Hstrong & Hexact).
  exists result. repeat split; try assumption.
  apply (Hexact "pixel-8a-unit-0042" Sample.privateKey eq_refl eq_refl).
  - apply Nat.leb_le. reflexivity.
  - reflexivity.
  - reflexivity.
  - apply Nat.leb_le. vm_compute. reflexivity.
Defined.

(** C6, the claim as stated fails: a keybox that lacks only the certificate
    chain scores 80, which is above 50. *)
Lemma missing_chain_scores_80 :
  exists result,
    Part001.validateXML
      (Sample.part001Env
         (Ok (Sample.document "ECDSA" "pixel-8a-unit-0042" None))) ""
    = Part001.SetResult result
    /\ Part001.score result = 80%Z
    /\ ~ (Part001.score result <= 50)%Z.
Proof.
  eexists. split; [reflexivity|]. split; [reflexivity|].
  intros H. vm_compute in H. now apply H.
Qed.

(** ** Leak flagging by device id *)

Lemma Validator_some_res_text (E : Validator.Env) d l :
  Validator.some_res (Validator.deviceIncludes E (VString d)) l
  = Ok (existsb (fun s => includes d s) l).
Proof.
  induction l as [|s rest IH]; cbn [Validator.some_res existsb].
  - reflexivity.
  - cbn [Validator.deviceIncludes bind].
    destruct (includes d s); [reflexivity | exact IH].
Qed.

Lemma Part000_some_res_text (E : Part000.Env) kb d l :
  or_else (get kb "DeviceID") (VString "") = VString d ->
  Part000.some_res (Part000.deviceIncludes E kb) l
  = Ok (existsb (fun s => includes (toLowerCase d) s) l).
Proof.
  intros Hd.
  induction l as [|s rest IH]; cbn [Part000.some_res existsb].
  - reflexivity.
  - unfold Part000.deviceIncludes at 1. rewrite Hd. cbn [bind].
    destruct (includes (toLowerCase d) s); [reflexivity | exact IH].
Qed.

(** C7, as amended. In part_000, isLeaked is true whenever the device id,
    lower-cased, contains "android" or "test", the two entries the device id
    is checked against; so "android_test_device" is leaked there.  In
    Validator.tsx the device id is checked against LEAK_DB, which holds
    neither: isLeaked is true whenever the device id contains an entry of
    LEAK_DB, and "android_test_device" is not leaked unless a certificate is
    revoked. *)
Theorem device_id_leak :
  (forall (E0 : Part000.Env) content fileName r0 d,
     Part000.validateXML E0 content fileName = Part000.SetReport r0 ->
     Part000.deviceID r0 = VString d ->
     includes (toLowerCase d) "android" = true
     \/ includes (toLowerCase d) "test" = true ->
     Part000.isLeaked r0 = true)
  /\ (forall (E : Validator.Env) content fileName r d s,
        Validator.validateXML E content fileName = Validator.SetReport r ->
        Validator.deviceID r = VString d ->
        In s Validator.LEAK_DB -> includes d s = true ->
        Validator.isLeaked r = true)
  /\ (forall (E : Validator.Env) content fileName r,
        Validator.validateXML E content fileName = Validator.SetReport r ->
        Validator.deviceID r = VString "android_test_device" ->
        existsb Validator.isRevoked (Validator.certificates r) = false ->
        Validator.isLeaked r = false).
Proof.
  split; [|split].
  - intros E0 content fileName r0 d H0.
    apply Part000_report_inv in H0.
    destruct H0 as (jsonObj & kb & certs & leaked & _ & _ & _ & _ & Hleak
                    & _ & Hl & _ & _ & _ & _ & Hdev & _).
    rewrite Hdev, Hl. intros Hd Hsub.
    destruct (existsb Part000.isRevoked certs); [now injection Hleak|].
    unfold or_else in Hd.
    destruct (truthy (get kb "DeviceID")) eqn:Htruthy.
    + rewrite (Part000_some_res_text E0 kb d) in Hleak.
      * injection Hleak as <-. cbn [existsb].
        destruct Hsub as [-> | ->]; [reflexivity | apply orb_true_r].
      * unfold or_else. now rewrite Htruthy.
    + injection Hd as <-. destruct Hsub as [Hsub | Hsub]; discriminate Hsub.
  - intros E content fileName r d s H.
    apply Validator_report_inv in H.
    destruct H as (jsonObj & kb & certs & leaked & _ & _ & _ & _ & Hleak
                   & _ & _ & Hl & _ & Hdev & _).
    rewrite Hdev, Hl. intros Hd Hin Hsub.
    destruct (existsb Validator.isRevoked certs); [now injection Hleak|].
    rewrite Hd, Validator_some_res_text in Hleak.
    assert (Hex : existsb (fun s => includes d s) Validator.LEAK_DB = leaked)
      by congruence.
    rewrite <- Hex. apply existsb_exists. exists s. split; assumption.
  - intros E content fileName r H.
    apply Validator_report_inv in H.
    destruct H as (jsonObj & kb & certs & leaked & _ & _ & _ & _ & Hleak
                   & _ & Hcerts & Hl & _ & Hdev & _).
    rewrite Hdev, Hl, Hcerts, existsb_sortByType. intros Hd Hrevoked.
    rewrite Hrevoked, Hd, Validator_some_res_text in Hleak.
    assert (Hex : existsb (fun s => includes "android_test_device" s)
                    Validator.LEAK_DB = leaked) by congruence.
    rewrite <- Hex. reflexivity.
Qed.

Lemma device_id_leak_witness :
  exists r0,
    Part000.validateXML
         (Sample.part000Env
            (Ok (Sample.document "ECDSA" "android_test_device"
                   (Some Sample.fullChain))))
         "" "keybox.xml" = Part000.SetReport r0
    /\ Part000.deviceID r0 = VString "android_test_device"
    /\ Part000.isLeaked r0 = true.
Proof.
  eexists.
  split; [reflexivity|]. split; [reflexivity|].
  apply (proj1 device_id_leak
           (Sample.part000Env
              (Ok (Sample.document "ECDSA" "android_test_device"
                     (Some Sample.fullChain))))
           "" "keybox.xml" _ "android_test_device" eq_refl).
  - reflexivity.
  - left. reflexivity.
Defined.

(** C7, the claim as stated fails on Validator.tsx: the device id
    "android_test_device", on a sound chain, is not leaked. *)
Lemma validator_android_test_device_not_leaked :
  exists r,
    Validator.validateXML
      (Sample.validatorEnv
         (Ok (Sample.document "ECDSA" "android_test_device" (Some Sample.fullChain))))
      "" "keybox.xml" = Validator.SetReport r
    /\ Validator.deviceID r = VString "android_test_device"
    /\ includes (toLowerCase "android_test_device") "android" = true
    /\ includes (toLowerCase "android_test_device") "test" = true
    /\ Validator.isLeaked r = false
    /\ Validator.overallStatus r = Validator.VALID.
Proof.
  eexists. split; [reflexivity|]. repeat split.
Qed.

(** ** Days remaining *)

Lemma sortByType_nil l : Validator.sortByType l = [] -> l = [].
Proof.
  intros H. apply length_zero_iff_nil.
  rewrite <- length_sortByType, H. reflexivity.
Qed.

(** Validator.tsx sorts a copy, so the leaf is looked up in the order the
    chain supplied: for every report with a certificate, daysRemaining is
    the day difference between the notAfter of the END_ENTITY certificate
    and the clock, and with no END_ENTITY certificate that of the first
    decoded certificate in chain order. *)
Lemma Validator_daysRemaining (E : Validator.Env) content fileName r :
  Validator.validateXML E content fileName = Validator.SetReport r ->
  Validator.certificates r <> [] ->
  exists jsonObj leaf ms,
    Validator.parse E content = Ok jsonObj
    /\ (let kb := get (get jsonObj "AndroidAttestation") "Keybox" in
        let chain :=
          Validator.parseEach E
            (Z.of_nat (List.length (Validator.certsRawOf kb))) 0
            (Validator.certsRawOf kb) in
        let isLeaf c := Validator.CertType_eqb (Validator.type c) Validator.END_ENTITY in
        find isLeaf chain = Some leaf
        \/ (find isLeaf chain = None /\ nth_error chain 0 = Some leaf))
    /\ Validator.notAfter leaf = Some ms
    /\ Validator.daysRemaining r
       = Validator.differenceInDays E ms (Validator.nowReport E).
Proof.
  intros H Hne. apply Validator_report_inv in H.
  destruct H as (jsonObj & kb & certs & leaked & Hparse & Hkb & _ & Hcerts & _
                 & _ & Hsorted & _ & _ & _ & _ & _ & _ & Hleaf).
  assert (Hchain : certs <> []).
  { intros ->. apply Hne. rewrite Hsorted. reflexivity. }
  unfold Validator.find_or in Hleaf.
  destruct (find _ certs) as [leaf|] eqn:Hfind.
  - destruct Hleaf as (ms & Hms & _ & Hdays).
    exists jsonObj, leaf, ms. subst kb certs. cbv zeta.
    repeat split; try assumption. left. exact Hfind.
  - destruct certs as [|first rest]; [contradiction|].
    cbn [nth_error] in Hleaf. destruct Hleaf as (ms & Hms & _ & Hdays).
    exists jsonObj, first, ms. subst kb. cbv zeta. rewrite <- Hcerts.
    repeat split; try assumption. right. split; [exact Hfind | reflexivity].
Qed.

(** C8, the failing input on part_000.  The chain is: a certificate that
    does not decode, an intermediate (expires 2031), the self-signed Google
    root (expires 2032).  No certificate is END_ENTITY.  part_000 sorts
    [certs] in place before the fallback [certs[0]], which is therefore the
    root: daysRemaining and expiresOn are the root's, not those of the first
    certificate in chain order.  Validator.tsx, on the same chain, uses the
    intermediate. *)
Theorem part000_fallback_follows_display_order :
  let doc := Sample.document "ECDSA" "pixel-8a-unit-0042"
               (Some (Sample.chainOf ["garbage"; "MID"; "ROOT"])) in
  (exists r0,
     Part000.validateXML (Sample.part000Env (Ok doc)) "" "keybox.xml"
     = Part000.SetReport r0
     /\ map (fun c => (Part000.index c, Part000.type c)) (Part000.certificates r0)
        = [(3%Z, Part000.ROOT); (2%Z, Part000.INTERMEDIATE)]
     /\ Part000.expiresOn r0 = "Jan 01, 2032"
     /\ Part000.daysRemaining r0
        = Sample.differenceInDays 1956528000000 Sample.clock)
  /\ (exists r,
        Validator.validateXML (Sample.validatorEnv (Ok doc)) "" "keybox.xml"
        = Validator.SetReport r
        /\ map (fun c => (Validator.index c, Validator.type c))
               (Validator.certificates r)
           = [(3%Z, Validator.ROOT); (2%Z, Validator.INTERMEDIATE)]
        /\ Validator.expiresOn r = "Jan 01, 2031"
        /\ Validator.daysRemaining r
           = Sample.differenceInDays 1924992000000 Sample.clock).
Proof.
  split; eexists; (split; [reflexivity|]); repeat split.
Qed.

(** ** A keybox without certificates *)






(** C10, the failing input.  A keybox whose device id is made of digits
    only (the parser delivers the number 12345678) and that has no
    certificate chain.  Both categorical validators call a string method on
    the number, [deviceID.includes] at Validator.tsx line 238 and
    [toLowerCase] at part_000 line 196: the TypeError is caught, the caller
    gets the alert, and no report is produced, where the claim promises a
    report without certificates. *)
Theorem digits_only_device_id_gives_no_report :
  let doc := SampleMore.documentWith (VNumber 12345678) None in
  let kb := get (get doc "AndroidAttestation") "Keybox" in
  truthy kb = true
  /\ Shape.chainAbsentOrEmpty kb
  /\ Validator.validateXML (Sample.validatorEnv (Ok doc)) "" "keybox.xml"
     = Validator.Alert "Validation Failed: deviceID.includes is not a function"
  /\ Part000.validateXML (Sample.part000Env (Ok doc)) "" "keybox.xml"
     = Part000.Alert
         "Validation Failed: (kb.DeviceID || ).toLowerCase is not a function"
  /\ (forall r,
        Validator.validateXML (Sample.validatorEnv (Ok doc)) "" "keybox.xml"
        <> Validator.SetReport r)
  /\ (forall r0,
        Part000.validateXML (Sample.part000Env (Ok doc)) "" "keybox.xml"
        <> Part000.SetReport r0).
Proof.
  cbv zeta. split; [reflexivity|]. split; [left; reflexivity|].
  split; [reflexivity|]. split; [reflexivity|].
  split; intros r H; discriminate H.
Qed.

(** * Further properties of the validators *)

(** ** The display order *)

Lemma insertByType_partition c (roots mids leaves : list Validator.CertDetail) :
  forallb (Role.has Validator.ROOT) roots = true ->
  forallb (Role.has Validator.INTERMEDIATE) mids = true ->
  forallb (Role.has Validator.END_ENTITY) leaves = true ->
  Validator.insertByType c (roots ++ mids ++ leaves)%list
  = match Validator.type c with
    | Validator.ROOT => ((c :: roots) ++ mids ++ leaves)%list
    | Validator.INTERMEDIATE => (roots ++ (c :: mids) ++ leaves)%list
    | Validator.END_ENTITY => (roots ++ mids ++ (c :: leaves))%list
    end.
Proof.
  unfold Role.has. intros Hr Hm Hl.
  induction roots as [|d roots IHr]; cbn [app].
  - clear Hr. induction mids as [|d mids IHm]; cbn [app].
    + destruct leaves as [|d leaves]; cbn [Validator.insertByType].
      * destruct (Validator.type c); reflexivity.
      * cbn [forallb] in Hl. apply andb_prop in Hl. destruct Hl as [Hd _].
        destruct (Validator.type c), (Validator.type d); try discriminate Hd;
          reflexivity.
    + cbn [forallb] in Hm. apply andb_prop in Hm. destruct Hm as [Hd Hm].
      specialize (IHm Hm). cbn [Validator.insertByType].
      destruct (Validator.type d) eqn:Htd; try discriminate Hd.
      destruct (Validator.type c) eqn:Htc; cbn [Validator.typeOrder Z.leb Z.compare];
        try reflexivity.
      rewrite IHm. reflexivity.
  - cbn [forallb] in Hr. apply andb_prop in Hr. destruct Hr as [Hd Hr].
    specialize (IHr Hr). cbn [Validator.insertByType].
    destruct (Validator.type d) eqn:Htd; try discriminate Hd.
    destruct (Validator.type c) eqn:Htc; cbn [Validator.typeOrder Z.leb Z.compare];
      try reflexivity; rewrite IHr; reflexivity.
Qed.

Lemma forallb_filter_self {A : Type} (p : A -> bool) (l : list A) :
  forallb p (filter p l) = true.
Proof.
  induction l as [|x l IH]; cbn [filter]; [reflexivity|].
  destruct (p x) eqn:Hp; [cbn [forallb]; now rewrite Hp | exact IH].
Qed.

Lemma sortByType_partition (l : list Validator.CertDetail) :
  Validator.sortByType l
  = (filter (Role.has Validator.ROOT) l
     ++ filter (Role.has Validator.INTERMEDIATE) l
     ++ filter (Role.has Validator.END_ENTITY) l)%list.
Proof.
  induction l as [|c l IH]; [reflexivity|].
  cbn [Validator.sortByType fold_right]. fold (Validator.sortByType l).
  rewrite IH, insertByType_partition by apply forallb_filter_self.
  cbn [filter]. unfold Role.has. cbn beta.
  destruct (Validator.type c); reflexivity.
Qed.

Lemma Part000_insertByType_partition c (roots mids leaves : list Part000.CertDetail) :
  forallb (Role.has0 Part000.ROOT) roots = true ->
  forallb (Role.has0 Part000.INTERMEDIATE) mids = true ->
  forallb (Role.has0 Part000.END_ENTITY) leaves = true ->
  Part000.insertByType c (roots ++ mids ++ leaves)%list
  = match Part000.type c with
    | Part000.ROOT => ((c :: roots) ++ mids ++ leaves)%list
    | Part000.INTERMEDIATE => (roots ++ (c :: mids) ++ leaves)%list
    | Part000.END_ENTITY => (roots ++ mids ++ (c :: leaves))%list
    end.
Proof.
  unfold Role.has0. intros Hr Hm Hl.
  induction roots as [|d roots IHr]; cbn [app].
  - clear Hr. induction mids as [|d mids IHm]; cbn [app].
    + destruct leaves as [|d leaves]; cbn [Part000.insertByType].
      * destruct (Part000.type c); reflexivity.
      * cbn [forallb] in Hl. apply andb_prop in Hl. destruct Hl as [Hd _].
        destruct (Part000.type c), (Part000.type d); try discriminate Hd;
          reflexivity.
    + cbn [forallb] in Hm. apply andb_prop in Hm. destruct Hm as [Hd Hm].
      specialize (IHm Hm). cbn [Part000.insertByType].
      destruct (Part000.type d) eqn:Htd; try discriminate Hd.
      destruct (Part000.type c) eqn:Htc; cbn [Part000.typeOrder Z.leb Z.compare];
        try reflexivity.
      rewrite IHm. reflexivity.
  - cbn [forallb] in Hr. apply andb_prop in Hr. destruct Hr as [Hd Hr].
    specialize (IHr Hr). cbn [Part000.insertByType].
    destruct (Part000.type d) eqn:Htd; try discriminate Hd.
    destruct (Part000.type c) eqn:Htc; cbn [Part000.typeOrder Z.leb Z.compare];
      try reflexivity; rewrite IHr; reflexivity.
Qed.

Lemma Part000_sortByType_partition (l : list Part000.CertDetail) :
  Part000.sortByType l
  = (filter (Role.has0 Part000.ROOT) l
     ++ filter (Role.has0 Part000.INTERMEDIATE) l
     ++ filter (Role.has0 Part000.END_ENTITY) l)%list.
Proof.
  induction l as [|c l IH]; [reflexivity|].
  cbn [Part000.sortByType fold_right]. fold (Part000.sortByType l).
  rewrite IH, Part000_insertByType_partition by apply forallb_filter_self.
  cbn [filter]. unfold Role.has0. cbn beta.
  destruct (Part000.type c); reflexivity.
Qed.

Lemma sortByType_Permutation (l : list Validator.CertDetail) :
  Permutation (Validator.sortByType l) l.
Proof.
  assert (Hins : forall c s, Permutation (Validator.insertByType c s) (c :: s)).
  { intros c s. induction s as [|d s IH]; cbn [Validator.insertByType].
    - apply Permutation_refl.
    - destruct (Z.leb _ _); [apply Permutation_refl|].
      eapply Permutation_trans; [apply perm_skip, IH | apply perm_swap]. }
  induction l as [|c l IH]; [apply perm_nil|].
  cbn [Validator.sortByType fold_right]. fold (Validator.sortByType l).
  eapply Permutation_trans; [apply Hins | apply perm_skip, IH].
Qed.

Lemma Part000_sortByType_Permutation (l : list Part000.CertDetail) :
  Permutation (Part000.sortByType l) l.
Proof.
  assert (Hins : forall c s, Permutation (Part000.insertByType c s) (c :: s)).
  { intros c s. induction s as [|d s IH]; cbn [Part000.insertByType].
    - apply Permutation_refl.
    - destruct (Z.leb _ _); [apply Permutation_refl|].
      eapply Permutation_trans; [apply perm_skip, IH | apply perm_swap]. }
  induction l as [|c l IH]; [apply perm_nil|].
  cbn [Part000.sortByType fold_right]. fold (Part000.sortByType l).
  eapply Permutation_trans; [apply Hins | apply perm_skip, IH].
Qed.

(** What a decoded record holds, read off [parseCertificate]. *)
Lemma Validator_parseCertificate_inv (E : Validator.Env) pem index total c :
  Validator.parseCertificate E pem index total = Some c ->
  exists cert,
    Validator.readCertPEM E pem = Some cert
    /\ Validator.index c = (index + 1)%Z
    /\ Validator.type c
       = Validator.certType (Validator.isGoogleRoot c) (Validator.rawIssuer c)
           (Validator.rawSubject c) index total
    /\ Validator.isRevoked c
       = existsb (fun bad => includes (toLowerCase (Validator.serial c)) bad)
           Validator.LEAK_DB
    /\ Validator.isGoogleRoot c
       = includes (toLowerCase (Validator.rawIssuer c)) "google"
    /\ Validator.isExpired c
       = after (Validator.now E index) (Validator.notAfter c)
    /\ Validator.notAfter c
       = CertDate.parseDate (Validator.newDate E) (X509.getNotAfter cert)
    /\ Validator.fingerprint c = Validator.calculateFingerprint E (X509.hex cert)
    /\ Validator.rawSubject c = X509.getSubjectString cert
    /\ Validator.subject c
       = remove_first "OU=" (remove_first "CN=" (before_comma (Validator.rawSubject c))).
Proof.
  unfold Validator.parseCertificate.
  destruct (Validator.readCertPEM E pem) as [cert|]; [|discriminate].
  intros H. injection H as <-. exists cert. repeat split.
Qed.

Lemma Part000_parseCertificate_inv (E : Part000.Env) pem index total c :
  Part000.parseCertificate E pem index total = Some c ->
  exists cert,
    Part000.readCertPEM E pem = Some cert
    /\ Part000.index c = (index + 1)%Z
    /\ Part000.type c = Part000.certType (Part000.isGoogleRoot c) index total
    /\ Part000.isRevoked c
       = existsb (fun bad => includes (toLowerCase (Part000.serial c)) bad)
           Part000.LEAK_DB
    /\ Part000.isGoogleRoot c
       = includes (toLowerCase (Part000.issuer c)) "google"
    /\ Part000.isExpired c
       = after (Part000.now E index) (Part000.notAfter c)
    /\ Part000.notAfter c
       = CertDate.parseDate (Part000.newDate E) (X509.getNotAfter cert)
    /\ Part000.fingerprint c = Part000.calculateFingerprint E (X509.hex cert).
Proof.
  unfold Part000.parseCertificate.
  destruct (Part000.readCertPEM E pem) as [cert|]; [|discriminate].
  intros H. injection H as <-. exists cert. repeat split.
Qed.

(** Every record pushed by the [forEach] is the decoding of the chain entry
    at its position. *)
Lemma Validator_parseEach_In (E : Validator.Env) total raw : forall i c,
  In c (Validator.parseEach E total i raw) ->
  exists k pem,
    nth_error raw k = Some pem
    /\ Validator.parseCertificate E pem (i + Z.of_nat k) total = Some c.
Proof.
  induction raw as [|p raw IH]; intros i c Hin; [destruct Hin|].
  cbn [Validator.parseEach] in Hin.
  destruct (Validator.parseCertificate E p i total) as [parsed|] eqn:Hp.
  - destruct Hin as [<- | Hin].
    + exists 0%nat, p. split; [reflexivity|]. now rewrite Z.add_0_r.
    + destruct (IH _ _ Hin) as (k & pem & Hk & Hpem).
      exists (S k), pem. split; [exact Hk|].
      replace (i + Z.of_nat (S k))%Z with (i + 1 + Z.of_nat k)%Z by lia.
      exact Hpem.
  - destruct (IH _ _ Hin) as (k & pem & Hk & Hpem).
    exists (S k), pem. split; [exact Hk|].
    replace (i + Z.of_nat (S k))%Z with (i + 1 + Z.of_nat k)%Z by lia.
    exact Hpem.
Qed.

Lemma Part000_parseEach_In (E : Part000.Env) total raw : forall i c,
  In c (Part000.parseEach E total i raw) ->
  exists k pem,
    nth_error raw k = Some pem
    /\ Part000.parseCertificate E pem (i + Z.of_nat k) total = Some c.
Proof.
  induction raw as [|p raw IH]; intros i c Hin; [destruct Hin|].
  cbn [Part000.parseEach] in Hin.
  destruct (Part000.parseCertificate E p i total) as [parsed|] eqn:Hp.
  - destruct Hin as [<- | Hin].
    + exists 0%nat, p. split; [reflexivity|]. now rewrite Z.add_0_r.
    + destruct (IH _ _ Hin) as (k & pem & Hk & Hpem).
      exists (S k), pem. split; [exact Hk|].
      replace (i + Z.of_nat (S k))%Z with (i + 1 + Z.of_nat k)%Z by lia.
      exact Hpem.
  - destruct (IH _ _ Hin) as (k & pem & Hk & Hpem).
    exists (S k), pem. split; [exact Hk|].
    replace (i + Z.of_nat (S k))%Z with (i + 1 + Z.of_nat k)%Z by lia.
    exact Hpem.
Qed.

Lemma Validator_parseEach_NoDup (E : Validator.Env) total raw : forall i,
  NoDup (map Validator.index (Validator.parseEach E total i raw)).
Proof.
  induction raw as [|p raw IH]; intros i; [constructor|].
  cbn [Validator.parseEach].
  destruct (Validator.parseCertificate E p i total) as [parsed|] eqn:Hp;
    [|apply IH].
  cbn [map]. constructor; [|apply IH].
  intros Hin. apply in_map_iff in Hin. destruct Hin as (c & Hidx & Hin).
  apply Validator_parseEach_In in Hin. destruct Hin as (k & pem & _ & Hpem).
  apply Validator_parseCertificate_inv in Hp. destruct Hp as (_ & _ & Hi & _).
  apply Validator_parseCertificate_inv in Hpem.
  destruct Hpem as (_ & _ & Hi' & _). lia.
Qed.

Lemma Part000_parseEach_NoDup (E : Part000.Env) total raw : forall i,
  NoDup (map Part000.index (Part000.parseEach E total i raw)).
Proof.
  induction raw as [|p raw IH]; intros i; [constructor|].
  cbn [Part000.parseEach].
  destruct (Part000.parseCertificate E p i total) as [parsed|] eqn:Hp;
    [|apply IH].
  cbn [map]. constructor; [|apply IH].
  intros Hin. apply in_map_iff in Hin. destruct Hin as (c & Hidx & Hin).
  apply Part000_parseEach_In in Hin. destruct Hin as (k & pem & _ & Hpem).
  apply Part000_parseCertificate_inv in Hp. destruct Hp as (_ & _ & Hi & _).
  apply Part000_parseCertificate_inv in Hpem.
  destruct Hpem as (_ & _ & Hi' & _). lia.
Qed.

(** X1. The certificates of a report are the decoded certificates of the
    chain, regrouped and nothing else: first those typed ROOT, then the
    INTERMEDIATE ones, then the END_ENTITY ones, each group in the order the
    chain supplied them.  Both categorical validators. *)
Theorem certificates_display_order :
  (forall (E : Validator.Env) content fileName r jsonObj,
     Validator.validateXML E content fileName = Validator.SetReport r ->
     Validator.parse E content = Ok jsonObj ->
     let chain := Validator.certsRawOf (get (get jsonObj "AndroidAttestation") "Keybox") in
     let decoded := Validator.parseEach E (Z.of_nat (List.length chain)) 0 chain in
     Validator.certificates r
     = (filter (Role.has Validator.ROOT) decoded
        ++ filter (Role.has Validator.INTERMEDIATE) decoded
        ++ filter (Role.has Validator.END_ENTITY) decoded)%list)
  /\ (forall (E0 : Part000.Env) content fileName r0 jsonObj,
        Part000.validateXML E0 content fileName = Part000.SetReport r0 ->
        Part000.parse E0 content = Ok jsonObj ->
        let chain := Part000.certsRawOf (get (get jsonObj "AndroidAttestation") "Keybox") in
        let decoded := Part000.parseEach E0 (Z.of_nat (List.length chain)) 0 chain in
        Part000.certificates r0
        = (filter (Role.has0 Part000.ROOT) decoded
           ++ filter (Role.has0 Part000.INTERMEDIATE) decoded
           ++ filter (Role.has0 Part000.END_ENTITY) decoded)%list).
Proof.
  split.
  - intros E content fileName r jsonObj H Hparse chain decoded.
    apply Validator_report_inv in H.
    destruct H as (jsonObj' & kb & certs & leaked & Hparse' & Hkb & _ & Hcerts
                   & _ & _ & Hsorted & _).
    assert (jsonObj' = jsonObj) by congruence. subst jsonObj' kb.
    rewrite Hsorted, Hcerts. apply sortByType_partition.
  - intros E0 content fileName r0 jsonObj H Hparse chain decoded.
    apply Part000_report_inv in H.
    destruct H as (jsonObj' & kb & certs & leaked & Hparse' & Hkb & _ & Hcerts
                   & _ & Hreport & _).
    assert (jsonObj' = jsonObj) by congruence. subst jsonObj' kb.
    rewrite Hreport, Hcerts. apply Part000_sortByType_partition.
Qed.

Lemma certificates_display_order_witness :
  exists r,
    Validator.validateXML
      (Sample.validatorEnv
         (Ok (Sample.document "ECDSA" "pixel-8a-unit-0042" (Some Sample.fullChain))))
      "" "keybox.xml" = Validator.SetReport r
    /\ map Validator.index (Validator.certificates r) = [3; 2; 1]%Z.
Proof.
  eexists. split; [reflexivity|].
  exact (eq_trans
           (f_equal (map Validator.index)
              (proj1 certificates_display_order
                 (Sample.validatorEnv
                    (Ok (Sample.document "ECDSA" "pixel-8a-unit-0042"
                           (Some Sample.fullChain))))
                 "" "keybox.xml" _
                 (Sample.document "ECDSA" "pixel-8a-unit-0042"
                    (Some Sample.fullChain))
                 eq_refl eq_refl))
           eq_refl).
Defined.

(** X2. Every certificate of a report carries the position of the chain
    entry it was decoded from: its index is between 1 and the chain length,
    the chain entry at that position decodes to exactly this record, and no
    two certificates of a report share an index.  Entries that do not decode
    leave a gap; they do not shift the indices of the others. *)
Theorem records_follow_chain :
  (forall (E : Validator.Env) content fileName r jsonObj,
     Validator.validateXML E content fileName = Validator.SetReport r ->
     Validator.parse E content = Ok jsonObj ->
     let chain := Validator.certsRawOf (get (get jsonObj "AndroidAttestation") "Keybox") in
     NoDup (map Validator.index (Validator.certificates r))
     /\ forall c, In c (Validator.certificates r) ->
          (1 <= Validator.index c <= Z.of_nat (List.length chain))%Z
          /\ exists pem,
               nth_error chain (Z.to_nat (Validator.index c - 1)) = Some pem
               /\ Validator.parseCertificate E pem (Validator.index c - 1)
                    (Z.of_nat (List.length chain)) = Some c)
  /\ (forall (E0 : Part000.Env) content fileName r0 jsonObj,
        Part000.validateXML E0 content fileName = Part000.SetReport r0 ->
        Part000.parse E0 content = Ok jsonObj ->
        let chain := Part000.certsRawOf (get (get jsonObj "AndroidAttestation") "Keybox") in
        NoDup (map Part000.index (Part000.certificates r0))
        /\ forall c, In c (Part000.certificates r0) ->
             (1 <= Part000.index c <= Z.of_nat (List.length chain))%Z
             /\ exists pem,
                  nth_error chain (Z.to_nat (Part000.index c - 1)) = Some pem
                  /\ Part000.parseCertificate E0 pem (Part000.index c - 1)
                       (Z.of_nat (List.length chain)) = Some c).
Proof.
  split.
  - intros E content fileName r jsonObj H Hparse chain.
    apply Validator_report_inv in H.
    destruct H as (jsonObj' & kb & certs & leaked & Hparse' & Hkb & _ & Hcerts
                   & _ & _ & Hsorted & _).
    assert (jsonObj' = jsonObj) by congruence. subst jsonObj' kb.
    fold chain in Hcerts. rewrite Hsorted. split.
    + eapply Permutation_NoDup.
      * apply Permutation_map, Permutation_sym, sortByType_Permutation.
      * rewrite Hcerts. apply Validator_parseEach_NoDup.
    + intros c Hin.
      apply (Permutation_in _ (sortByType_Permutation certs)) in Hin.
      rewrite Hcerts in Hin. apply Validator_parseEach_In in Hin.
      destruct Hin as (k & pem & Hk & Hpem). rewrite Z.add_0_l in Hpem.
      pose proof (Validator_parseCertificate_inv _ _ _ _ _ Hpem)
        as (_ & _ & Hidx & _).
      assert (Hlt : (k < List.length chain)%nat)
        by (apply nth_error_Some; congruence).
      split; [lia|]. exists pem.
      replace (Validator.index c - 1)%Z with (Z.of_nat k) by lia.
      rewrite Nat2Z.id. split; assumption.
  - intros E0 content fileName r0 jsonObj H Hparse chain.
    apply Part000_report_inv in H.
    destruct H as (jsonObj' & kb & certs & leaked & Hparse' & Hkb & _ & Hcerts
                   & _ & Hreport & _).
    assert (jsonObj' = jsonObj) by congruence. subst jsonObj' kb.
    fold chain in Hcerts. rewrite Hreport, Hcerts. split.
    + eapply Permutation_NoDup.
      * apply Permutation_map, Permutation_sym, Part000_sortByType_Permutation.
      * apply Part000_parseEach_NoDup.
    + intros c Hin.
      apply (Permutation_in _ (Part000_sortByType_Permutation _)) in Hin.
      apply Part000_parseEach_In in Hin.
      destruct Hin as (k & pem & Hk & Hpem). rewrite Z.add_0_l in Hpem.
      pose proof (Part000_parseCertificate_inv _ _ _ _ _ Hpem)
        as (_ & _ & Hidx & _).
      assert (Hlt : (k < List.length chain)%nat)
        by (apply nth_error_Some; congruence).
      split; [lia|]. exists pem.
      replace (Part000.index c - 1)%Z with (Z.of_nat k) by lia.
      rewrite Nat2Z.id. split; assumption.
Qed.

Lemma records_follow_chain_witness :
  exists r,
    Validator.validateXML
      (Sample.validatorEnv
         (Ok (Sample.document "ECDSA" "pixel-8a-unit-0042"
                (Some (Sample.chainOf ["garbage"; "MID"; "ROOT"])))))
      "" "keybox.xml" = Validator.SetReport r
    /\ NoDup (map Validator.index (Validator.certificates r))
    /\ map Validator.index (Validator.certificates r) = [3; 2]%Z.
Proof.
  eexists. split; [reflexivity|]. split; [|reflexivity].
  exact (proj1 (proj1 records_follow_chain
                  (Sample.validatorEnv
                     (Ok (Sample.document "ECDSA" "pixel-8a-unit-0042"
                            (Some (Sample.chainOf ["garbage"; "MID"; "ROOT"])))))
                  "" "keybox.xml" _ _ eq_refl eq_refl)).
Defined.

(** ** What the records of a report say *)

Lemma Validator_report_member (E : Validator.Env) content fileName r c :
  Validator.validateXML E content fileName = Validator.SetReport r ->
  In c (Validator.certificates r) ->
  exists pem k total,
    Validator.parseCertificate E pem (Z.of_nat k) total = Some c.
Proof.
  intros H Hin. apply Validator_report_inv in H.
  destruct H as (jsonObj & kb & certs & leaked & _ & _ & _ & Hcerts
                 & _ & _ & Hsorted & _).
  rewrite Hsorted in Hin.
  apply (Permutation_in _ (sortByType_Permutation certs)) in Hin.
  rewrite Hcerts in Hin. apply Validator_parseEach_In in Hin.
  destruct Hin as (k & pem & _ & Hpem). rewrite Z.add_0_l in Hpem.
  now exists pem, k, (Z.of_nat (List.length (Validator.certsRawOf kb))).
Qed.

Lemma Part000_report_member (E : Part000.Env) content fileName r c :
  Part000.validateXML E content fileName = Part000.SetReport r ->
  In c (Part000.certificates r) ->
  exists pem k total,
    Part000.parseCertificate E pem (Z.of_nat k) total = Some c.
Proof.
  intros H Hin. apply Part000_report_inv in H.
  destruct H as (jsonObj & kb & certs & leaked & _ & _ & _ & Hcerts
                 & _ & Hreport & _).
  rewrite Hreport, Hcerts in Hin.
  apply (Permutation_in _ (Part000_sortByType_Permutation _)) in Hin.
  apply Part000_parseEach_In in Hin.
  destruct Hin as (k & pem & _ & Hpem). rewrite Z.add_0_l in Hpem.
  now exists pem, k, (Z.of_nat (List.length (Part000.certsRawOf kb))).
Qed.

Lemma Validator_report_NoDup (E : Validator.Env) content fileName r :
  Validator.validateXML E content fileName = Validator.SetReport r ->
  NoDup (map Validator.index (Validator.certificates r)).
Proof.
  intros H. apply Validator_report_inv in H.
  destruct H as (jsonObj & kb & certs & leaked & _ & _ & _ & Hcerts
                 & _ & _ & Hsorted & _).
  rewrite Hsorted. eapply Permutation_NoDup.
  - apply Permutation_map, Permutation_sym, sortByType_Permutation.
  - rewrite Hcerts. apply Validator_parseEach_NoDup.
Qed.

Lemma Part000_report_NoDup (E : Part000.Env) content fileName r :
  Part000.validateXML E content fileName = Part000.SetReport r ->
  NoDup (map Part000.index (Part000.certificates r)).
Proof.
  intros H. apply Part000_report_inv in H.
  destruct H as (jsonObj & kb & certs & leaked & _ & _ & _ & Hcerts
                 & _ & Hreport & _).
  rewrite Hreport, Hcerts. eapply Permutation_NoDup.
  - apply Permutation_map, Permutation_sym, Part000_sortByType_Permutation.
  - apply Part000_parseEach_NoDup.
Qed.

Lemma filter_keeps_distinct_keys {T K : Type} (key : T -> K) (keep : T -> bool) :
  forall items : list T,
    NoDup (map key items) -> NoDup (map key (filter keep items)).
Proof.
  intros items. induction items as [|item rest IH]; intros Hdistinct.
  - exact Hdistinct.
  - cbn [map] in Hdistinct. apply NoDup_cons_iff in Hdistinct.
    destruct Hdistinct as [Hfresh Hrest].
    cbn [filter]. destruct (keep item); [|exact (IH Hrest)].
    cbn [map]. apply NoDup_cons_iff. split; [|exact (IH Hrest)].
    rewrite in_map_iff. intros (other & Hkey & Hkept).
    apply Hfresh. rewrite in_map_iff. exists other.
    apply filter_In in Hkept. tauto.
Qed.

Lemma NoDup_constant_length {B : Type} (a : B) (l : list B) :
  NoDup l -> (forall x, In x l -> x = a) -> List.length l <= 1.
Proof.
  intros Hnd Hall. destruct l as [|x [|y l]]; cbn [List.length]; try lia.
  exfalso. inversion Hnd as [|? ? Hnotin _]; subst. apply Hnotin.
  rewrite (Hall x), (Hall y); cbn [In]; tauto.
Qed.

(** X3. In a report, a certificate typed END_ENTITY is always the first
    entry of the chain (index 1), the first entry of the chain is never
    typed INTERMEDIATE, and at most one certificate is END_ENTITY.  Both
    categorical validators. *)
Theorem end_entity_is_first :
  (forall (E : Validator.Env) content fileName r,
     Validator.validateXML E content fileName = Validator.SetReport r ->
     (forall c, In c (Validator.certificates r) ->
        (Validator.type c = Validator.END_ENTITY -> Validator.index c = 1%Z)
        /\ (Validator.index c = 1%Z -> Validator.type c <> Validator.INTERMEDIATE))
     /\ List.length (filter (Role.has Validator.END_ENTITY)
                       (Validator.certificates r)) <= 1)
  /\ (forall (E0 : Part000.Env) content fileName r0,
        Part000.validateXML E0 content fileName = Part000.SetReport r0 ->
        (forall c, In c (Part000.certificates r0) ->
           (Part000.type c = Part000.END_ENTITY -> Part000.index c = 1%Z)
           /\ (Part000.index c = 1%Z -> Part000.type c <> Part000.INTERMEDIATE))
        /\ List.length (filter (Role.has0 Part000.END_ENTITY)
                          (Part000.certificates r0)) <= 1).
Proof.
  split.
  - intros E content fileName r H.
    assert (Hall : forall c, In c (Validator.certificates r) ->
              (Validator.type c = Validator.END_ENTITY -> Validator.index c = 1%Z)
              /\ (Validator.index c = 1%Z ->
                  Validator.type c <> Validator.INTERMEDIATE)).
    { intros c Hin.
      destruct (Validator_report_member _ _ _ _ _ H Hin) as (pem & k & total & Hp).
      apply Validator_parseCertificate_inv in Hp.
      destruct Hp as (_ & _ & Hidx & Hty & _).
      rewrite Hty, Hidx. unfold Validator.certType.
      destruct (_ && _)%bool; [split; [discriminate | intros _; discriminate]|].
      destruct (Z.eqb_spec (Z.of_nat k) 0) as [-> | Hk].
      - split; [reflexivity | intros _; discriminate].
      - split.
        + destruct (Z.eqb _ (total - 1)); discriminate.
        + intros Hone. lia. }
    split; [exact Hall|].
    assert (Hlen : List.length (map Validator.index
                     (filter (Role.has Validator.END_ENTITY)
                        (Validator.certificates r))) <= 1).
    { apply (NoDup_constant_length 1%Z).
      - apply filter_keeps_distinct_keys, (Validator_report_NoDup _ _ _ _ H).
      - intros x Hx. apply in_map_iff in Hx. destruct Hx as (c & <- & Hc).
        apply filter_In in Hc. destruct Hc as [Hc Hty].
        apply (Hall c Hc). unfold Role.has in Hty.
        destruct (Validator.type c); (reflexivity || discriminate). }
    now rewrite length_map in Hlen.
  - intros E0 content fileName r0 H.
    assert (Hall : forall c, In c (Part000.certificates r0) ->
              (Part000.type c = Part000.END_ENTITY -> Part000.index c = 1%Z)
              /\ (Part000.index c = 1%Z ->
                  Part000.type c <> Part000.INTERMEDIATE)).
    { intros c Hin.
      destruct (Part000_report_member _ _ _ _ _ H Hin) as (pem & k & total & Hp).
      apply Part000_parseCertificate_inv in Hp.
      destruct Hp as (_ & _ & Hidx & Hty & _).
      rewrite Hty, Hidx. unfold Part000.certType.
      destruct (Z.ltb_spec 0 (Z.of_nat k)) as [Hpos | Hzero].
      - destruct (Part000.isGoogleRoot c); cbn [andb].
        + split; [discriminate | intros Hone; lia].
        + destruct (Z.eqb _ (total - 1)); [split; [discriminate | lia]|].
          destruct (Z.eqb_spec (Z.of_nat k) 0); [lia|].
          split; [discriminate | lia].
      - assert (Hk : Z.of_nat k = 0%Z) by lia. rewrite Hk.
        rewrite andb_false_r. change (Z.eqb 0 0) with true.
        destruct (Z.eqb 0 (total - 1)); split; intros;
          (reflexivity || discriminate). }
    split; [exact Hall|].
    assert (Hlen : List.length (map Part000.index
                     (filter (Role.has0 Part000.END_ENTITY)
                        (Part000.certificates r0))) <= 1).
    { apply (NoDup_constant_length 1%Z).
      - apply filter_keeps_distinct_keys, (Part000_report_NoDup _ _ _ _ H).
      - intros x Hx. apply in_map_iff in Hx. destruct Hx as (c & <- & Hc).
        apply filter_In in Hc. destruct Hc as [Hc Hty].
        apply (Hall c Hc). unfold Role.has0 in Hty.
        destruct (Part000.type c); (reflexivity || discriminate). }
    now rewrite length_map in Hlen.
Qed.

Lemma end_entity_is_first_witness :
  exists r,
    Validator.validateXML
      (Sample.validatorEnv
         (Ok (Sample.document "ECDSA" "pixel-8a-unit-0042" (Some Sample.fullChain))))
      "" "keybox.xml" = Validator.SetReport r
    /\ List.length (filter (Role.has Validator.END_ENTITY)
                      (Validator.certificates r)) <= 1.
Proof.
  eexists. split; [reflexivity|].
  exact (proj2 (proj1 end_entity_is_first
                  (Sample.validatorEnv
                     (Ok (Sample.document "ECDSA" "pixel-8a-unit-0042"
                            (Some Sample.fullChain))))
                  "" "keybox.xml" _ eq_refl)).
Defined.

(** X4. A report that holds a certificate whose serial, lower-cased,
    contains an entry of LEAK_DB (for instance "deadbeef", in any letter
    case) is leaked and REVOKED, whatever the algorithm, the dates and the
    device id.  Both categorical validators, each with its own LEAK_DB. *)
Theorem leaked_serial_is_REVOKED :
  (forall (E : Validator.Env) content fileName r c bad,
     Validator.validateXML E content fileName = Validator.SetReport r ->
     In c (Validator.certificates r) ->
     In bad Validator.LEAK_DB ->
     includes (toLowerCase (Validator.serial c)) bad = true ->
     Validator.isRevoked c = true
     /\ Validator.isLeaked r = true
     /\ Validator.overallStatus r = Validator.REVOKED
     /\ Validator.isStrongIntegrityReady r = false)
  /\ (forall (E0 : Part000.Env) content fileName r0 c bad,
        Part000.validateXML E0 content fileName = Part000.SetReport r0 ->
        In c (Part000.certificates r0) ->
        In bad Part000.LEAK_DB ->
        includes (toLowerCase (Part000.serial c)) bad = true ->
        Part000.isRevoked c = true
        /\ Part000.isLeaked r0 = true
        /\ Part000.overallStatus r0 = Part000.REVOKED
        /\ Part000.isStrongIntegrityReady r0 = false).
Proof.
  split.
  - intros E content fileName r c bad H Hin Hbad Hsub.
    assert (Hrev : Validator.isRevoked c = true).
    { destruct (Validator_report_member _ _ _ _ _ H Hin) as (pem & k & total & Hp).
      apply Validator_parseCertificate_inv in Hp.
      destruct Hp as (_ & _ & _ & _ & -> & _).
      apply existsb_exists. exists bad. split; assumption. }
    apply Validator_report_inv in H.
    destruct H as (jsonObj & kb & certs & leaked & _ & _ & _ & _ & Hleak & _
                   & Hsorted & Hl & _ & _ & _ & Hstatus & Hstrong & _).
    assert (Hany : existsb Validator.isRevoked certs = true).
    { rewrite <- (existsb_sortByType Validator.isRevoked), <- Hsorted.
      apply existsb_exists. exists c. split; assumption. }
    rewrite Hany in Hleak. injection Hleak as <-.
    rewrite Hstrong, Hstatus, Hl. repeat split; assumption.
  - intros E0 content fileName r0 c bad H Hin Hbad Hsub.
    assert (Hrev : Part000.isRevoked c = true).
    { destruct (Part000_report_member _ _ _ _ _ H Hin) as (pem & k & total & Hp).
      apply Part000_parseCertificate_inv in Hp.
      destruct Hp as (_ & _ & _ & _ & -> & _).
      apply existsb_exists. exists bad. split; assumption. }
    apply Part000_report_inv in H.
    destruct H as (jsonObj & kb & certs & leaked & _ & _ & _ & _ & Hleak
                   & Hreport & Hl & _ & _ & Hstatus & Hstrong & _).
    assert (Hany : existsb Part000.isRevoked certs = true).
    { rewrite <- Hreport. apply existsb_exists. exists c. split; assumption. }
    rewrite Hany in Hleak. injection Hleak as <-.
    rewrite Hstrong, Hstatus, Hl, Hany.
    repeat split; try assumption.
    now rewrite !andb_false_r.
Qed.

Lemma leaked_serial_is_REVOKED_witness :
  exists r c,
    Validator.validateXML
      (SampleMore.validatorEnv
         (Ok (Sample.document "ECDSA" "pixel-8a-unit-0042"
                (Some (Sample.chainOf ["LEAKED"; "MID"; "ROOT"])))))
      "" "keybox.xml" = Validator.SetReport r
    /\ In c (Validator.certificates r)
    /\ Validator.serial c = "01DEADBEEF99"
    /\ Validator.overallStatus r = Validator.REVOKED.
Proof.
  eexists. eexists.
  split; [reflexivity|]. split; [right; right; left; reflexivity|].
  split; [reflexivity|].
  apply (proj1 leaked_serial_is_REVOKED
           (SampleMore.validatorEnv
              (Ok (Sample.document "ECDSA" "pixel-8a-unit-0042"
                     (Some (Sample.chainOf ["LEAKED"; "MID"; "ROOT"])))))
           "" "keybox.xml" _ _ "deadbeef" eq_refl
           (or_intror (or_intror (or_introl eq_refl)))
           (or_intror (or_intror (or_introl eq_refl))) eq_refl).
Defined.

(** X5. A VALID report of Validator.tsx is sound on every count the
    validator looks at: it is not leaked, the algorithm is "ECDSA", no
    certificate is expired or revoked, and the list of certificates is not
    empty: it holds a certificate whose issuer contains "google".  The
    length of the chain is not looked at. *)
Theorem VALID_report_is_sound (E : Validator.Env) content fileName r :
  Validator.validateXML E content fileName = Validator.SetReport r ->
  Validator.overallStatus r = Validator.VALID ->
  Validator.isLeaked r = false
  /\ Validator.algorithm r = VString "ECDSA"
  /\ Validator.hasGoogleRoot r = true
  /\ (forall c, In c (Validator.certificates r) ->
        Validator.isExpired c = false /\ Validator.isRevoked c = false)
  /\ (exists c, In c (Validator.certificates r)
                /\ includes (toLowerCase (Validator.rawIssuer c)) "google" = true).
Proof.
  intros H Hvalid.
  assert (Hgoogle : forall c, In c (Validator.certificates r) ->
            Validator.isGoogleRoot c
            = includes (toLowerCase (Validator.rawIssuer c)) "google").
  { intros c Hin.
    destruct (Validator_report_member _ _ _ _ _ H Hin) as (pem & k & total & Hp).
    apply Validator_parseCertificate_inv in Hp.
    destruct Hp as (_ & _ & _ & _ & _ & Hg & _). exact Hg. }
  apply Validator_report_inv in H.
  destruct H as (jsonObj & kb & certs & leaked & _ & _ & _ & _ & Hleak & _
                 & Hsorted & Hl & _ & _ & Hroot & Hstatus & _).
  rewrite Hstatus in Hvalid. unfold Validator.statusOf in Hvalid.
  rewrite <- Hl in Hvalid.
  destruct (Validator.isLeaked r) eqn:Hleaked; [discriminate|].
  destruct (existsb Validator.isExpired certs) eqn:Hexp; [discriminate|].
  destruct (strict_eq_string (Validator.algorithm r) "ECDSA") eqn:Halgo;
    [|discriminate].
  destruct (Validator.hasGoogleRoot r) eqn:Hhas; [|discriminate].
  assert (Hrev : existsb Validator.isRevoked certs = false).
  { destruct (existsb Validator.isRevoked certs); [|reflexivity].
    injection Hleak as Hleak. congruence. }
  assert (Hmem : forall c, In c (Validator.certificates r) <-> In c certs).
  { intros c. rewrite Hsorted. split; apply Permutation_in;
      [|apply Permutation_sym]; apply sortByType_Permutation. }
  split; [reflexivity|]. split.
  { destruct (Validator.algorithm r); try discriminate Halgo.
    cbn [strict_eq_string] in Halgo. apply String.eqb_eq in Halgo. now subst. }
  split; [reflexivity|]. split.
  - intros c Hin. apply Hmem in Hin. split.
    + destruct (Validator.isExpired c) eqn:Hc; [|reflexivity].
      assert (existsb Validator.isExpired certs = true)
        by (apply existsb_exists; eauto). congruence.
    + destruct (Validator.isRevoked c) eqn:Hc; [|reflexivity].
      assert (existsb Validator.isRevoked certs = true)
        by (apply existsb_exists; eauto). congruence.
  - unfold Validator.find_or in Hroot.
    destruct (find _ certs) as [root|] eqn:Hfind.
    + apply find_some in Hfind. destruct Hfind as [Hin _].
      exists root. apply Hmem in Hin. split; [exact Hin|].
      rewrite <- (Hgoogle root Hin). congruence.
    + destruct (nth_error certs (List.length certs - 1)) as [last|] eqn:Hlast;
        [|congruence].
      apply nth_error_In in Hlast. apply Hmem in Hlast.
      exists last. split; [exact Hlast|].
      rewrite <- (Hgoogle last Hlast). congruence.
Qed.

Lemma VALID_report_is_sound_witness :
  exists r,
    Validator.validateXML
      (Sample.validatorEnv
         (Ok (Sample.document "ECDSA" "pixel-8a-unit-0042"
                (Some (Sample.chainOf ["ROOT"])))))
      "" "keybox.xml" = Validator.SetReport r
    /\ Validator.overallStatus r = Validator.VALID
    /\ Validator.algorithm r = VString "ECDSA".
Proof.
  eexists. split; [reflexivity|]. split; [reflexivity|].
  exact (proj1 (proj2 (VALID_report_is_sound
                         (Sample.validatorEnv
                            (Ok (Sample.document "ECDSA" "pixel-8a-unit-0042"
                                   (Some (Sample.chainOf ["ROOT"])))))
                         "" "keybox.xml" _ eq_refl eq_refl))).
Defined.

(** X6. The expiry flag of every certificate in a report agrees with its
    stored date: isExpired is true exactly when notAfter is a valid date
    strictly before the clock read while that certificate was decoded.  A
    certificate that lapses at that very instant, or whose date does not
    parse, is not expired.  Both categorical validators. *)
Theorem expired_flag_is_strict :
  (forall (E : Validator.Env) content fileName r c,
     Validator.validateXML E content fileName = Validator.SetReport r ->
     In c (Validator.certificates r) ->
     (Validator.isExpired c = true
      <-> exists ms, Validator.notAfter c = Some ms
                     /\ (ms < Validator.now E (Validator.index c - 1))%Z))
  /\ (forall (E0 : Part000.Env) content fileName r0 c,
        Part000.validateXML E0 content fileName = Part000.SetReport r0 ->
        In c (Part000.certificates r0) ->
        (Part000.isExpired c = true
         <-> exists ms, Part000.notAfter c = Some ms
                        /\ (ms < Part000.now E0 (Part000.index c - 1))%Z)).
Proof.
  split.
  - intros E content fileName r c H Hin.
    destruct (Validator_report_member _ _ _ _ _ H Hin) as (pem & k & total & Hp).
    apply Validator_parseCertificate_inv in Hp.
    destruct Hp as (_ & _ & Hidx & _ & _ & _ & Hexp & _).
    rewrite Hexp, Hidx.
    replace (Z.of_nat k + 1 - 1)%Z with (Z.of_nat k) by lia.
    unfold after. destruct (Validator.notAfter c) as [ms|].
    + rewrite Z.ltb_lt. split.
      * intros Hlt. exists ms. split; [reflexivity | exact Hlt].
      * intros (ms' & Hms & Hlt). injection Hms as ->. exact Hlt.
    + split; [discriminate | intros (ms & Hms & _); discriminate].
  - intros E0 content fileName r0 c H Hin.
    destruct (Part000_report_member _ _ _ _ _ H Hin) as (pem & k & total & Hp).
    apply Part000_parseCertificate_inv in Hp.
    destruct Hp as (_ & _ & Hidx & _ & _ & _ & Hexp & _).
    rewrite Hexp, Hidx.
    replace (Z.of_nat k + 1 - 1)%Z with (Z.of_nat k) by lia.
    unfold after. destruct (Part000.notAfter c) as [ms|].
    + rewrite Z.ltb_lt. split.
      * intros Hlt. exists ms. split; [reflexivity | exact Hlt].
      * intros (ms' & Hms & Hlt). injection Hms as ->. exact Hlt.
    + split; [discriminate | intros (ms & Hms & _); discriminate].
Qed.

Lemma expired_flag_is_strict_witness :
  exists r c,
    Validator.validateXML
      (SampleMore.validatorEnv
         (Ok (Sample.document "ECDSA" "pixel-8a-unit-0042"
                (Some (Sample.chainOf ["LAPSED"; "MID"; "ROOT"])))))
      "" "keybox.xml" = Validator.SetReport r
    /\ In c (Validator.certificates r)
    /\ Validator.notAfter c = Some 1577836800000%Z
    /\ Validator.isExpired c = true.
Proof.
  eexists. eexists.
  split; [reflexivity|]. split; [right; right; left; reflexivity|].
  split; [reflexivity|].
  apply (proj1 expired_flag_is_strict
           (SampleMore.validatorEnv
              (Ok (Sample.document "ECDSA" "pixel-8a-unit-0042"
                     (Some (Sample.chainOf ["LAPSED"; "MID"; "ROOT"])))))
           "" "keybox.xml" _ _ eq_refl
           (or_intror (or_intror (or_introl eq_refl)))).
  exists 1577836800000%Z. split; reflexivity.
Defined.

(** ** A device id that is not text *)




(** ** Fingerprints *)

Lemma substring_0_length (s : string) : forall m,
  String.length (String.substring 0 m s) = Nat.min m (String.length s).
Proof.
  induction s as [|c s IH]; intros [|m]; cbn; try reflexivity.
  now rewrite IH.
Qed.

Lemma substring_0_prefix (s : string) : forall m,
  String.prefix (String.substring 0 m s) s = true.
Proof.
  induction s as [|c s IH]; intros [|m]; cbn; try reflexivity.
  rewrite IH. destruct (ascii_dec c c); [reflexivity | contradiction].
Qed.

Lemma Js_substring_from_0 (s : string) (n : nat) :
  Js.substring s 0 n = String.substring 0 (Nat.min n (String.length s)) s.
Proof.
  unfold Js.substring. cbn [Nat.min Nat.max]. now rewrite Nat.sub_0_r.
Qed.

(** X8. The fingerprint of a certificate is the beginning of the SHA-256
    hex digest of its encoding, cut at 32 characters: it is a prefix of the
    digest and its length is the smaller of 32 and the digest's length.  In
    every report each certificate's fingerprint has at most 32 characters. *)
Theorem fingerprint_is_truncated_digest :
  (forall (E : Validator.Env) hex,
     String.prefix (Validator.calculateFingerprint E hex) (Validator.hashHex E hex)
     = true
     /\ String.length (Validator.calculateFingerprint E hex)
        = Nat.min 32 (String.length (Validator.hashHex E hex)))
  /\ (forall (E0 : Part000.Env) hex,
        String.prefix (Part000.calculateFingerprint E0 hex) (Part000.hashHex E0 hex)
        = true
        /\ String.length (Part000.calculateFingerprint E0 hex)
           = Nat.min 32 (String.length (Part000.hashHex E0 hex)))
  /\ (forall (E : Validator.Env) content fileName r c,
        Validator.validateXML E content fileName = Validator.SetReport r ->
        In c (Validator.certificates r) ->
        String.length (Validator.fingerprint c) <= 32).
Proof.
  split; [|split].
  - intros E hex. unfold Validator.calculateFingerprint.
    rewrite Js_substring_from_0. split.
    + apply substring_0_prefix.
    + rewrite substring_0_length. lia.
  - intros E0 hex. unfold Part000.calculateFingerprint.
    rewrite Js_substring_from_0. split.
    + apply substring_0_prefix.
    + rewrite substring_0_length. lia.
  - intros E content fileName r c H Hin.
    destruct (Validator_report_member _ _ _ _ _ H Hin) as (pem & k & total & Hp).
    apply Validator_parseCertificate_inv in Hp.
    destruct Hp as (cert & _ & _ & _ & _ & _ & _ & _ & Hfp & _).
    rewrite Hfp. unfold Validator.calculateFingerprint.
    rewrite Js_substring_from_0, substring_0_length. lia.
Qed.

(** ** The numeric validator, field by field *)

Lemma Ok_injective {A : Type} (a b : A) : Ok a = Ok b -> a = b.
Proof. intros H. now injection H. Qed.

Lemma clean_pushError msg st : Checks.clean (Part001.pushError msg st) = false.
Proof.
  unfold Checks.clean. cbn [Part001.pushError Part001.l_errors].
  destruct (Part001.l_errors st); reflexivity.
Qed.

Lemma clean_penalty n st : Checks.clean (Part001.penalty n st) = Checks.clean st.
Proof. reflexivity. Qed.

Lemma clean_notStrong st : Checks.clean (Part001.notStrong st) = Checks.clean st.
Proof. reflexivity. Qed.

Lemma clean_pushWarning msg st :
  Checks.clean (Part001.pushWarning msg st) = Checks.clean st.
Proof. reflexivity. Qed.

Ltac clean_simpl :=
  repeat (rewrite clean_penalty || rewrite clean_notStrong
          || rewrite clean_pushWarning || rewrite clean_pushError).

Ltac effect_cases :=
  repeat match goal with
         | |- context [if ?b then _ else _] => destruct b eqn:?
         end;
  clean_simpl;
  cbn [Part001.l_score Part001.l_strong Part001.notStrong Part001.penalty
       Part001.pushError Part001.pushWarning];
  repeat split; try lia;
  rewrite ?andb_true_r, ?andb_false_r; try reflexivity.

Ltac non_text_field :=
  cbn [truthy negb]; try discriminate;
  try (let H := fresh in intros H; apply Ok_injective in H; subst; effect_cases).

Lemma checkAlgorithm_effect (E : Part001.Env) kb st :
  Part001.l_score (Part001.checkAlgorithm E kb st)
  = (Part001.l_score st - Checks.algorithmPenalty kb)%Z
  /\ Part001.l_strong (Part001.checkAlgorithm E kb st)
     = (Part001.l_strong st && Checks.algorithmAccepted kb)%bool
  /\ Checks.clean (Part001.checkAlgorithm E kb st)
     = (Checks.clean st && truthy (get kb "KeyAlgorithm"))%bool.
Proof.
  unfold Part001.checkAlgorithm, Checks.algorithmPenalty, Checks.algorithmAccepted.
  cbv zeta.
  destruct (truthy (get kb "KeyAlgorithm")); cbn [negb orb].
  - destruct (strict_eq_string (get kb "KeyAlgorithm") "ECDSA");
      destruct (strict_eq_string (get kb "KeyAlgorithm") "RSA");
      cbn [negb andb orb]; effect_cases.
  - effect_cases.
Qed.

Lemma checkDeviceID_effect (E : Part001.Env) kb st st' :
  Part001.checkDeviceID E kb st = Ok st' ->
  Part001.l_score st' = (Part001.l_score st - Checks.devicePenalty kb)%Z
  /\ Part001.l_strong st'
     = (Part001.l_strong st && Checks.deviceAccepted kb)%bool
  /\ Checks.clean st'
     = (Checks.clean st
        && match get kb "DeviceID" with
           | VString d =>
               truthy (VString d)
               && negb (existsb (String.eqb (toLowerCase d)) Part001.placeholders)
           | _ => false
           end)%bool.
Proof.
  unfold Part001.checkDeviceID, Checks.devicePenalty, Checks.deviceAccepted.
  cbv zeta.
  destruct (get kb "DeviceID") as [|d|n|b|items|fields].
  - non_text_field.
  - destruct (truthy (VString d)); cbn [negb orb andb];
      intros H; apply Ok_injective in H; subst st'.
    + destruct (Nat.ltb (Js.length d) 8);
        destruct (existsb (String.eqb (toLowerCase d)) Part001.placeholders);
        cbn [negb]; effect_cases.
    + effect_cases.
  - cbn [truthy]. destruct (Z.eqb n 0); non_text_field.
  - destruct b; non_text_field.
  - non_text_field.
  - non_text_field.
Qed.

Lemma checkPrivateKey_effect (E : Part001.Env) kb st st' :
  Part001.checkPrivateKey E kb st = Ok st' ->
  Part001.l_score st' = (Part001.l_score st - Checks.keyPenalty kb)%Z
  /\ Part001.l_strong st' = (Part001.l_strong st && Checks.keyAccepted kb)%bool
  /\ Checks.clean st' = (Checks.clean st && Checks.keyAccepted kb)%bool.
Proof.
  unfold Part001.checkPrivateKey, Checks.keyPenalty, Checks.keyAccepted.
  cbv zeta.
  destruct (get kb "PrivateKey") as [|k|n|b|items|fields].
  - non_text_field.
  - destruct (truthy (VString k)); cbn [negb andb];
      intros H; apply Ok_injective in H; subst st'.
    + rewrite Nat.leb_antisym.
      destruct (Nat.ltb (Js.length (trim k)) 100); cbn [negb]; effect_cases.
    + effect_cases.
  - cbn [truthy]. destruct (Z.eqb n 0); non_text_field.
  - destruct b; non_text_field.
  - non_text_field.
  - non_text_field.
Qed.

Lemma checkEach_effect (E : Part001.Env) certs : forall i st,
  Part001.l_score (Part001.checkEach E i certs st)
  = (Part001.l_score st
     - 5 * Z.of_nat (List.length
         (filter (fun c => match Part001.readCert E c with
                           | Some _ => false | None => true end) certs)))%Z
  /\ Part001.l_strong (Part001.checkEach E i certs st) = Part001.l_strong st
  /\ Part001.l_errors (Part001.checkEach E i certs st) = Part001.l_errors st
  /\ List.length (Part001.l_warnings (Part001.checkEach E i certs st))
     = List.length (Part001.l_warnings st)
       + List.length
           (filter (fun c => match Part001.readCert E c with
                             | Some _ => false | None => true end) certs).
Proof.
  induction certs as [|c certs IH]; intros i st.
  - cbn. repeat split; lia.
  - cbn [Part001.checkEach filter]. unfold Part001.parseCertificate.
    destruct (Part001.readCert E c).
    + apply IH.
    + destruct (IH (S i) (Part001.penalty 5 (Part001.pushWarning
                   ("Certificate " ++ decimal (i + 1)
                    ++ " could not be parsed. Format may be invalid.") st)))
        as (Hs & Hb & He & Hw).
      rewrite Hs, Hb, He, Hw.
      cbn [Part001.l_score Part001.l_strong Part001.l_errors Part001.l_warnings
           Part001.penalty Part001.pushWarning List.length].
      rewrite length_app. cbn [List.length]. repeat split; lia.
Qed.

Lemma checkChain_effect (E : Part001.Env) kb st :
  Part001.l_score (Part001.checkChain E kb st)
  = (Part001.l_score st - Checks.chainPenalty E kb)%Z
  /\ Part001.l_strong (Part001.checkChain E kb st)
     = (Part001.l_strong st && Checks.chainAccepted kb)%bool
  /\ Checks.clean (Part001.checkChain E kb st)
     = (Checks.clean st && truthy (Checks.certificatesOf kb))%bool.
Proof.
  unfold Part001.checkChain, Checks.chainPenalty, Checks.chainAccepted,
    Checks.undecodable, Checks.chainList, Checks.certificatesOf.
  cbv zeta.
  set (chain := get kb "CertificateChain").
  set (c := get chain "Certificate").
  assert (Hfalsy : truthy chain = false -> truthy c = false).
  { unfold c. destruct chain; cbn; try discriminate; reflexivity. }
  destruct (truthy c) eqn:Hc.
  - assert (Hchain : truthy chain = true).
    { destruct (truthy chain); [reflexivity|].
      specialize (Hfalsy eq_refl). congruence. }
    rewrite Hchain. cbn [negb orb andb].
    set (certs := match c with VArray items => items | _ => [c] end).
    set (st1 := if Nat.ltb (List.length certs) 3 then _ else st).
    destruct (checkEach_effect E certs 0 st1) as (Hs & Hb & He & _).
    rewrite Hs, Hb. unfold Checks.clean at 1. rewrite He. fold (Checks.clean st1).
    rewrite Nat.leb_antisym. unfold st1.
    destruct (Nat.ltb (List.length certs) 3); cbn [negb];
      clean_simpl;
      cbn [Part001.l_score Part001.l_strong Part001.notStrong Part001.penalty
           Part001.pushWarning];
      repeat split; try lia;
      rewrite ?andb_true_r, ?andb_false_r; reflexivity.
  - rewrite orb_true_r. clean_simpl.
    cbn [Part001.l_score Part001.l_strong Part001.notStrong Part001.penalty
         Part001.pushError andb].
    repeat split; try lia; rewrite ?andb_false_r; reflexivity.
Qed.

Lemma checkDeviceID_throws (E : Part001.Env) kb st :
  (exists st', Part001.checkDeviceID E kb st = Ok st'
               /\ match get kb "DeviceID" with
                  | VString _ => true
                  | v => negb (truthy v)
                  end = true)
  \/ (Part001.checkDeviceID E kb st
      = Throw (Part001.notAFunction E "kb.DeviceID.toLowerCase")
      /\ match get kb "DeviceID" with
         | VString _ => true
         | v => negb (truthy v)
         end = false).
Proof.
  unfold Part001.checkDeviceID. cbv zeta.
  destruct (get kb "DeviceID") as [|d|n|b|items|fields]; cbn [truthy negb].
  - left. eexists. split; reflexivity.
  - left. destruct (negb (negb (d =? ""))); eexists; split; reflexivity.
  - destruct (Z.eqb n 0); cbn [negb];
      [left; eexists; split; reflexivity | right; split; reflexivity].
  - destruct b; cbn [negb];
      [right; split; reflexivity | left; eexists; split; reflexivity].
  - right. split; reflexivity.
  - right. split; reflexivity.
Qed.

Lemma checkPrivateKey_throws (E : Part001.Env) kb st :
  (exists st', Part001.checkPrivateKey E kb st = Ok st'
               /\ match get kb "PrivateKey" with
                  | VString _ => true
                  | v => negb (truthy v)
                  end = true)
  \/ (Part001.checkPrivateKey E kb st
      = Throw (Part001.notAFunction E "kb.PrivateKey.trim")
      /\ match get kb "PrivateKey" with
         | VString _ => true
         | v => negb (truthy v)
         end = false).
Proof.
  unfold Part001.checkPrivateKey. cbv zeta.
  destruct (get kb "PrivateKey") as [|k|n|b|items|fields]; cbn [truthy negb].
  - left. eexists. split; reflexivity.
  - left. destruct (negb (negb (k =? ""))); eexists; split; reflexivity.
  - destruct (Z.eqb n 0); cbn [negb];
      [left; eexists; split; reflexivity | right; split; reflexivity].
  - destruct b; cbn [negb];
      [right; split; reflexivity | left; eexists; split; reflexivity].
  - right. split; reflexivity.
  - right. split; reflexivity.
Qed.

Lemma penalties_nonnegative (E : Part001.Env) kb :
  (0 <= Checks.algorithmPenalty kb)%Z /\ (0 <= Checks.devicePenalty kb)%Z
  /\ (0 <= Checks.keyPenalty kb)%Z /\ (0 <= Checks.chainPenalty E kb)%Z.
Proof.
  unfold Checks.algorithmPenalty, Checks.devicePenalty, Checks.keyPenalty,
    Checks.chainPenalty. cbv zeta.
  repeat split;
    repeat match goal with
           | |- context [match ?v with VUndefined => _ | _ => _ end] => destruct v
           | |- context [if ?b then _ else _] => destruct b
           end; lia.
Qed.

(** What [checkKeybox] gives, in terms of the four fields. *)
Lemma checkKeybox_effect (E : Part001.Env) kb r :
  Part001.checkKeybox E kb = Ok r ->
  Checks.textFields kb = true
  /\ Part001.score r
     = Z.max 0 (100 - Checks.algorithmPenalty kb - Checks.devicePenalty kb
                - Checks.keyPenalty kb - Checks.chainPenalty E kb)
  /\ Part001.revocationRisk r
     = Part001.riskOf (100 - Checks.algorithmPenalty kb - Checks.devicePenalty kb
                       - Checks.keyPenalty kb - Checks.chainPenalty E kb)
  /\ Part001.strongIntegrityReady r
     = (Checks.algorithmAccepted kb && Checks.deviceAccepted kb
        && Checks.keyAccepted kb && Checks.chainAccepted kb)%bool
  /\ Part001.valid r = Checks.errorFree kb.
Proof.
  unfold Part001.checkKeybox.
  destruct (checkAlgorithm_effect E kb Part001.initial) as (Hs0 & Hb0 & Hc0).
  destruct (checkDeviceID_throws E kb (Part001.checkAlgorithm E kb Part001.initial))
    as [(st1 & Hdev & Htext1) | (Hdev & _)]; rewrite Hdev; cbn [bind];
    [|discriminate].
  destruct (checkDeviceID_effect _ _ _ _ Hdev) as (Hs1 & Hb1 & Hc1).
  destruct (checkPrivateKey_throws E kb st1)
    as [(st2 & Hkey & Htext2) | (Hkey & _)]; rewrite Hkey; cbn [bind];
    [|discriminate].
  destruct (checkPrivateKey_effect _ _ _ _ Hkey) as (Hs2 & Hb2 & Hc2).
  destruct (checkChain_effect E kb st2) as (Hs3 & Hb3 & Hc3).
  intros H. apply Ok_injective in H. subst r.
  cbn [Part001.score Part001.revocationRisk Part001.strongIntegrityReady
       Part001.valid].
  fold (Checks.clean (Part001.checkChain E kb st2)).
  rewrite Hs3, Hs2, Hs1, Hs0, Hb3, Hb2, Hb1, Hb0, Hc3, Hc2, Hc1, Hc0.
  cbn [Part001.initial Part001.l_score Part001.l_strong andb].
  unfold Checks.textFields, Checks.errorFree. rewrite Htext1, Htext2.
  change (Checks.clean Part001.initial) with true. cbn [andb].
  repeat split.
Qed.

Lemma Part001_result_inv (E : Part001.Env) content r :
  Part001.validateXML E content = Part001.SetResult r ->
  (exists message, r = Part001.syntaxError message)
  \/ (exists jsonObj,
        Part001.parse E content = Ok jsonObj
        /\ truthy (get (get jsonObj "AndroidAttestation") "Keybox") = true
        /\ Part001.checkKeybox E (get (get jsonObj "AndroidAttestation") "Keybox")
           = Ok r).
Proof.
  unfold Part001.validateXML.
  destruct (Part001.parse E content) as [jsonObj|message].
  2:{ intros H. left. exists message. now injection H. }
  destruct (truthy (get jsonObj "AndroidAttestation")); cbn [negb];
    [|discriminate].
  destruct (truthy (get (get jsonObj "AndroidAttestation") "Keybox")) eqn:Hkb;
    cbn [negb]; [|discriminate].
  destruct (Part001.checkKeybox E _) as [result|message] eqn:Hcheck;
    intros H; injection H as <-.
  - right. exists jsonObj. repeat split; assumption.
  - left. now exists message.
Qed.

(** X9. In part_001 the score of a keybox is 100 minus the sum of four
    independent penalties, never below 0: the algorithm (10 when missing, 5
    when neither ECDSA nor RSA), the device id (20 when missing; 5 when
    shorter than 8 characters, plus 30 when it is a generic placeholder), the
    private key (20 when missing, 10 when shorter than 100 characters once
    trimmed) and the chain (20 when missing; 10 when shorter than 3
    certificates, plus 5 for each certificate that does not decode).  This
    holds whenever the device id and the private key are text or missing.
    Characters are counted as [length] counts them, in UTF-16 code units. *)
Theorem score_is_hundred_minus_penalties (E : Part001.Env) content jsonObj :
  Part001.parse E content = Ok jsonObj ->
  let kb := get (get jsonObj "AndroidAttestation") "Keybox" in
  truthy kb = true ->
  Checks.textFields kb = true ->
  exists r,
    Part001.validateXML E content = Part001.SetResult r
    /\ Part001.score r
       = Z.max 0 (100 - Checks.algorithmPenalty kb - Checks.devicePenalty kb
                  - Checks.keyPenalty kb - Checks.chainPenalty E kb).
Proof.
  intros Hparse kb Hkb Htext.
  unfold Part001.validateXML. rewrite Hparse.
  rewrite (truthy_keybox_root _ Hkb). fold kb. rewrite Hkb. cbn [negb].
  destruct (Part001.checkKeybox E kb) as [r|message] eqn:Hcheck.
  - exists r. split; [reflexivity|].
    apply checkKeybox_effect in Hcheck. tauto.
  - exfalso. revert Hcheck. unfold Part001.checkKeybox.
    unfold Checks.textFields in Htext. apply andb_prop in Htext.
    destruct Htext as [Ht1 Ht2].
    destruct (checkDeviceID_throws E kb
                (Part001.checkAlgorithm E kb Part001.initial))
      as [(st1 & Hdev & _) | (_ & Hno)]; [|congruence].
    rewrite Hdev. cbn [bind].
    destruct (checkPrivateKey_throws E kb st1)
      as [(st2 & Hkey & _) | (_ & Hno)]; [|congruence].
    rewrite Hkey. cbn [bind]. discriminate.
Qed.

Lemma score_is_hundred_minus_penalties_witness :
  exists r,
    Part001.validateXML
      (Sample.part001Env
         (Ok (Sample.document "DSA" "android"
                (Some (Sample.chainOf ["LEAF"; "garbage"])))))
      "" = Part001.SetResult r
    /\ Part001.score r = 45%Z.
Proof.
  destruct (score_is_hundred_minus_penalties
              (Sample.part001Env
                 (Ok (Sample.document "DSA" "android"
                        (Some (Sample.chainOf ["LEAF"; "garbage"])))))
              ""
              (Sample.document "DSA" "android"
                 (Some (Sample.chainOf ["LEAF"; "garbage"])))
              eq_refl eq_refl eq_refl) as (r & Hrun & Hscore).
  exists r. split; [exact Hrun|]. rewrite Hscore. reflexivity.
Defined.

(** X10. In part_001, strongIntegrityReady is true exactly when all of
    these hold: the algorithm is missing or is ECDSA or RSA; the device id
    is missing or is text that is not a generic placeholder; the private key
    is text of at least 100 characters once trimmed; the chain has at least 3
    certificates.  A missing algorithm or device id lowers the score and
    still leaves the keybox strong-integrity-ready; certificates that do not
    decode do not count against it either. *)
Theorem strong_integrity_conditions (E : Part001.Env) content jsonObj r :
  Part001.parse E content = Ok jsonObj ->
  Part001.validateXML E content = Part001.SetResult r ->
  let kb := get (get jsonObj "AndroidAttestation") "Keybox" in
  Part001.strongIntegrityReady r
  = (Checks.algorithmAccepted kb && Checks.deviceAccepted kb
     && Checks.keyAccepted kb && Checks.chainAccepted kb)%bool.
Proof.
  intros Hparse Hrun kb. revert Hrun.
  unfold Part001.validateXML. rewrite Hparse.
  destruct (truthy (get jsonObj "AndroidAttestation")); cbn [negb];
    [|discriminate].
  fold kb. destruct (truthy kb); cbn [negb]; [|discriminate].
  destruct (Part001.checkKeybox E kb) as [result|message] eqn:Hcheck;
    intros H; injection H as <-.
  - apply checkKeybox_effect in Hcheck. tauto.
  - cbn [Part001.syntaxError Part001.strongIntegrityReady].
    revert Hcheck. unfold Part001.checkKeybox.
    destruct (checkDeviceID_throws E kb
                (Part001.checkAlgorithm E kb Part001.initial))
      as [(st1 & Hdev & Ht1) | (Hdev & Hno)]; rewrite Hdev; cbn [bind].
    + destruct (checkPrivateKey_throws E kb st1)
        as [(st2 & Hkey & _) | (Hkey & Hno)]; rewrite Hkey; cbn [bind];
        [discriminate|].
      intros _. unfold Checks.keyAccepted.
      destruct (get kb "PrivateKey"); try discriminate Hno;
        now rewrite !andb_false_r.
    + intros _. unfold Checks.deviceAccepted.
      destruct (get kb "DeviceID"); try discriminate Hno;
        rewrite Hno; now rewrite !andb_false_r.
Qed.

Lemma strong_integrity_conditions_witness :
  exists r,
    Part001.validateXML
      (Sample.part001Env
         (Ok (VObject
                [("AndroidAttestation",
                  VObject
                    [("Keybox",
                      VObject
                        [("PrivateKey", VString Sample.privateKey);
                         ("CertificateChain", Sample.fullChain)])])])))
      "" = Part001.SetResult r
    /\ Part001.strongIntegrityReady r = true
    /\ Part001.valid r = false
    /\ Part001.score r = 70%Z.
Proof.
  eexists. split; [reflexivity|]. split; [|split; reflexivity].
  rewrite (strong_integrity_conditions
             (Sample.part001Env
                (Ok (VObject
                       [("AndroidAttestation",
                         VObject
                           [("Keybox",
                             VObject
                               [("PrivateKey", VString Sample.privateKey);
                                ("CertificateChain", Sample.fullChain)])])])))
             "" _ _ eq_refl eq_refl).
  reflexivity.
Defined.

(** X11. In part_001, a result is valid (no error was recorded) exactly
    when the algorithm is present, the device id is text that is not a
    generic placeholder, the private key is text of at least 100 characters
    once trimmed, and the chain holds a certificate.  Warnings (a
    non-standard algorithm, a short device id, a short chain, certificates
    that do not decode) never make a result invalid. *)
Theorem valid_means_error_free (E : Part001.Env) content jsonObj r :
  Part001.parse E content = Ok jsonObj ->
  Part001.validateXML E content = Part001.SetResult r ->
  let kb := get (get jsonObj "AndroidAttestation") "Keybox" in
  Part001.valid r = Checks.errorFree kb.
Proof.
  intros Hparse Hrun kb. revert Hrun.
  unfold Part001.validateXML. rewrite Hparse.
  destruct (truthy (get jsonObj "AndroidAttestation")); cbn [negb];
    [|discriminate].
  fold kb. destruct (truthy kb); cbn [negb]; [|discriminate].
  destruct (Part001.checkKeybox E kb) as [result|message] eqn:Hcheck;
    intros H; injection H as <-.
  - apply checkKeybox_effect in Hcheck. tauto.
  - cbn [Part001.syntaxError Part001.valid].
    revert Hcheck. unfold Part001.checkKeybox, Checks.errorFree.
    destruct (checkDeviceID_throws E kb
                (Part001.checkAlgorithm E kb Part001.initial))
      as [(st1 & Hdev & Ht1) | (Hdev & Hno)]; rewrite Hdev; cbn [bind].
    + destruct (checkPrivateKey_throws E kb st1)
        as [(st2 & Hkey & _) | (Hkey & Hno)]; rewrite Hkey; cbn [bind];
        [discriminate|].
      intros _. unfold Checks.keyAccepted.
      destruct (get kb "PrivateKey"); try discriminate Hno;
        now rewrite !andb_false_r.
    + intros _.
      destruct (get kb "DeviceID"); try discriminate Hno;
        now rewrite !andb_false_r.
Qed.

Lemma valid_means_error_free_witness :
  exists r,
    Part001.validateXML
      (Sample.part001Env
         (Ok (Sample.document "DSA" "pixel-8a-unit-0042"
                (Some (Sample.chainOf ["garbage"])))))
      "" = Part001.SetResult r
    /\ Part001.valid r = true
    /\ Part001.score r = 80%Z
    /\ List.length (Part001.warnings r) = 3.
Proof.
  eexists. split; [reflexivity|]. split; [|split; reflexivity].
  rewrite (valid_means_error_free
             (Sample.part001Env
                (Ok (Sample.document "DSA" "pixel-8a-unit-0042"
                       (Some (Sample.chainOf ["garbage"])))))
             "" _ _ eq_refl eq_refl).
  reflexivity.
Defined.

(** On text in ASCII a character is a byte. *)
Lemma length_of_ascii_text (s : string) :
  (forall c, In c (list_ascii_of_string s) -> (Js.byte c < 128)%N) ->
  Js.length s = String.length s.
Proof.
  unfold Js.length, Js.codeUnits.
  induction s as [|c s IH]; [reflexivity|]. intros Hascii.
  cbn [Js.characters String.length].
  assert (Hc : N.ltb (Js.byte c) 128 = true).
  { apply N.ltb_lt, Hascii. now left. }
  rewrite Hc. cbn [flat_map fst]. unfold Js.units at 1.
  assert (Hplane : N.ltb (Js.byte c) 65536 = true).
  { apply N.ltb_lt. apply N.ltb_lt in Hc. lia. }
  rewrite Hplane. cbn [app List.length]. f_equal.
  apply IH. intros c' Hc'. apply Hascii. now right.
Qed.

(** Outside ASCII the lengths are those JavaScript counts.  "ключ-07" has
    seven characters (eleven bytes), so it is a short device id: without a
    chain the score is 100 - 5 - 20.  A private key of 99 letters followed
    by a no-break space has 99 characters once trimmed: it is too short,
    which is an error and clears strongIntegrityReady. *)
Lemma lengths_are_in_code_units :
  Js.length SampleText.shortId = 7
  /\ Js.length (trim SampleText.paddedKey) = 99
  /\ (exists r,
        Part001.validateXML
          (Sample.part001Env
             (Ok (SampleText.document SampleText.shortId Sample.privateKey None)))
          "" = Part001.SetResult r
        /\ Part001.score r = 75%Z
        /\ Part001.warnings r
           = ["Device ID is unusually short. Potential generic ID."])
  /\ (exists r,
        Part001.validateXML
          (Sample.part001Env
             (Ok (SampleText.document "pixel-8a-unit-0042" SampleText.paddedKey
                    (Some Sample.fullChain))))
          "" = Part001.SetResult r
        /\ Part001.score r = 90%Z
        /\ Part001.valid r = false
        /\ Part001.errors r = ["errors.key_length"]
        /\ Part001.strongIntegrityReady r = false).
Proof.
  split; [reflexivity|]. split; [vm_compute; reflexivity|].
  split; eexists; (split; [vm_compute; reflexivity|]); repeat split.
Qed.


(** X12. Every result of part_001 has a score between 0 and 100, and its
    revocation risk is read off that score: HIGH exactly below 60, MEDIUM
    exactly from 60 to 84, LOW exactly from 85 up.  This includes the result
    set for text that does not parse (score 0, HIGH). *)
Theorem score_range_and_risk (E : Part001.Env) content r :
  Part001.validateXML E content = Part001.SetResult r ->
  (0 <= Part001.score r <= 100)%Z
  /\ (Part001.revocationRisk r = Part001.HIGH <-> (Part001.score r < 60)%Z)
  /\ (Part001.revocationRisk r = Part001.MEDIUM
      <-> (60 <= Part001.score r < 85)%Z)
  /\ (Part001.revocationRisk r = Part001.LOW <-> (85 <= Part001.score r)%Z).
Proof.
  intros H. apply Part001_result_inv in H.
  destruct H as [(message & ->) | (jsonObj & _ & _ & Hcheck)].
  - cbn [Part001.syntaxError Part001.score Part001.revocationRisk].
    repeat split; intros; try lia; try discriminate; reflexivity.
  - apply checkKeybox_effect in Hcheck.
    destruct Hcheck as (_ & Hscore & Hrisk & _).
    pose proof (penalties_nonnegative E
                  (get (get jsonObj "AndroidAttestation") "Keybox"))
      as (Ha & Hd & Hk & Hc).
    rewrite Hscore, Hrisk. unfold Part001.riskOf.
    set (raw := (100 - _ - _ - _ - _)%Z) in *.
    assert (Hraw : (raw <= 100)%Z) by (unfold raw; lia).
    destruct (Z.ltb_spec raw 60); [|destruct (Z.ltb_spec raw 85)];
      repeat split; intros; try lia; try discriminate; reflexivity.
Qed.

Lemma score_range_and_risk_witness :
  exists r,
    Part001.validateXML
      (Sample.part001Env
         (Ok (Sample.document "ECDSA" "pixel-8a-unit-0042" None))) ""
    = Part001.SetResult r
    /\ Part001.score r = 80%Z
    /\ Part001.revocationRisk r = Part001.MEDIUM.
Proof.
  eexists. split; [reflexivity|]. split; [reflexivity|].
  apply (proj1 (proj2 (proj2 (score_range_and_risk
                                (Sample.part001Env
                                   (Ok (Sample.document "ECDSA"
                                          "pixel-8a-unit-0042" None)))
                                "" _ eq_refl)))).
  unfold Z.le, Z.lt. split; [intros Hc; discriminate Hc | reflexivity].
Defined.

(** X13. part_001 hands no result to the caller exactly when the text
    parses and the attestation container or the keybox container is missing:
    the error and the 50-point penalty it computes are dropped with the
    locals.  Every other input, text that does not parse included, yields a
    result. *)
Theorem no_result_without_containers (E : Part001.Env) content :
  Part001.validateXML E content = Part001.NoUpdate
  <-> exists jsonObj,
        Part001.parse E content = Ok jsonObj
        /\ (truthy (get jsonObj "AndroidAttestation") = false
            \/ truthy (get (get jsonObj "AndroidAttestation") "Keybox") = false).
Proof.
  unfold Part001.validateXML. split.
  - destruct (Part001.parse E content) as [jsonObj|message]; [|discriminate].
    intros H. exists jsonObj. split; [reflexivity|].
    destruct (truthy (get jsonObj "AndroidAttestation")); [|now left].
    destruct (truthy (get (get jsonObj "AndroidAttestation") "Keybox"));
      [|now right].
    cbn [negb] in H. destruct (Part001.checkKeybox E _); discriminate H.
  - intros (jsonObj & -> & [Hroot | Hkb]).
    + now rewrite Hroot.
    + destruct (truthy (get jsonObj "AndroidAttestation")); [|reflexivity].
      now rewrite Hkb.
Qed.



(** * The local store *)

Lemma indexOf_None (p : value -> bool) l :
  Storage.indexOf p l = None -> forall k, In k l -> p k = false.
Proof.
  induction l as [|x l IH]; cbn [Storage.indexOf]; [intros _ k []|].
  destruct (p x) eqn:Hx; [discriminate|].
  destruct (Storage.indexOf p l); [discriminate|].
  intros _ k [<- | Hin]; [exact Hx | now apply IH].
Qed.

Lemma indexOf_Some (p : value -> bool) l i :
  Storage.indexOf p l = Some i ->
  exists k, nth_error l i = Some k /\ p k = true
            /\ forall j k', (j < i)%nat -> nth_error l j = Some k' -> p k' = false.
Proof.
  revert i. induction l as [|x l IH]; cbn [Storage.indexOf]; [discriminate|].
  intros i. destruct (p x) eqn:Hx.
  - intros H; injection H as <-. exists x. repeat split; [exact Hx|].
    intros j k' Hj. lia.
  - destruct (Storage.indexOf p l) as [i'|]; [|discriminate].
    intros H; injection H as <-.
    destruct (IH i' eq_refl) as (k & Hk & Hp & Hbefore).
    exists k. repeat split; try assumption.
    intros [|j] k' Hj Hnth; cbn [nth_error] in Hnth.
    + now injection Hnth as <-.
    + apply (Hbefore j); [lia | exact Hnth].
Qed.

Lemma setAt_length i x l : List.length (Storage.setAt i x l) = List.length l.
Proof.
  revert i. induction l as [|k l IH]; intros [|i]; cbn; try reflexivity.
  now rewrite IH.
Qed.

Lemma setAt_nth i x l :
  (i < List.length l)%nat ->
  nth_error (Storage.setAt i x l) i = Some x
  /\ forall j, j <> i -> nth_error (Storage.setAt i x l) j = nth_error l j.
Proof.
  revert i. induction l as [|k l IH]; intros [|i] Hi; cbn in Hi |- *; try lia.
  - split; [reflexivity|]. intros [|j] Hj; [contradiction | reflexivity].
  - destruct (IH i ltac:(lia)) as [Hhit Hmiss]. split; [exact Hhit|].
    intros [|j] Hj; cbn; [reflexivity | apply Hmiss; lia].
Qed.

Lemma find_setAt_hit (p : value -> bool) l i x :
  Storage.indexOf p l = Some i -> p x = true ->
  find p (Storage.setAt i x l) = Some x.
Proof.
  revert i. induction l as [|k l IH]; cbn [Storage.indexOf]; [discriminate|].
  intros i. destruct (p k) eqn:Hk.
  - intros H Hx; injection H as <-. cbn. now rewrite Hx.
  - destruct (Storage.indexOf p l) as [i'|]; [|discriminate].
    intros H Hx; injection H as <-. cbn. rewrite Hk. now apply IH.
Qed.

Lemma find_setAt_miss (p q : value -> bool) l i x :
  Storage.indexOf p l = Some i ->
  (forall k, p k = true -> q k = false) -> q x = false ->
  find q (Storage.setAt i x l) = find q l.
Proof.
  revert i. induction l as [|k l IH]; cbn [Storage.indexOf]; [discriminate|].
  intros i. destruct (p k) eqn:Hk.
  - intros H Hpq Hx; injection H as <-. cbn. now rewrite Hx, (Hpq k Hk).
  - destruct (Storage.indexOf p l) as [i'|]; [|discriminate].
    intros H Hpq Hx; injection H as <-. cbn.
    destruct (q k); [reflexivity | now apply IH].
Qed.

Lemma find_none_of (p : value -> bool) l :
  (forall k, In k l -> p k = false) -> find p l = None.
Proof.
  induction l as [|k l IH]; cbn; [reflexivity|]. intros H.
  rewrite (H k (or_introl eq_refl)). apply IH. intros k' Hk'. apply H. now right.
Qed.

(** Two different ids are not both the id of one entry. *)
Lemma hasId_functional a b k :
  Storage.hasId a k = true -> a <> b -> Storage.hasId b k = false.
Proof.
  unfold Storage.hasId. destruct (get k "id"); cbn; try discriminate.
  intros Ha Hab. apply String.eqb_eq in Ha. apply String.eqb_neq. congruence.
Qed.

Lemma hasId_asLocal id' keybox :
  Storage.hasId id' (Storage.asLocal keybox) = String.eqb (Storage.id keybox) id'.
Proof. reflexivity. Qed.

Lemma hasId_get id' k :
  Storage.hasId id' k = true <-> get k "id" = VString id'.
Proof.
  unfold Storage.hasId. destruct (get k "id"); cbn; split; try discriminate.
  - intros H. apply String.eqb_eq in H. now subst.
  - intros H. injection H as ->. apply String.eqb_refl.
Qed.

(** Without a null entry no callback throws: the array methods are the
    pure ones. *)
Lemma idIs_entry (E : Storage.Env) id' k l :
  Storage.noNull (k :: l) = true ->
  Storage.idIs E id' k = Ok (Storage.hasId id' k) /\ Storage.noNull l = true.
Proof.
  unfold Storage.noNull. cbn [forallb]. intros H.
  apply andb_true_iff in H. destruct H as [Hk Hl]. split; [|exact Hl].
  destruct k; [discriminate Hk | reflexivity..].
Qed.

Lemma findIndex_noNull (E : Storage.Env) id' l :
  Storage.noNull l = true ->
  Storage.findIndex (Storage.idIs E id') l
  = Ok (Storage.indexOf (Storage.hasId id') l).
Proof.
  induction l as [|k l IH]; [reflexivity|]. intros H.
  destruct (idIs_entry E id' k l H) as [Hk Hl].
  cbn [Storage.findIndex Storage.indexOf]. rewrite Hk. cbn [bind].
  destruct (Storage.hasId id' k); [reflexivity|].
  rewrite (IH Hl). reflexivity.
Qed.

Lemma filterArray_noNull (E : Storage.Env) id' l :
  Storage.noNull l = true ->
  Storage.filterArray (Storage.idIsNot E id') l
  = Ok (filter (fun k => negb (Storage.hasId id' k)) l).
Proof.
  induction l as [|k l IH]; [reflexivity|]. intros H.
  destruct (idIs_entry E id' k l H) as [Hk Hl].
  cbn [Storage.filterArray filter]. unfold Storage.idIsNot at 1.
  rewrite Hk. cbn [bind]. rewrite (IH Hl). cbn [bind].
  destruct (Storage.hasId id' k); reflexivity.
Qed.

(** What [saveLocalKeybox] returns on an array without a null entry. *)
Lemma save_on_records (E : Storage.Env) item keybox current :
  Storage.getLocalKeyboxes E item = VArray current ->
  Storage.noNull current = true ->
  let updated :=
    match Storage.indexOf (Storage.hasId (Storage.id keybox)) current with
    | Some i => Storage.setAt i (Storage.asLocal keybox) current
    | None => Storage.asLocal keybox :: current
    end in
  Storage.saveLocalKeybox E item keybox
  = Ok (updated, Some (Storage.JSON_stringify E (VArray updated))).
Proof.
  intros Hread Hrecords. unfold Storage.saveLocalKeybox.
  rewrite Hread, (findIndex_noNull E _ _ Hrecords). reflexivity.
Qed.

(** X15. When the stored value is an array without a null entry, a save
    returns, and looking the saved id up in the returned array gives that
    keybox, marked local, whether the id was new or already stored; looking
    up any other id gives what it gave before the save. *)
Theorem saved_keybox_is_found (E : Storage.Env) item keybox current :
  Storage.getLocalKeyboxes E item = VArray current ->
  Storage.noNull current = true ->
  exists updated,
    Storage.saveLocalKeybox E item keybox
    = Ok (updated, Some (Storage.JSON_stringify E (VArray updated)))
    /\ find (Storage.hasId (Storage.id keybox)) updated
       = Some (Storage.asLocal keybox)
    /\ forall other,
         other <> Storage.id keybox ->
         find (Storage.hasId other) updated = find (Storage.hasId other) current.
Proof.
  intros Hread Hrecords.
  eexists. split; [exact (save_on_records E item keybox current Hread Hrecords)|].
  destruct (Storage.indexOf _ current) as [i|] eqn:Hfind.
  - split.
    + apply find_setAt_hit; [exact Hfind|].
      rewrite hasId_asLocal. apply String.eqb_refl.
    + intros other Hother.
      apply (find_setAt_miss _ _ _ _ _ Hfind).
      * intros k Hk. apply (hasId_functional _ _ _ Hk). congruence.
      * rewrite hasId_asLocal. apply String.eqb_neq. congruence.
  - split.
    + cbn [find]. rewrite hasId_asLocal. now rewrite String.eqb_refl.
    + intros other Hother. cbn [find]. rewrite hasId_asLocal.
      assert (Hne : String.eqb (Storage.id keybox) other = false)
        by (apply String.eqb_neq; congruence).
      now rewrite Hne.
Qed.

Lemma saved_keybox_is_found_witness :
  exists updated,
    Storage.saveLocalKeybox SampleStore.env (Some "[a1]") SampleStore.secondData
    = Ok (updated, Some "[b2,a1]")
    /\ find (Storage.hasId "b2") updated = Some SampleStore.second
    /\ find (Storage.hasId "a1") updated = Some SampleStore.first.
Proof.
  destruct (saved_keybox_is_found SampleStore.env (Some "[a1]")
              SampleStore.secondData [SampleStore.first] eq_refl eq_refl)
    as (updated & Hsave & Hhit & Hmiss).
  exists updated. split; [|split].
  - rewrite Hsave. injection Hsave as <-. reflexivity.
  - exact Hhit.
  - rewrite (Hmiss "a1"); [reflexivity | intros H; discriminate H].
Defined.

Lemma setAt_same_ids i x l k :
  nth_error l i = Some k -> get k "id" = get x "id" ->
  map (fun e => get e "id") (Storage.setAt i x l) = map (fun e => get e "id") l.
Proof.
  revert i. induction l as [|y l IH]; intros [|i]; cbn; try discriminate.
  - intros H Hid; injection H as ->. now rewrite Hid.
  - intros H Hid. now rewrite (IH i H Hid).
Qed.

(** X16. On an array without a null entry a save either replaces or
    prepends, never both: when the id is already stored the array keeps its
    length and its order, the first entry with that id is replaced and every
    other position is untouched; when the id is new the keybox is put in
    front.  Either way, ids that were unique stay unique. *)
Theorem save_replaces_or_prepends (E : Storage.Env) item keybox current :
  Storage.getLocalKeyboxes E item = VArray current ->
  Storage.noNull current = true ->
  exists updated,
    Storage.saveLocalKeybox E item keybox
    = Ok (updated, Some (Storage.JSON_stringify E (VArray updated)))
    /\ (existsb (Storage.hasId (Storage.id keybox)) current = false ->
        updated = Storage.asLocal keybox :: current)
    /\ (existsb (Storage.hasId (Storage.id keybox)) current = true ->
        List.length updated = List.length current
        /\ exists i,
             nth_error updated i = Some (Storage.asLocal keybox)
             /\ (exists old, nth_error current i = Some old
                             /\ Storage.hasId (Storage.id keybox) old = true)
             /\ (forall j k, j < i -> nth_error current j = Some k ->
                   Storage.hasId (Storage.id keybox) k = false)
             /\ forall j, j <> i -> nth_error updated j = nth_error current j)
    /\ (NoDup (map (fun k => get k "id") current) ->
        NoDup (map (fun k => get k "id") updated)).
Proof.
  intros Hread Hrecords.
  eexists. split; [exact (save_on_records E item keybox current Hread Hrecords)|].
  destruct (Storage.indexOf _ current) as [i|] eqn:Hfind.
  - destruct (indexOf_Some _ _ _ Hfind) as (old & Hold & Hid & Hfirst).
    assert (Hi : (i < List.length current)%nat)
      by (apply nth_error_Some; congruence).
    destruct (setAt_nth i (Storage.asLocal keybox) current Hi) as [Hhit Hmiss].
    split; [|split].
    + intros Hstored. exfalso.
      assert (Htrue : existsb (Storage.hasId (Storage.id keybox)) current = true).
      { apply existsb_exists. exists old. split; [|exact Hid].
        eapply nth_error_In, Hold. }
      congruence.
    + intros _. split; [apply setAt_length|].
      exists i. split; [exact Hhit|]. split; [|split; [exact Hfirst | exact Hmiss]].
      exists old. split; assumption.
    + intros Hnd.
      rewrite (setAt_same_ids i (Storage.asLocal keybox) _ old Hold);
        [exact Hnd|].
      apply hasId_get in Hid. rewrite Hid. reflexivity.
  - pose proof (indexOf_None _ _ Hfind) as Hnone.
    split; [|split].
    + reflexivity.
    + intros Hstored. exfalso. apply existsb_exists in Hstored.
      destruct Hstored as (k & Hin & Hk). rewrite (Hnone k Hin) in Hk.
      discriminate Hk.
    + intros Hnd. cbn [map]. constructor; [|exact Hnd].
      intros Hin. apply in_map_iff in Hin. destruct Hin as (k & Hk & Hin).
      specialize (Hnone k Hin).
      assert (Hyes : Storage.hasId (Storage.id keybox) k = true)
        by (apply hasId_get; exact Hk).
      congruence.
Qed.

Lemma save_replaces_or_prepends_witness :
  exists updated,
    Storage.saveLocalKeybox SampleStore.env (Some "[b2,a1]")
      SampleStore.secondEdited
    = Ok (updated, Some "[b2',a1]")
    /\ updated = [Storage.asLocal SampleStore.secondEdited; SampleStore.first]
    /\ NoDup (map (fun k => get k "id") updated).
Proof.
  destruct (save_replaces_or_prepends SampleStore.env (Some "[b2,a1]")
              SampleStore.secondEdited [SampleStore.second; SampleStore.first]
              eq_refl eq_refl)
    as (updated & Hsave & _ & _ & Hunique).
  exists updated.
  assert (Hupdated : updated
                     = [Storage.asLocal SampleStore.secondEdited; SampleStore.first]).
  { injection Hsave as <-. reflexivity. }
  split; [|split].
  - rewrite Hsave, Hupdated. reflexivity.
  - exact Hupdated.
  - apply Hunique. cbn. repeat constructor; cbn; intuition discriminate.
Defined.

(** X17. On an array without a null entry a delete returns the stored
    keyboxes without those that carry the id, the others in their order:
    nothing with that id is left, every entry with another id is kept,
    unique ids stay unique, and deleting an id that is not stored returns
    the array unchanged. *)
Theorem delete_removes_the_id (E : Storage.Env) item id' current :
  Storage.getLocalKeyboxes E item = VArray current ->
  Storage.noNull current = true ->
  exists updated,
    Storage.deleteLocalKeybox E item id'
    = Ok (updated, Some (Storage.JSON_stringify E (VArray updated)))
    /\ updated = filter (fun k => negb (Storage.hasId id' k)) current
    /\ (forall k, In k updated <-> In k current /\ Storage.hasId id' k = false)
    /\ find (Storage.hasId id') updated = None
    /\ (forall other, other <> id' ->
          find (Storage.hasId other) updated = find (Storage.hasId other) current)
    /\ (NoDup (map (fun k => get k "id") current) ->
        NoDup (map (fun k => get k "id") updated))
    /\ ((forall k, In k current -> Storage.hasId id' k = false) ->
        updated = current).
Proof.
  intros Hread Hrecords.
  exists (filter (fun k => negb (Storage.hasId id' k)) current).
  split.
  { unfold Storage.deleteLocalKeybox.
    rewrite Hread, (filterArray_noNull E _ _ Hrecords). reflexivity. }
  split; [reflexivity|]. clear Hread Hrecords.
  assert (Hmem : forall k,
            In k (filter (fun k0 => negb (Storage.hasId id' k0)) current)
            <-> In k current /\ Storage.hasId id' k = false).
  { intros k. rewrite filter_In, negb_true_iff. tauto. }
  split; [exact Hmem|]. split; [|split; [|split]].
  - apply find_none_of. intros k Hk. now apply Hmem in Hk.
  - intros other Hother.
    induction current as [|k l IH]; [reflexivity|]. cbn [filter].
    destruct (Storage.hasId id' k) eqn:Hk; cbn [negb find].
    + rewrite (hasId_functional _ other _ Hk) by congruence.
      apply IH. intros k0. rewrite filter_In, negb_true_iff. tauto.
    + destruct (Storage.hasId other k); [reflexivity|].
      apply IH. intros k0. rewrite filter_In, negb_true_iff. tauto.
  - apply filter_keeps_distinct_keys.
  - intros Hnone. clear Hmem.
    induction current as [|k l IH]; [reflexivity|]. cbn [filter].
    rewrite (Hnone k (or_introl eq_refl)). cbn [negb]. f_equal. apply IH.
    intros k0 Hk0. apply Hnone. now right.
Qed.

Lemma delete_removes_the_id_witness :
  exists updated,
    Storage.deleteLocalKeybox SampleStore.env (Some "[b2,a1]") "b2"
    = Ok (updated, Some "[a1]")
    /\ updated = [SampleStore.first].
Proof.
  destruct (delete_removes_the_id SampleStore.env (Some "[b2,a1]") "b2"
              [SampleStore.second; SampleStore.first] eq_refl eq_refl)
    as (updated & Hdelete & Hupdated & _).
  exists updated.
  assert (Hfirst : updated = [SampleStore.first])
    by (rewrite Hupdated; reflexivity).
  split; [|exact Hfirst].
  rewrite Hdelete, Hfirst. reflexivity.
Defined.

(** A delete does not see whether the entry with the id was replaced. *)
Lemma filterArray_setAt (E : Storage.Env) id' l i x :
  Storage.findIndex (Storage.idIs E id') l = Ok (Some i) ->
  Storage.idIs E id' x = Ok true ->
  Storage.filterArray (Storage.idIsNot E id') (Storage.setAt i x l)
  = Storage.filterArray (Storage.idIsNot E id') l.
Proof.
  intros Hfind Hx. revert i Hfind.
  induction l as [|k l IH]; cbn [Storage.findIndex]; [discriminate|].
  intros i. destruct (Storage.idIs E id' k) as [[|]|msg] eqn:Hk; cbn [bind].
  - intros H. assert (i = 0) by congruence. subst i.
    cbn [Storage.setAt Storage.filterArray]. unfold Storage.idIsNot at 1 3.
    rewrite Hx, Hk. reflexivity.
  - destruct (Storage.findIndex (Storage.idIs E id') l) as [[i'|]|msg];
      cbn [bind option_map]; try discriminate.
    intros H. assert (i = S i') by congruence. subst i.
    cbn [Storage.setAt Storage.filterArray]. now rewrite (IH i' eq_refl).
  - discriminate.
Qed.

(** X18. What a save writes is what the next read returns: when the text
    a save has written decodes back to the array it was made from, reading
    after the save gives the array the save returned, and deleting the id
    just saved does what deleting it before the save does. *)
Theorem save_then_read_back (E : Storage.Env) item keybox updated item' :
  Storage.saveLocalKeybox E item keybox = Ok (updated, item') ->
  Storage.JSON_parse E (Storage.JSON_stringify E (VArray updated))
  = Ok (VArray updated) ->
  Storage.JSON_stringify E (VArray updated) <> "" ->
  Storage.getLocalKeyboxes E item' = VArray updated
  /\ Storage.deleteLocalKeybox E item' (Storage.id keybox)
     = Storage.deleteLocalKeybox E item (Storage.id keybox).
Proof.
  intros Hsave Hparse Hnonempty.
  unfold Storage.saveLocalKeybox in Hsave.
  destruct (Storage.getLocalKeyboxes E item) as [| | | |current|] eqn:Hread;
    try discriminate Hsave.
  destruct (Storage.findIndex _ current) as [existingIndex|msg] eqn:Hfind;
    cbn [bind] in Hsave; [|discriminate Hsave].
  assert (Hupdated : updated
                     = match existingIndex with
                       | Some i => Storage.setAt i (Storage.asLocal keybox) current
                       | None => Storage.asLocal keybox :: current
                       end) by congruence.
  assert (Hitem : item' = Some (Storage.JSON_stringify E (VArray updated)))
    by congruence.
  assert (Hback : Storage.getLocalKeyboxes E item' = VArray updated).
  { rewrite Hitem. unfold Storage.getLocalKeyboxes. cbn [truthy].
    apply String.eqb_neq in Hnonempty. now rewrite Hnonempty, Hparse. }
  split; [exact Hback|].
  unfold Storage.deleteLocalKeybox. rewrite Hback, Hread.
  assert (Hsaved : Storage.idIs E (Storage.id keybox) (Storage.asLocal keybox)
                   = Ok true).
  { cbn [Storage.idIs Storage.asLocal]. rewrite hasId_asLocal.
    now rewrite String.eqb_refl. }
  assert (Hsame : Storage.filterArray (Storage.idIsNot E (Storage.id keybox)) updated
                  = Storage.filterArray (Storage.idIsNot E (Storage.id keybox))
                      current).
  { rewrite Hupdated. destruct existingIndex as [i|].
    - exact (filterArray_setAt E _ _ _ _ Hfind Hsaved).
    - cbn [Storage.filterArray]. unfold Storage.idIsNot at 1.
      rewrite Hsaved. cbn [bind negb].
      destruct (Storage.filterArray _ current); reflexivity. }
  now rewrite Hsame.
Qed.

Lemma save_then_read_back_witness :
  Storage.getLocalKeyboxes SampleStore.env (Some "[b2,a1]")
  = VArray [SampleStore.second; SampleStore.first]
  /\ Storage.deleteLocalKeybox SampleStore.env (Some "[b2,a1]") "b2"
     = Storage.deleteLocalKeybox SampleStore.env (Some "[a1]") "b2".
Proof.
  exact (save_then_read_back SampleStore.env (Some "[a1]") SampleStore.secondData
           [SampleStore.second; SampleStore.first] (Some "[b2,a1]")
           eq_refl eq_refl
           (fun H : "[b2,a1]" = "" => ltac:(discriminate H))).
Defined.

(** X23. The stored text is not checked against the type the source
    declares.  A read never throws, and gives a value that is not an array
    exactly when the item is non-empty text that [JSON.parse] accepts as
    such a value (null, an object, a number).  On such a value a save and a
    delete both throw a TypeError and write nothing.  A delete returns
    exactly when the stored value is an array without a null entry; a save
    that returns was given an array. *)
Theorem store_is_not_type_checked (E : Storage.Env) item :
  ((forall l, Storage.getLocalKeyboxes E item <> VArray l)
   <-> exists data v,
         item = Some data /\ data <> "" /\ Storage.JSON_parse E data = Ok v
         /\ forall l, v <> VArray l)
  /\ ((forall l, Storage.getLocalKeyboxes E item <> VArray l) ->
      forall keybox id',
        (exists message, Storage.saveLocalKeybox E item keybox = Throw message)
        /\ (exists message, Storage.deleteLocalKeybox E item id' = Throw message))
  /\ (forall id',
        (exists result, Storage.deleteLocalKeybox E item id' = Ok result)
        <-> exists current,
              Storage.getLocalKeyboxes E item = VArray current
              /\ Storage.noNull current = true)
  /\ (forall keybox,
        (exists result, Storage.saveLocalKeybox E item keybox = Ok result) ->
        exists current, Storage.getLocalKeyboxes E item = VArray current).
Proof.
  split; [|split; [|split]].
  - unfold Storage.getLocalKeyboxes. split.
    + intros Hnot. destruct item as [data|]; [|now destruct (Hnot [])].
      destruct (String.eqb_spec data "") as [-> | Hdata].
      { now destruct (Hnot []). }
      cbn [truthy] in Hnot. apply String.eqb_neq in Hdata.
      rewrite Hdata in Hnot. cbn [negb] in Hnot.
      destruct (Storage.JSON_parse E data) as [v|msg] eqn:Hparse;
        [|now destruct (Hnot [])].
      exists data, v. apply String.eqb_neq in Hdata. repeat split; assumption.
    + intros (data & v & -> & Hdata & Hparse & Hnot) l.
      cbn [truthy]. apply String.eqb_neq in Hdata. rewrite Hdata, Hparse.
      apply Hnot.
  - intros Hnot keybox id'.
    unfold Storage.saveLocalKeybox, Storage.deleteLocalKeybox.
    destruct (Storage.getLocalKeyboxes E item) as [| | | |current|];
      try (split; eexists; reflexivity).
    now destruct (Hnot current).
  - intros id'. unfold Storage.deleteLocalKeybox. split.
    + intros [result Hresult].
      destruct (Storage.getLocalKeyboxes E item) as [| | | |current|];
        try discriminate Hresult.
      exists current. split; [reflexivity|].
      destruct (Storage.filterArray _ current) as [kept|msg] eqn:Hkept;
        [clear Hresult | discriminate Hresult].
      revert kept Hkept. induction current as [|k l IH]; [reflexivity|].
      intros kept. cbn [Storage.filterArray]. unfold Storage.idIsNot at 1.
      destruct k; cbn [Storage.idIs bind]; try discriminate;
        (destruct (Storage.filterArray _ l) as [kept'|]; [|discriminate]);
        intros _; exact (IH kept' eq_refl).
    + intros (current & -> & Hrecords).
      rewrite (filterArray_noNull E _ _ Hrecords). eexists. reflexivity.
  - intros keybox [result Hresult]. unfold Storage.saveLocalKeybox in Hresult.
    destruct (Storage.getLocalKeyboxes E item) as [| | | |current|];
      try discriminate Hresult.
    exists current. reflexivity.
Qed.

Lemma store_is_not_type_checked_witness :
  (exists message,
     Storage.saveLocalKeybox SampleStore.env (Some "null") SampleStore.secondData
     = Throw message)
  /\ (exists message,
        Storage.deleteLocalKeybox SampleStore.env (Some "{}") "b2" = Throw message).
Proof.
  split.
  - exact (proj1 (proj1 (proj2 (store_is_not_type_checked SampleStore.env
                                  (Some "null")))
                    (fun l (H : VUndefined = VArray l) => ltac:(discriminate H))
                    SampleStore.secondData "b2")).
  - exact (proj2 (proj1 (proj2 (store_is_not_type_checked SampleStore.env
                                  (Some "{}")))
                    (fun l (H : VObject [] = VArray l) => ltac:(discriminate H))
                    SampleStore.secondData "b2")).
Defined.

(** The two TypeErrors on the sample store: a stored null, and a null
    entry that a delete reaches and a save of the first id does not. *)
Lemma stored_null_throws :
  Storage.saveLocalKeybox SampleStore.env (Some "null") SampleStore.secondData
  = Throw "Cannot read properties of null (reading 'findIndex')"
  /\ Storage.deleteLocalKeybox SampleStore.env (Some "{}") "b2"
     = Throw "current.filter is not a function"
  /\ Storage.deleteLocalKeybox SampleStore.env (Some "[null,a1]") "a1"
     = Throw "Cannot read properties of null (reading 'id')".
Proof. repeat split. Qed.

(** * The audit log of Validator.tsx *)

Lemma countType_addLog (D : ValidatorLog.Display) logs ty msg ty' :
  ValidatorLog.countType ty' (ValidatorLog.addLog D logs ty msg)
  = ValidatorLog.countType ty' logs
    + (if ValidatorLog.LogType_eqb ty ty' then 1 else 0).
Proof.
  unfold ValidatorLog.countType, ValidatorLog.addLog.
  rewrite filter_app, length_app. cbn [filter ValidatorLog.type].
  destruct (ValidatorLog.LogType_eqb ty ty'); reflexivity.
Qed.

Lemma inOrder_addLog (D : ValidatorLog.Display) logs ty msg :
  ValidatorLog.inOrder D logs ->
  ValidatorLog.inOrder D (ValidatorLog.addLog D logs ty msg).
Proof.
  unfold ValidatorLog.inOrder, ValidatorLog.addLog. intros H.
  rewrite map_app, length_app, Nat.add_1_r, seq_S, map_app, H.
  reflexivity.
Qed.

Lemma addLog_extends (D : ValidatorLog.Display) logs ty msg :
  exists extra, ValidatorLog.addLog D logs ty msg = (logs ++ extra)%list.
Proof. eexists. reflexivity. Qed.

Lemma extends_trans (a b c : list ValidatorLog.LogEntry) :
  (exists x, b = (a ++ x)%list) -> (exists y, c = (b ++ y)%list) ->
  exists z, c = (a ++ z)%list.
Proof.
  intros [x ->] [y ->]. exists (x ++ y)%list. now rewrite app_assoc.
Qed.

(** What the [forEach] adds to the log: an info line per certificate that
    decodes, an error line per expired one and per revoked one. *)
Lemma logEach_effect (E : Validator.Env) (D : ValidatorLog.Display) total raw :
  forall i logs,
    let out := ValidatorLog.logEach E D total i raw logs in
    let certs := Validator.parseEach E total i raw in
    ValidatorLog.countType ValidatorLog.info out
    = ValidatorLog.countType ValidatorLog.info logs + List.length certs
    /\ ValidatorLog.countType ValidatorLog.error out
       = ValidatorLog.countType ValidatorLog.error logs
         + List.length (filter Validator.isExpired certs)
         + List.length (filter Validator.isRevoked certs)
    /\ ValidatorLog.countType ValidatorLog.success out
       = ValidatorLog.countType ValidatorLog.success logs
    /\ ValidatorLog.countType ValidatorLog.warning out
       = ValidatorLog.countType ValidatorLog.warning logs
    /\ (ValidatorLog.inOrder D logs -> ValidatorLog.inOrder D out)
    /\ (exists extra, out = (logs ++ extra)%list).
Proof.
  induction raw as [|c raw IH]; intros i logs; cbv zeta.
  - cbn [ValidatorLog.logEach Validator.parseEach filter List.length].
    repeat split; try lia; try tauto. exists []. now rewrite app_nil_r.
  - cbn [ValidatorLog.logEach Validator.parseEach].
    destruct (Validator.parseCertificate E c i total) as [parsed|]; [|apply IH].
    cbv zeta. cbn [filter List.length].
    match goal with
    | |- context [ValidatorLog.logEach E D total (i + 1) raw ?l] =>
        set (logs3 := l); specialize (IH (i + 1)%Z logs3)
    end.
    cbv zeta in IH. destruct IH as (Hi & He & Hs & Hw & Ho & Hx).
    rewrite Hi, He, Hs, Hw. unfold logs3.
    destruct (Validator.isExpired parsed), (Validator.isRevoked parsed);
      cbn [List.length]; rewrite !countType_addLog;
      cbn [ValidatorLog.LogType_eqb];
      (repeat split; try lia;
       [ intros Hin; apply Ho; unfold logs3;
         repeat apply inOrder_addLog; exact Hin
       | eapply extends_trans; [|exact Hx]; unfold logs3;
         repeat (eapply extends_trans; [|apply addLog_extends]);
         exists []; now rewrite app_nil_r ]).
Qed.

Lemma tryBlockLogs_of_report (E : Validator.Env) (D : ValidatorLog.Display)
    content fileName r :
  Validator.validateXML E content fileName = Validator.SetReport r ->
  exists jsonObj,
    Validator.parse E content = Ok jsonObj
    /\ let kb := get (get jsonObj "AndroidAttestation") "Keybox" in
       let algo := or_else (get kb "KeyAlgorithm") (VString "Unknown") in
       let deviceID := or_else (get kb "DeviceID") (VString "Unknown") in
       let logs0 :=
         ValidatorLog.addLog D [] ValidatorLog.info
           ("Initialized analysis for: " ++ fileName) in
       let logs1 :=
         ValidatorLog.addLog D logs0 ValidatorLog.info
           ("Device ID: " ++ ValidatorLog.text D deviceID) in
       let logs2 :=
         if strict_eq_string algo "ECDSA"
         then ValidatorLog.addLog D logs1 ValidatorLog.success
                "Found ECDSA Key Algorithm."
         else ValidatorLog.addLog D logs1 ValidatorLog.warning
                ("Algorithm is " ++ ValidatorLog.text D algo
                 ++ ". ECDSA is recommended for Strong Integrity.") in
       let certsRaw := Validator.certsRawOf kb in
       let logs3 :=
         ValidatorLog.addLog D logs2 ValidatorLog.info
           ("Parsing " ++ decimal (List.length certsRaw)
            ++ " certificates in chain...") in
       let total := Z.of_nat (List.length certsRaw) in
       let logs4 := ValidatorLog.logEach E D total 0 certsRaw logs3 in
       let certs := Validator.parseEach E total 0 certsRaw in
       let logs5 :=
         if Validator.hasGoogleRoot r
         then ValidatorLog.addLog D logs4 ValidatorLog.success
                "Google Hardware Attestation Root verified."
         else ValidatorLog.addLog D logs4 ValidatorLog.warning
                "No Google Root detected. May fail hardware attestation." in
       let logs6 :=
         match Validator.overallStatus r with
         | Validator.VALID =>
             ValidatorLog.addLog D logs5 ValidatorLog.success
               "Chain valid. Strong Integrity criteria met."
         | Validator.REVOKED =>
             ValidatorLog.addLog D logs5 ValidatorLog.error
               "CRITICAL: Keybox is LEAKED/REVOKED."
         | Validator.WEAK =>
             ValidatorLog.addLog D logs5 ValidatorLog.warning
               "Chain valid but weak (RSA or Non-Google Root)."
         | _ => logs5
         end in
       ValidatorLog.tryBlockLogs E D content fileName = Ok logs6
       /\ Validator.certificates r = Validator.sortByType certs
       /\ Validator.overallStatus r
          = Validator.statusOf (Validator.isLeaked r)
              (existsb Validator.isExpired certs) algo (Validator.hasGoogleRoot r)
       /\ (existsb Validator.isRevoked certs = true -> Validator.isLeaked r = true).
Proof.
  intros H. apply Validator_report_inv in H.
  destruct H as (jsonObj & kb & certs & leaked & Hparse & Hkbeq & Hkb & Hcerts
                 & Hleak & _ & Hsorted & Hl & Halgo & _ & Hroot & Hstatus & _
                 & Hleaf).
  exists jsonObj. split; [exact Hparse|]. cbv zeta.
  subst kb. rewrite <- Hcerts.
  split; [|split; [exact Hsorted | split]].
  - unfold ValidatorLog.tryBlockLogs. rewrite Hparse. cbn [bind].
    rewrite Hkb. cbn [negb]. cbv zeta. rewrite <- Hcerts, Hleak. cbn [bind].
    rewrite <- Hroot, <- Halgo, <- Hstatus.
    destruct (Validator.find_or _ certs (nth_error certs 0)) as [leaf|].
    + destruct Hleaf as (ms & -> & _). reflexivity.
    + reflexivity.
  - rewrite Hstatus, Hl, Halgo. reflexivity.
  - intros Hrev. rewrite Hrev in Hleak. rewrite Hl. now injection Hleak.
Qed.

Lemma filter_length_sortByType (p : Validator.CertDetail -> bool) l :
  List.length (filter p (Validator.sortByType l)) = List.length (filter p l).
Proof.
  assert (Hins : forall c s,
             List.length (filter p (Validator.insertByType c s))
             = List.length (filter p (c :: s))).
  { intros c s. induction s as [|d s IH]; [reflexivity|].
    cbn [Validator.insertByType]. destruct (Z.leb _ _); [reflexivity|].
    cbn [filter] in IH |- *. destruct (p d), (p c); cbn [List.length] in *; lia. }
  induction l as [|c l IH]; [reflexivity|].
  cbn [Validator.sortByType fold_right]. fold (Validator.sortByType l).
  rewrite Hins. cbn [filter]. destruct (p c); cbn [List.length]; lia.
Qed.

(** X19. The audit log of a report of Validator.tsx is written in order
    and nothing is taken out of it: it opens with the info entry
    "Initialized analysis for: " followed by the file name, the n-th entry
    carries the clock text of the n-th [addLog] call, and it holds exactly
    three info entries plus one for each certificate of the report. *)
Theorem audit_log_structure (E : Validator.Env) (D : ValidatorLog.Display)
    content fileName r :
  Validator.validateXML E content fileName = Validator.SetReport r ->
  exists logs,
    ValidatorLog.tryBlockLogs E D content fileName = Ok logs
    /\ nth_error logs 0
       = Some {| ValidatorLog.type := ValidatorLog.info;
                 ValidatorLog.message := "Initialized analysis for: " ++ fileName;
                 ValidatorLog.timestamp := ValidatorLog.timeOf D 0 |}
    /\ ValidatorLog.inOrder D logs
    /\ ValidatorLog.countType ValidatorLog.info logs
       = 3 + List.length (Validator.certificates r).
Proof.
  intros H. destruct (tryBlockLogs_of_report E D _ _ _ H)
    as (jsonObj & _ & Hlogs & Hsorted & _).
  cbv zeta in Hlogs, Hsorted.
  eexists. split; [exact Hlogs|].
  rewrite Hsorted, length_sortByType.
  set (kb := get (get jsonObj "AndroidAttestation") "Keybox") in *.
  set (logs0 := ValidatorLog.addLog D [] ValidatorLog.info _).
  set (logs1 := ValidatorLog.addLog D logs0 ValidatorLog.info _).
  set (logs2 := if strict_eq_string _ "ECDSA" then _ else _).
  set (logs3 := ValidatorLog.addLog D logs2 ValidatorLog.info _).
  set (raw := Validator.certsRawOf kb).
  destruct (logEach_effect E D (Z.of_nat (List.length raw)) raw 0 logs3)
    as (Hinfo & _ & _ & _ & Horder & Hext).
  cbv zeta in Hinfo, Horder, Hext.
  set (logs4 := ValidatorLog.logEach E D _ 0 raw logs3) in *.
  assert (Horder3 : ValidatorLog.inOrder D logs3).
  { unfold logs3, logs2.
    destruct (strict_eq_string _ "ECDSA"); repeat apply inOrder_addLog;
      reflexivity. }
  assert (Hinfo3 : ValidatorLog.countType ValidatorLog.info logs3 = 3).
  { unfold logs3, logs2.
    destruct (strict_eq_string _ "ECDSA"); rewrite !countType_addLog;
      reflexivity. }
  assert (Hfirst3 : exists rest, logs3
            = ({| ValidatorLog.type := ValidatorLog.info;
                  ValidatorLog.message := "Initialized analysis for: " ++ fileName;
                  ValidatorLog.timestamp := ValidatorLog.timeOf D 0 |} :: rest)).
  { unfold logs3, logs2.
    destruct (strict_eq_string _ "ECDSA"); eexists; reflexivity. }
  set (logs5 := if Validator.hasGoogleRoot r then _ else _).
  assert (H5 : ValidatorLog.inOrder D logs5
               /\ ValidatorLog.countType ValidatorLog.info logs5
                  = ValidatorLog.countType ValidatorLog.info logs4
               /\ exists x, logs5 = (logs4 ++ x)%list).
  { unfold logs5. destruct (Validator.hasGoogleRoot r);
      (split; [apply inOrder_addLog, Horder, Horder3|]);
      (split; [rewrite countType_addLog; cbn; lia | apply addLog_extends]). }
  destruct H5 as (Horder5 & Hinfo5 & Hext5).
  set (logs6 := match Validator.overallStatus r with
                | Validator.VALID => _ | Validator.REVOKED => _
                | Validator.WEAK => _ | _ => logs5 end).
  assert (H6 : ValidatorLog.inOrder D logs6
               /\ ValidatorLog.countType ValidatorLog.info logs6
                  = ValidatorLog.countType ValidatorLog.info logs5
               /\ exists x, logs6 = (logs5 ++ x)%list).
  { unfold logs6. destruct (Validator.overallStatus r);
      try (split; [apply inOrder_addLog, Horder5|];
           split; [rewrite countType_addLog; cbn; lia | apply addLog_extends]);
      (split; [exact Horder5|]; split; [reflexivity|];
       exists []; now rewrite app_nil_r). }
  destruct H6 as (Horder6 & Hinfo6 & Hext6).
  split; [|split; [exact Horder6 | lia]].
  destruct Hfirst3 as [rest Hrest].
  destruct (extends_trans _ _ _ (extends_trans _ _ _ Hext Hext5) Hext6)
    as [z ->].
  rewrite Hrest. reflexivity.
Qed.

Lemma audit_log_structure_witness :
  exists logs,
    ValidatorLog.tryBlockLogs
      (Sample.validatorEnv
         (Ok (Sample.document "RSA" "pixel-8a-unit-0042" (Some Sample.fullChain))))
      SampleStore.display "" "keybox.xml" = Ok logs
    /\ ValidatorLog.countType ValidatorLog.info logs = 6.
Proof.
  destruct (audit_log_structure
              (Sample.validatorEnv
                 (Ok (Sample.document "RSA" "pixel-8a-unit-0042"
                        (Some Sample.fullChain))))
              SampleStore.display "" "keybox.xml" _ eq_refl)
    as (logs & Hrun & _ & _ & Hinfo).
  exists logs. split; [exact Hrun | exact Hinfo].
Defined.

Lemma filter_length_existsb {A : Type} (p : A -> bool) (l : list A) :
  (existsb p l = false -> List.length (filter p l) = 0)
  /\ (existsb p l = true -> 0 < List.length (filter p l)).
Proof.
  induction l as [|x l [IHf IHt]]; cbn [existsb filter List.length].
  - split; [reflexivity | discriminate].
  - destruct (p x); cbn [orb List.length]; split; intros; try discriminate;
      try lia; auto.
Qed.

(** X20. The audit log of a report of Validator.tsx agrees with its
    verdict.  Its error entries are one per expired certificate, one per
    revoked certificate, and one more when the status is REVOKED; so a log
    has no error entry exactly when the status is VALID or WEAK.  The log
    ends with the verdict line for VALID, REVOKED and WEAK; for EXPIRED no
    verdict line is written and the log ends with the line about the root. *)
Theorem audit_log_matches_verdict (E : Validator.Env) (D : ValidatorLog.Display)
    content fileName r :
  Validator.validateXML E content fileName = Validator.SetReport r ->
  exists logs,
    ValidatorLog.tryBlockLogs E D content fileName = Ok logs
    /\ ValidatorLog.countType ValidatorLog.error logs
       = List.length (filter Validator.isExpired (Validator.certificates r))
         + List.length (filter Validator.isRevoked (Validator.certificates r))
         + match Validator.overallStatus r with
           | Validator.REVOKED => 1
           | _ => 0
           end
    /\ (ValidatorLog.countType ValidatorLog.error logs = 0
        <-> Validator.overallStatus r = Validator.VALID
            \/ Validator.overallStatus r = Validator.WEAK)
    /\ exists front final,
         logs = (front ++ [final])%list
         /\ match Validator.overallStatus r with
            | Validator.VALID =>
                ValidatorLog.type final = ValidatorLog.success
                /\ ValidatorLog.message final
                   = "Chain valid. Strong Integrity criteria met."
            | Validator.REVOKED =>
                ValidatorLog.type final = ValidatorLog.error
                /\ ValidatorLog.message final
                   = "CRITICAL: Keybox is LEAKED/REVOKED."
            | Validator.WEAK =>
                ValidatorLog.type final = ValidatorLog.warning
                /\ ValidatorLog.message final
                   = "Chain valid but weak (RSA or Non-Google Root)."
            | _ =>
                ValidatorLog.message final
                = (if Validator.hasGoogleRoot r
                   then "Google Hardware Attestation Root verified."
                   else "No Google Root detected. May fail hardware attestation.")
            end.
Proof.
  intros H. destruct (tryBlockLogs_of_report E D _ _ _ H)
    as (jsonObj & _ & Hlogs & Hsorted & Hstatus & Hrevoked).
  cbv zeta in Hlogs, Hsorted, Hstatus, Hrevoked.
  eexists. split; [exact Hlogs|].
  rewrite Hsorted, !filter_length_sortByType.
  set (kb := get (get jsonObj "AndroidAttestation") "Keybox") in *.
  set (logs0 := ValidatorLog.addLog D [] ValidatorLog.info _).
  set (logs1 := ValidatorLog.addLog D logs0 ValidatorLog.info _).
  set (logs2 := if strict_eq_string _ "ECDSA" then _ else _).
  set (logs3 := ValidatorLog.addLog D logs2 ValidatorLog.info _).
  set (raw := Validator.certsRawOf kb) in *.
  destruct (logEach_effect E D (Z.of_nat (List.length raw)) raw 0 logs3)
    as (_ & Herr & _).
  cbv zeta in Herr.
  set (certs := Validator.parseEach E _ 0 raw) in *.
  set (logs4 := ValidatorLog.logEach E D _ 0 raw logs3) in *.
  assert (Herr3 : ValidatorLog.countType ValidatorLog.error logs3 = 0).
  { unfold logs3, logs2.
    destruct (strict_eq_string _ "ECDSA"); rewrite !countType_addLog;
      reflexivity. }
  set (logs5 := if Validator.hasGoogleRoot r then _ else _).
  assert (Herr5 : ValidatorLog.countType ValidatorLog.error logs5
                  = ValidatorLog.countType ValidatorLog.error logs4).
  { unfold logs5. destruct (Validator.hasGoogleRoot r);
      rewrite countType_addLog; cbn; lia. }
  assert (Hlast5 : exists front final,
            logs5 = (front ++ [final])%list
            /\ ValidatorLog.message final
               = (if Validator.hasGoogleRoot r
                  then "Google Hardware Attestation Root verified."
                  else "No Google Root detected. May fail hardware attestation.")).
  { unfold logs5. destruct (Validator.hasGoogleRoot r);
      eexists; eexists; split; reflexivity. }
  assert (Hcount : ValidatorLog.countType ValidatorLog.error
                     match Validator.overallStatus r with
                     | Validator.VALID =>
                         ValidatorLog.addLog D logs5 ValidatorLog.success
                           "Chain valid. Strong Integrity criteria met."
                     | Validator.REVOKED =>
                         ValidatorLog.addLog D logs5 ValidatorLog.error
                           "CRITICAL: Keybox is LEAKED/REVOKED."
                     | Validator.WEAK =>
                         ValidatorLog.addLog D logs5 ValidatorLog.warning
                           "Chain valid but weak (RSA or Non-Google Root)."
                     | _ => logs5
                     end
                   = List.length (filter Validator.isExpired certs)
                     + List.length (filter Validator.isRevoked certs)
                     + match Validator.overallStatus r with
                       | Validator.REVOKED => 1
                       | _ => 0
                       end).
  { destruct (Validator.overallStatus r); rewrite ?countType_addLog;
      cbn [ValidatorLog.LogType_eqb]; lia. }
  split; [exact Hcount|]. split.
  - rewrite Hcount. rewrite Hstatus. unfold Validator.statusOf.
    destruct (Validator.isLeaked r) eqn:Hleaked.
    + split; [lia | intros [Hc | Hc]; discriminate Hc].
    + assert (Hnone : existsb Validator.isRevoked certs = false).
      { destruct (existsb Validator.isRevoked certs); [|reflexivity].
        now specialize (Hrevoked eq_refl). }
      destruct (filter_length_existsb Validator.isRevoked certs) as [Hzero _].
      rewrite (Hzero Hnone).
      destruct (filter_length_existsb Validator.isExpired certs) as [Hz Hp].
      destruct (existsb Validator.isExpired certs).
      * specialize (Hp eq_refl).
        split; [lia | intros [Hc | Hc]; discriminate Hc].
      * rewrite (Hz eq_refl).
        destruct (_ || _)%bool; split; auto.
  - destruct Hlast5 as (front & final & Hfront & Hmsg).
    destruct (Validator.overallStatus r);
      try (eexists; eexists; split; [reflexivity | split; reflexivity]);
      (exists front, final; split; assumption).
Qed.

Lemma audit_log_matches_verdict_witness :
  exists logs,
    ValidatorLog.tryBlockLogs
      (SampleMore.validatorEnv
         (Ok (Sample.document "ECDSA" "pixel-8a-unit-0042"
                (Some (Sample.chainOf ["LAPSED"; "MID"; "ROOT"])))))
      SampleStore.display "" "keybox.xml" = Ok logs
    /\ ValidatorLog.countType ValidatorLog.error logs = 1.
Proof.
  destruct (audit_log_matches_verdict
              (SampleMore.validatorEnv
                 (Ok (Sample.document "ECDSA" "pixel-8a-unit-0042"
                        (Some (Sample.chainOf ["LAPSED"; "MID"; "ROOT"])))))
              SampleStore.display "" "keybox.xml" _ eq_refl)
    as (logs & Hrun & Herr & _).
  exists logs. split; [exact Hrun | exact Herr].
Defined.

(** * The trusted root *)

(** X21. Where the trusted-root flag of a report comes from.  In part_000
    it is true only when the report holds a certificate typed ROOT whose
    issuer contains "google".  In Validator.tsx it is true only when some
    certificate of the report has an issuer containing "google", and that
    certificate is typed ROOT unless no certificate of the report is: with no
    ROOT in the chain the last decoded certificate stands in for it. *)
Theorem trusted_root_origin :
  (forall (E : Validator.Env) content fileName r,
     Validator.validateXML E content fileName = Validator.SetReport r ->
     Validator.hasGoogleRoot r = true ->
     exists c,
       In c (Validator.certificates r)
       /\ includes (toLowerCase (Validator.rawIssuer c)) "google" = true
       /\ (Validator.type c = Validator.ROOT
           \/ forall c', In c' (Validator.certificates r) ->
                         Validator.type c' <> Validator.ROOT))
  /\ (forall (E0 : Part000.Env) content fileName r0,
        Part000.validateXML E0 content fileName = Part000.SetReport r0 ->
        Part000.hasGoogleRoot r0 = true ->
        exists c,
          In c (Part000.certificates r0)
          /\ includes (toLowerCase (Part000.issuer c)) "google" = true
          /\ Part000.type c = Part000.ROOT).
Proof.
  split.
  - intros E content fileName r H Hhas.
    assert (Hgoogle : forall c, In c (Validator.certificates r) ->
              Validator.isGoogleRoot c
              = includes (toLowerCase (Validator.rawIssuer c)) "google").
    { intros c Hin.
      destruct (Validator_report_member _ _ _ _ _ H Hin) as (pem & k & total & Hp).
      apply Validator_parseCertificate_inv in Hp.
      destruct Hp as (_ & _ & _ & _ & _ & Hg & _). exact Hg. }
    apply Validator_report_inv in H.
    destruct H as (jsonObj & kb & certs & leaked & _ & _ & _ & _ & _ & _
                   & Hsorted & _ & _ & _ & Hroot & _).
    assert (Hmem : forall c, In c (Validator.certificates r) <-> In c certs).
    { intros c. rewrite Hsorted. split; apply Permutation_in;
        [|apply Permutation_sym]; apply sortByType_Permutation. }
    rewrite Hhas in Hroot. unfold Validator.find_or in Hroot.
    destruct (find _ certs) as [root|] eqn:Hfind.
    + apply find_some in Hfind. destruct Hfind as [Hin Hty].
      apply Hmem in Hin. exists root. split; [exact Hin|]. split.
      * now rewrite <- (Hgoogle root Hin).
      * left. destruct (Validator.type root); (reflexivity || discriminate).
    + destruct (nth_error certs (List.length certs - 1)) as [last|] eqn:Hlast;
        [|discriminate].
      apply nth_error_In in Hlast. apply Hmem in Hlast.
      exists last. split; [exact Hlast|]. split.
      * now rewrite <- (Hgoogle last Hlast).
      * right. intros c' Hc' Hty. apply Hmem in Hc'.
        pose proof (find_none _ _ Hfind c' Hc') as Hno. cbv beta in Hno.
        rewrite Hty in Hno. discriminate Hno.
  - intros E0 content fileName r0 H Hhas.
    assert (Hgoogle : forall c, In c (Part000.certificates r0) ->
              Part000.isGoogleRoot c
              = includes (toLowerCase (Part000.issuer c)) "google").
    { intros c Hin.
      destruct (Part000_report_member _ _ _ _ _ H Hin) as (pem & k & total & Hp).
      apply Part000_parseCertificate_inv in Hp.
      destruct Hp as (_ & _ & _ & _ & _ & Hg & _). exact Hg. }
    apply Part000_report_inv in H.
    destruct H as (jsonObj & kb & certs & leaked & _ & _ & _ & _ & _
                   & Hreport & _ & _ & Hroot & _).
    rewrite Hhas in Hroot.
    destruct (find _ certs) as [root|] eqn:Hfind; [|discriminate].
    apply find_some in Hfind. destruct Hfind as [Hin Hty].
    rewrite <- Hreport in Hin. exists root. split; [exact Hin|]. split.
    + now rewrite <- (Hgoogle root Hin).
    + destruct (Part000.type root); (reflexivity || discriminate).
Qed.

Lemma trusted_root_origin_witness :
  exists r c,
    Validator.validateXML
      (Sample.validatorEnv
         (Ok (Sample.document "ECDSA" "pixel-8a-unit-0042" (Some Sample.fullChain))))
      "" "keybox.xml" = Validator.SetReport r
    /\ Validator.hasGoogleRoot r = true
    /\ In c (Validator.certificates r)
    /\ includes (toLowerCase (Validator.rawIssuer c)) "google" = true.
Proof.
  destruct (proj1 trusted_root_origin
              (Sample.validatorEnv
                 (Ok (Sample.document "ECDSA" "pixel-8a-unit-0042"
                        (Some Sample.fullChain))))
              "" "keybox.xml" _ eq_refl eq_refl)
    as (c & Hin & Hgoogle & _).
  eexists. exists c. split; [reflexivity|]. split; [reflexivity|].
  split; [exact Hin | exact Hgoogle].
Defined.

Lemma fingerprint_is_truncated_digest_witness :
  exists r c,
    Validator.validateXML
      (Sample.validatorEnv
         (Ok (Sample.document "ECDSA" "pixel-8a-unit-0042" (Some Sample.fullChain))))
      "" "keybox.xml" = Validator.SetReport r
    /\ In c (Validator.certificates r)
    /\ String.length (Validator.fingerprint c) <= 32.
Proof.
  eexists. eexists.
  split; [reflexivity|]. split; [left; reflexivity|].
  apply (proj2 (proj2 fingerprint_is_truncated_digest)
           (Sample.validatorEnv
              (Ok (Sample.document "ECDSA" "pixel-8a-unit-0042"
                     (Some Sample.fullChain))))
           "" "keybox.xml" _ _ eq_refl (or_introl eq_refl)).
Defined.

Lemma no_result_without_containers_witness :
  Part001.validateXML
    (Sample.part001Env (Ok (VObject [("AndroidAttestation", VString "")]))) ""
  = Part001.NoUpdate.
Proof.
  apply (proj2 (no_result_without_containers
                  (Sample.part001Env
                     (Ok (VObject [("AndroidAttestation", VString "")]))) "")).
  exists (VObject [("AndroidAttestation", VString "")]).
  split; [reflexivity | left; reflexivity].
Defined.

